(** * Eclipse Shield: the navigation gating engine

    A shallow embedding of the browser-extension scripts of the repository:

    - [Opera]     : src/extension/background.js, the background script
                    (its first document, up to [cleanupAllData]);
    - [BlockPage] : the block-page script that follows it in the same file
                    ([handleAnalysis], [handleAnalysisResult]);
    - [Chrome]    : src/unnamed/part_005, the background script whose debug
                    lines call it background-chrome.js;
    - [Legacy]    : src/unnamed/part_006, the earlier Opera background script.

    Handlers are written as trees of browser commands ([Eff]) and run against
    an explicit [World] (store, tabs, in-memory sets, clock, analyzer). *)

From Stdlib Require Import ZArith String Ascii List Bool Lia.
From stdpp Require Import base gmap strings pretty.
Import ListNotations.

Local Open Scope Z_scope.
Local Open Scope string_scope.
Local Open Scope list_scope.

(** ** JavaScript string operations *)

Module JsString.

(** [s.startsWith(p)] *)
Fixpoint startsWith (s p : string) {struct p} : bool :=
  match p, s with
  | EmptyString, _ => true
  | String a p', String b s' => if Ascii.eqb a b then startsWith s' p' else false
  | String _ _, EmptyString => false
  end.

(** [s.includes(sub)] *)
Fixpoint includes (s sub : string) : bool :=
  startsWith s sub ||
  match s with
  | EmptyString => false
  | String _ s' => includes s' sub
  end.

(** [toLowerCase] on the ASCII letters; the bytes of other characters are
    left as they are. *)
Definition lower_ascii (c : ascii) : ascii :=
  let n := nat_of_ascii c in
  if (Nat.leb 65 n && Nat.leb n 90)%bool then ascii_of_nat (n + 32) else c.

Fixpoint toLowerCase (s : string) : string :=
  match s with
  | EmptyString => EmptyString
  | String c s' => String (lower_ascii c) (toLowerCase s')
  end.

(** [s.replace(/\/$/, '')] *)
Fixpoint dropTrailingSlash (s : string) : string :=
  match s with
  | EmptyString => EmptyString
  | String c EmptyString => if Ascii.eqb c "/" then EmptyString else s
  | String c s' => String c (dropTrailingSlash s')
  end.

(** [a || b] on strings: the empty string is falsy. *)
Definition or_default (a b : string) : string :=
  if String.eqb a "" then b else a.

(** truthiness of a string *)
Definition truthy (a : string) : bool := negb (String.eqb a "").

(** Propositional readings of the two tests. *)
Definition StartsWith (s p : string) : Prop := exists t, s = p +:+ t.
Definition Includes (s sub : string) : Prop := exists a b, s = a +:+ sub +:+ b.

End JsString.


(** ** The platform

    [new URL(...)], its serialisation and the identity of the extension are
    the browser's; the scripts are embedded over any such platform. *)

Record URL := mkURL {
  origin : string;                        (* urlObj.origin *)
  hostname : string;                      (* urlObj.hostname *)
  pathname : string;                      (* urlObj.pathname *)
  searchParams : list (string * string);  (* decoded name/value pairs, in order *)
  protocol : string;                      (* urlObj.protocol, with its colon *)
  username : string;                      (* urlObj.username *)
  password : string;                      (* urlObj.password *)
  port : string;                          (* urlObj.port *)
  hash : string                           (* urlObj.hash, with its number sign *)
}.

Class Platform := {
  parseURL : string -> option URL;   (* new URL(s); None when it throws *)
  hrefOf : URL -> string;            (* urlObj.toString() *)
  runtime_id : string;               (* chrome.runtime.id *)
  decodeURIComponent : string -> option string;
                                     (* None when it throws a URIError *)
  has_element : string -> bool;      (* document.getElementById(id) is not null,
                                        in the document of the block page *)
  background_web_storage : bool      (* sessionStorage and localStorage are
                                        defined in the background context;
                                        in a service worker they are not *)
}.

Module Js.
Import JsString.

(** [urlObj.searchParams.get(name)] *)
Fixpoint searchParams_get (ps : list (string * string)) (name : string) : option string :=
  match ps with
  | [] => None
  | (k, v) :: ps' => if String.eqb k name then Some v else searchParams_get ps' name
  end.

(** [urlObj.searchParams.get(name) || ''] *)
Definition get_or_empty (u : URL) (name : string) : string :=
  match searchParams_get (searchParams u) name with
  | Some v => v
  | None => ""
  end.

(** The URL object with another list of parameters. *)
Definition with_searchParams (u : URL) (ps : list (string * string)) : URL :=
  {| origin := origin u; hostname := hostname u; pathname := pathname u;
     searchParams := ps; protocol := protocol u; username := username u;
     password := password u; port := port u; hash := hash u |}.

(** [urlObj.searchParams.delete(name)] *)
Definition searchParams_delete (u : URL) (name : string) : URL :=
  with_searchParams u
    (List.filter (fun kv => negb (String.eqb (fst kv) name)) (searchParams u)).

(** [chrome.runtime.getURL(path)] *)
Definition getURL `{Platform} (path : string) : string :=
  "chrome-extension://" +:+ runtime_id +:+ "/" +:+ path.

(** [encodeURIComponent] on the UTF-8 bytes of the string. *)
Definition unreserved (c : ascii) : bool :=
  let n := nat_of_ascii c in
  ((Nat.leb 65 n && Nat.leb n 90) || (Nat.leb 97 n && Nat.leb n 122)
   || (Nat.leb 48 n && Nat.leb n 57)
   || existsb (Ascii.eqb c) ["-"; "_"; "."; "!"; "~"; "*"; "'"; "("; ")"]%char)%bool.

Definition hexdigit (n : nat) : ascii :=
  if Nat.ltb n 10 then ascii_of_nat (48 + n) else ascii_of_nat (55 + n).

Fixpoint encodeURIComponent (s : string) : string :=
  match s with
  | EmptyString => EmptyString
  | String c s' =>
      if unreserved c then String c (encodeURIComponent s')
      else let n := nat_of_ascii c in
           String "%" (String (hexdigit (n / 16)) (String (hexdigit (n mod 16))
             (encodeURIComponent s')))
  end.
End Js.

(** ** Data model *)

(** [sessionData].  [context] holds the JSON text of the stored context
    value ([None] when it is absent); the scripts only pass it on. *)
Record Session := mkSession {
  state : string;
  startTime : Z;
  endTime : Z;
  domain : string;
  context : option string
}.

(** [sessionData.domain], for places where [domain] names something else. *)
Definition session_domain (s : Session) : string := domain s.

(** An entry of [blockedUrls] / [allowedUrls]. *)
Record Entry := mkEntry {
  e_url : string;
  e_timestamp : Z;
  e_reason : string;
  e_searchQuery : string
}.

(** The keys of [chrome.storage.local] the scripts use; an absent key is
    [None]. *)
Record Store := mkStore {
  sessionData : option Session;
  blockedUrls : option (gmap string Entry);
  allowedUrls : option (gmap string Entry);
  stContext : option string           (* the top-level key 'context' *)
}.

Definition emptyStore : Store :=
  {| sessionData := None; blockedUrls := None; allowedUrls := None; stContext := None |}.

(** A tab; [tab_url] is the empty string when the tab has no URL. *)
Record Tab := mkTab { tab_id : Z; tab_url : string }.

(** Messages of [chrome.runtime.sendMessage], by their [type]. *)
Inductive Message :=
| URL_BLOCKED (url : string) (reason : option string)
| URL_ALLOWED (url : string) (reason : option string)
| URL_ANALYSIS_UPDATE (url action reason : string).

(** The analyzer's JSON answer: an object with [isProductive], any other
    value but null (the legacy format, taken by its truthiness), or null. *)
Inductive AnalysisResult :=
| ResObject (isProductive : bool) (explanation : string)
| ResLegacy (truthy : bool)
| ResNull.

(** The body of the POST to /analyze. *)
Record Request := mkRequest {
  rq_url : string;
  rq_domain : string;
  rq_context : string;
  rq_session_id : Z;
  rq_search_query : string
}.

(** What [fetch] gives: a rejected promise, or a response with its [ok] flag
    and JSON body. *)
Inductive FetchOutcome :=
| NetworkError
| Response (ok : bool) (status : Z) (body : AnalysisResult).

(** The block page's own variables and its [sessionStorage]. *)
Record Page := mkPage {
  isAnalyzing : bool;
  globalRedirectFlag : bool;
  section : string;                                (* the section shown *)
  location : option string;                        (* where the page navigated away to;
                                                      [tabs] does not follow the
                                                      page's own tab *)
  sessionCache : gmap string (AnalysisResult * Z)  (* sessionStorage: result, timestamp *)
}.

(** ** Browser commands and handler programs *)

(** The calls a script makes to the browser and to its own variables, each
    with the type of what comes back: the chrome.storage.local and
    chrome.tabs calls, runtime messages, the background script's
    [activeUrls] set, the clock, [fetch], and the block page's variables. *)
Inductive Cmd : Type -> Type :=
| StorageGet (keys : list string) : Cmd (option Store)
| StorageSet (items : Store) : Cmd bool
| StorageClear : Cmd unit
| TabsQuery : Cmd (list Tab)
| TabsUpdate (tabId : Z) (url : string) : Cmd unit
| TabsCreate (url : string) : Cmd Tab
| TabsRemove (ids : list Z) : Cmd unit
| SendMessage (m : Message) : Cmd bool   (* did a listener respond *)
| ActiveHas (url : string) : Cmd bool
| ActiveAdd (url : string) : Cmd unit
| ActiveDelete (url : string) : Cmd unit
| DateNow : Cmd Z
| Fetch (rq : Request) : Cmd FetchOutcome
| PageRead : Cmd Page
| PageWrite (pg : Page) : Cmd unit.

(** A handler: it returns, raises an exception, or makes a call and goes on
    with the answer.  Callbacks, promises and timers of one handler are run
    in place, in the order the script chains them; where two listeners of
    one event set timers, [Opera.onChanged] runs the timers after both
    listeners. *)
Inductive Eff (A : Type) : Type :=
| Ret (a : A)
| Throw
| Vis {R : Type} (c : Cmd R) (k : R -> Eff A).

Arguments Ret {A} a.
Arguments Throw {A}.
Arguments Vis {A R} c k.

Fixpoint bind {A B} (f : A -> Eff B) (p : Eff A) : Eff B :=
  match p with
  | Ret a => f a
  | Throw => Throw
  | Vis c k => Vis c (fun r => bind f (k r))
  end.

#[global] Instance Eff_ret : MRet Eff := @Ret.
#[global] Instance Eff_bind : MBind Eff := @bind.

(** [try { p } catch (error) { h }] *)
Fixpoint try_catch {A} (p : Eff A) (h : Eff A) : Eff A :=
  match p with
  | Ret a => Ret a
  | Throw => h
  | Vis c k => Vis c (fun r => try_catch (k r) h)
  end.

Definition call {R} (c : Cmd R) : Eff R := Vis c Ret.

(** [try { p } finally { f }] *)
Fixpoint try_finally {A} (p : Eff A) (f : Eff unit) : Eff A :=
  match p with
  | Ret a => f;; Ret a
  | Throw => f;; Throw
  | Vis c k => Vis c (fun r => try_finally (k r) f)
  end.

(** [sendMessageSafely(message)] of the background scripts: the answer is
    dropped. *)
Definition sendMessageSafely (message : Message) : Eff unit :=
  call (SendMessage message);; Ret tt.

(** [tabs.forEach(f)] *)
Fixpoint forEach {T} (l : list T) (f : T -> Eff unit) : Eff unit :=
  match l with
  | [] => Ret tt
  | x :: l' => f x ;; forEach l' f
  end.

(** ** The world the programs run in *)

(** The observable effects, in the order they happen. *)
Inductive Event :=
| EvStorageGet (keys : list string)
| EvStorageSet
| EvStorageClear
| EvTabsQuery
| EvTabsUpdate (tabId : Z) (url : string)
| EvTabsCreate (url : string)
| EvTabsRemove (ids : list Z)
| EvSendMessage (m : Message)
| EvFetch (rq : Request).

Record World := mkWorld {
  storage : Store;
  storage_ok : bool;          (* false: every access to the store fails *)
  tabs : list Tab;
  next_tab_id : Z;
  activeUrls : gset string;   (* the background script's Set *)
  now : Z;                    (* Date.now() *)
  analyzer : Request -> FetchOutcome;
  has_receiver : bool;        (* a runtime.onMessage listener answers *)
  page : Page;
  trace : list Event
}.

Definition log (e : Event) (w : World) : World :=
  {| storage := storage w; storage_ok := storage_ok w; tabs := tabs w;
     next_tab_id := next_tab_id w; activeUrls := activeUrls w; now := now w;
     analyzer := analyzer w; has_receiver := has_receiver w;
     page := page w; trace := trace w ++ [e] |}.

Definition with_storage (st : Store) (w : World) : World :=
  {| storage := st; storage_ok := storage_ok w; tabs := tabs w;
     next_tab_id := next_tab_id w; activeUrls := activeUrls w; now := now w;
     analyzer := analyzer w; has_receiver := has_receiver w;
     page := page w; trace := trace w |}.

Definition with_tabs (ts : list Tab) (n : Z) (w : World) : World :=
  {| storage := storage w; storage_ok := storage_ok w; tabs := ts;
     next_tab_id := n; activeUrls := activeUrls w; now := now w;
     analyzer := analyzer w; has_receiver := has_receiver w;
     page := page w; trace := trace w |}.

Definition with_active (a : gset string) (w : World) : World :=
  {| storage := storage w; storage_ok := storage_ok w; tabs := tabs w;
     next_tab_id := next_tab_id w; activeUrls := a; now := now w;
     analyzer := analyzer w; has_receiver := has_receiver w;
     page := page w; trace := trace w |}.

Definition with_page (pg : Page) (w : World) : World :=
  {| storage := storage w; storage_ok := storage_ok w; tabs := tabs w;
     next_tab_id := next_tab_id w; activeUrls := activeUrls w; now := now w;
     analyzer := analyzer w; has_receiver := has_receiver w;
     page := pg; trace := trace w |}.

(** [chrome.storage.local.get(keys)]: only the asked keys come back. *)
Definition has_key (keys : list string) (k : string) : bool :=
  existsb (String.eqb k) keys.

Definition restrict (keys : list string) (st : Store) : Store :=
  {| sessionData := if has_key keys "sessionData" then sessionData st else None;
     blockedUrls := if has_key keys "blockedUrls" then blockedUrls st else None;
     allowedUrls := if has_key keys "allowedUrls" then allowedUrls st else None;
     stContext := if has_key keys "context" then stContext st else None |}.

(** [chrome.storage.local.set(items)]: the given keys are overwritten. *)
Definition or_else {T} (a b : option T) : option T :=
  match a with Some _ => a | None => b end.

Definition merge_store (items st : Store) : Store :=
  {| sessionData := or_else (sessionData items) (sessionData st);
     blockedUrls := or_else (blockedUrls items) (blockedUrls st);
     allowedUrls := or_else (allowedUrls items) (allowedUrls st);
     stContext := or_else (stContext items) (stContext st) |}.

Definition set_tab_url (tabId : Z) (url : string) (t : Tab) : Tab :=
  if Z.eqb (tab_id t) tabId then {| tab_id := tab_id t; tab_url := url |} else t.

(** What a call does to the world, and its answer.  The [storage.onChanged]
    event that a write or a clear of the store raises is not part of the
    call: its listeners are handlers of their own ([Opera.onChanged],
    [Legacy.onSessionChanged]), run when the browser delivers the event. *)
Definition handle {R} (c : Cmd R) (w : World) : World * R :=
  match c in Cmd R return World * R with
  | StorageGet keys =>
      (log (EvStorageGet keys) w,
       if storage_ok w then Some (restrict keys (storage w)) else None)
  | StorageSet items =>
      if storage_ok w
      then (log EvStorageSet (with_storage (merge_store items (storage w)) w), true)
      else (log EvStorageSet w, false)
  | StorageClear =>
      (log EvStorageClear (if storage_ok w then with_storage emptyStore w else w), tt)
  | TabsQuery => (log EvTabsQuery w, tabs w)
  | TabsUpdate tabId url =>
      (log (EvTabsUpdate tabId url)
         (with_tabs (map (set_tab_url tabId url) (tabs w)) (next_tab_id w) w), tt)
  | TabsCreate url =>
      let t := {| tab_id := next_tab_id w; tab_url := url |} in
      (log (EvTabsCreate url) (with_tabs (tabs w ++ [t]) (next_tab_id w + 1) w), t)
  | TabsRemove ids =>
      (log (EvTabsRemove ids)
         (with_tabs (List.filter (fun t => negb (existsb (Z.eqb (tab_id t)) ids)) (tabs w))
            (next_tab_id w) w), tt)
  | SendMessage m => (log (EvSendMessage m) w, has_receiver w)
  | ActiveHas url => (w, bool_decide (url ∈ activeUrls w))
  | ActiveAdd url => (with_active ({[url]} ∪ activeUrls w) w, tt)
  | ActiveDelete url => (with_active (activeUrls w ∖ {[url]}) w, tt)
  | DateNow => (w, now w)
  | Fetch rq => (log (EvFetch rq) w, analyzer w rq)
  | PageRead => (w, page w)
  | PageWrite pg => (with_page pg w, tt)
  end.

(** How a handler ends: it returns, or an exception escapes it. *)
Inductive Outcome (A : Type) :=
| Returned (a : A)
| Threw.

Arguments Returned {A} a.
Arguments Threw {A}.

Fixpoint run {A} (p : Eff A) (w : World) : World * Outcome A :=
  match p with
  | Ret a => (w, Returned a)
  | Throw => (w, Threw)
  | Vis c k => let (w', r) := handle c w in run (k r) w'
  end.

(** The world after a handler has run. *)
Definition exec {A} (p : Eff A) (w : World) : World := fst (run p w).

(** [chrome.tabs.update] events of a trace. *)
Definition is_update (e : Event) : bool :=
  match e with EvTabsUpdate _ _ => true | _ => false end.


Definition is_fetch (e : Event) : bool :=
  match e with EvFetch _ => true | _ => false end.

Definition is_message (e : Event) : bool :=
  match e with EvSendMessage _ => true | _ => false end.

(** The URL a tab shows. *)
Fixpoint url_of_tab (ts : list Tab) (tabId : Z) : option string :=
  match ts with
  | [] => None
  | t :: ts' => if Z.eqb (tab_id t) tabId then Some (tab_url t) else url_of_tab ts' tabId
  end.


(** What the handlers are told about a navigation ([details]) and about a tab
    update ([tabId], [changeInfo], [tab]). *)
Record NavDetails := mkNav { frameId : Z; nav_url : string; nav_tabId : Z }.

Record TabUpdate := mkUpd {
  upd_tabId : Z;
  changeInfo_url : string;      (* empty when the update carries no URL *)
  changeInfo_status : string;
  upd_tab_url : string          (* tab.url *)
}.


(** [!data.sessionData || data.sessionData.state !== 'active'], negated *)
Definition session_is_active (sd : option Session) : bool :=
  match sd with
  | Some s => String.eqb (state s) "active"
  | None => false
  end.

(** [m[k1] || m[k2]] *)
Definition lookup_or (m : gmap string Entry) (k1 k2 : string) : option Entry :=
  match m !! k1 with
  | Some e => Some e
  | None => m !! k2
  end.

(** [opt || {}] *)
Definition or_empty (m : option (gmap string Entry)) : gmap string Entry :=
  match m with Some m' => m' | None => ∅ end.

(** [JSON.stringify(sessionData.context || [])] *)
Definition context_json (s : Session) : string :=
  match context s with Some c => c | None => "[]" end.

(** ** src/extension/background.js *)

Module Opera.
Section WithPlatform.
Context `{Platform}.
Import JsString Js.

Definition isSearchHost (h : string) : bool :=
  includes h "google.com" || includes h "bing.com" || includes h "duckduckgo.com".

Definition extractSearchQuery (url : string) : string :=
  match parseURL url with
  | Some urlObj =>
      if includes (hostname urlObj) "duckduckgo.com" then get_or_empty urlObj "q"
      else if includes (hostname urlObj) "google.com" then get_or_empty urlObj "q"
      else if includes (hostname urlObj) "bing.com" then get_or_empty urlObj "q"
      else ""
  | None => ""
  end.

Definition normalizeUrl (url : string) : string :=
  match parseURL url with
  | Some urlObj =>
      if isSearchHost (hostname urlObj) then
        let searchQuery := extractSearchQuery url in
        toLowerCase (origin urlObj +:+ "/search/" +:+ or_default searchQuery "home")
      else
        let urlObj := searchParams_delete urlObj "utm_source" in
        let urlObj := searchParams_delete urlObj "utm_medium" in
        let urlObj := searchParams_delete urlObj "utm_campaign" in
        dropTrailingSlash (toLowerCase (hrefOf urlObj))
  | None => toLowerCase url
  end.

(** [searchQuery ? `${normalizedUrl}::${searchQuery}` : normalizedUrl] *)
Definition compositeKey (url : string) : string :=
  let normalizedUrl := normalizeUrl url in
  let searchQuery := extractSearchQuery url in
  if truthy searchQuery then normalizedUrl +:+ "::" +:+ searchQuery else normalizedUrl.

Definition isBlockPage (url : string) : bool :=
  includes url runtime_id && includes url "block.html".

Definition exemptDomains : list string := ["localhost:5000"; "127.0.0.1:5000"].

Definition isExemptUrl (url : string) : bool :=
  existsb (fun domain => includes url domain) exemptDomains
  || startsWith url "chrome://"
  || startsWith url "chrome-extension://"
  || startsWith url "opera://"
  || startsWith url "about:"
  || startsWith url "file://"
  || String.eqb url "about:blank"
  || includes url "localhost:5000"
  || isBlockPage url.

(** The destinations the handlers rewrite a tab to. *)
Definition noSessionUrl (url : string) : string :=
  getURL "block.html" +:+ "?reason=no-session"
    +:+ "&url=" +:+ encodeURIComponent url
    +:+ "&original_url=" +:+ encodeURIComponent url.

Definition analyzingUrl (url : string) (s : Session) : string :=
  getURL "block.html" +:+ "?reason=analyzing"
    +:+ "&url=" +:+ encodeURIComponent url
    +:+ "&original_url=" +:+ encodeURIComponent url
    +:+ "&domain=" +:+ encodeURIComponent (domain s)
    +:+ "&context=" +:+ encodeURIComponent (context_json s).

Definition analyzingSearchUrl (url : string) (s : Session) (searchQuery : string) : string :=
  analyzingUrl url s +:+ "&search_query=" +:+ encodeURIComponent searchQuery.

Definition blockedUrl (url : string) (s : Session) (blockedEntry : Entry) : string :=
  getURL "block.html" +:+ "?reason=blocked"
    +:+ "&url=" +:+ encodeURIComponent url
    +:+ "&original_url=" +:+ encodeURIComponent url
    +:+ "&domain=" +:+ encodeURIComponent (domain s)
    +:+ "&explanation=" +:+ encodeURIComponent (e_reason blockedEntry).

Definition errorUrl (url : string) : string :=
  getURL "block.html" +:+ "?reason=error" +:+ "&url=" +:+ encodeURIComponent url.

(** The [catch] block of both navigation handlers. *)
Definition onError (tabId : Z) (url : string) : Eff unit :=
  if negb (isExemptUrl url) then call (TabsUpdate tabId (errorUrl url)) else Ret tt.

(** The [try] block of the [onBeforeNavigate] listener. *)
Definition onBeforeNavigate_try (details : NavDetails) : Eff unit :=
  let url := nav_url details in
  let tabId := nav_tabId details in
  r ← call (StorageGet ["sessionData"; "blockedUrls"; "allowedUrls"]);
  match r with
  | None => Throw
  | Some data =>
      if negb (session_is_active (sessionData data)) && negb (isExemptUrl url) then
        call (TabsUpdate tabId (noSessionUrl url))
      else
        match sessionData data with
        | Some sd =>
            if String.eqb (state sd) "active" then
              if isExemptUrl url then Ret tt
              else if includes url runtime_id && includes url "block.html" then Ret tt
              else
                let normalizedUrl := normalizeUrl url in
                let blockedUrls := or_empty (blockedUrls data) in
                let searchQuery := extractSearchQuery url in
                let compositeKey :=
                  if truthy searchQuery then normalizedUrl +:+ "::" +:+ searchQuery
                  else normalizedUrl in
                if truthy searchQuery then
                  call (ActiveAdd url);;
                  call (TabsUpdate tabId (analyzingSearchUrl url sd searchQuery))
                else
                  match lookup_or blockedUrls compositeKey normalizedUrl with
                  | Some blockedEntry =>
                      call (TabsUpdate tabId (blockedUrl url sd blockedEntry))
                  | None =>
                      call (ActiveAdd url);;
                      call (TabsUpdate tabId (analyzingUrl url sd))
                  end
            else Ret tt
        | None => Ret tt
        end
  end.

Definition onBeforeNavigate (details : NavDetails) : Eff unit :=
  if negb (Z.eqb (frameId details) 0) || negb (startsWith (nav_url details) "http")
  then Ret tt
  else try_catch (onBeforeNavigate_try details)
                 (onError (nav_tabId details) (nav_url details)).

(** The [try] block of the [tabs.onUpdated] listener. *)
Definition onUpdated_try (u : TabUpdate) : Eff unit :=
  let url := changeInfo_url u in
  let tabId := upd_tabId u in
  r ← call (StorageGet ["sessionData"]);
  match r with
  | None => Throw
  | Some data =>
      match sessionData data with
      | Some sd =>
          if String.eqb (state sd) "active" then
            if isExemptUrl url then Ret tt
            else if isBlockPage url then Ret tt
            else
              r2 ← call (StorageGet ["blockedUrls"; "allowedUrls"]);
              match r2 with
              | None => Throw
              | Some analysisData =>
                  let normalizedUrl := normalizeUrl url in
                  let blockedUrls := or_empty (blockedUrls analysisData) in
                  let allowedUrls := or_empty (allowedUrls analysisData) in
                  let searchQuery := extractSearchQuery url in
                  let compositeKey :=
                    if truthy searchQuery then normalizedUrl +:+ "::" +:+ searchQuery
                    else normalizedUrl in
                  match lookup_or blockedUrls compositeKey normalizedUrl with
                  | Some blockedEntry =>
                      call (TabsUpdate tabId (blockedUrl url sd blockedEntry));;
                      sendMessageSafely (URL_ANALYSIS_UPDATE url "blocked"
                              (or_default (e_reason blockedEntry) "Blocked by policy"))
                  | None =>
                      match lookup_or allowedUrls compositeKey normalizedUrl with
                      | Some allowedEntry =>
                          sendMessageSafely (URL_ANALYSIS_UPDATE url "allowed"
                                  (or_default (e_reason allowedEntry) "Content is productive"))
                      | None =>
                          has ← call (ActiveHas url);
                          if negb has then
                            call (ActiveAdd url);;
                            call (TabsUpdate tabId (analyzingUrl url sd))
                          else Ret tt
                      end
                  end
              end
          else
            if negb (isExemptUrl url) then call (TabsUpdate tabId (noSessionUrl url))
            else Ret tt
      | None =>
          if negb (isExemptUrl url) then call (TabsUpdate tabId (noSessionUrl url))
          else Ret tt
      end
  end.

Definition onUpdated (u : TabUpdate) : Eff unit :=
  if negb (truthy (changeInfo_url u)) || negb (startsWith (changeInfo_url u) "http")
  then Ret tt
  else try_catch (onUpdated_try u) (onError (upd_tabId u) (changeInfo_url u)).

(** "New behavior: create a single block landing tab, then close all other
    tabs".  The two timers are run in place. *)
Definition blockAllTabs : Eff unit :=
  newTab ← call (TabsCreate (getURL "block.html" +:+ "?reason=before-block"));
  if Z.eqb (tab_id newTab) 0 then Ret tt
  else
    tabs ← call TabsQuery;
    let toClose :=
      map tab_id (List.filter (fun t => negb (Z.eqb (tab_id t) (tab_id newTab))) tabs) in
    if negb (Nat.eqb (length toClose) 0) then call (TabsRemove toClose) else Ret tt.

(** "When session starts, refresh or redirect every tab to the extension new
    tab page". *)
Definition activateSessionShowNewTab : Eff unit :=
  tabs ← call TabsQuery;
  forEach tabs (fun t => call (TabsUpdate (tab_id t) (getURL "newtab.html"))).

(** "When session ends, show start/block page and close all other tabs".
    The timer is run in place. *)
Definition endSessionShowStartAndClose : Eff unit :=
  newTab ← call (TabsCreate (getURL "block.html" +:+ "?reason=no-session"));
  if Z.eqb (tab_id newTab) 0 then Ret tt
  else
    tabs ← call TabsQuery;
    let toClose :=
      map tab_id (List.filter (fun t => negb (Z.eqb (tab_id t) (tab_id newTab))) tabs) in
    if negb (Nat.eqb (length toClose) 0) then call (TabsRemove toClose) else Ret tt.

(** What the callback of [chrome.tabs.create] sets its 300 ms timer to do, in
    [blockAllTabs] and in [endSessionShowStartAndClose] alike. *)
Definition closeOthers (newTab : Tab) : Eff unit :=
  if Z.eqb (tab_id newTab) 0 then Ret tt
  else
    tabs ← call TabsQuery;
    let toClose :=
      map tab_id (List.filter (fun t => negb (Z.eqb (tab_id t) (tab_id newTab))) tabs) in
    if negb (Nat.eqb (length toClose) 0) then call (TabsRemove toClose) else Ret tt.


End WithPlatform.
End Opera.


(** ** src/unnamed/part_006 *)

Module Legacy.
Section WithPlatform.
Context `{Platform}.
Import JsString Js.

Definition normalizeUrl (url : string) : string :=
  match parseURL url with
  | Some urlObj => hostname urlObj +:+ pathname urlObj
  | None => url
  end.

Definition isBlockPage (url : string) : bool :=
  truthy url && includes url (getURL "block.html").

Definition isExemptUrl (url : string) : bool :=
  startsWith url "chrome://"
  || startsWith url "chrome-extension://"
  || startsWith url "opera://"
  || startsWith url "about:"
  || startsWith url "file://"
  || String.eqb url "about:blank"
  || includes url "localhost:5000"
  || isBlockPage url.

Definition noSessionUrl (url : string) : string :=
  getURL "block.html" +:+ "?reason=no-session"
    +:+ "&url=" +:+ encodeURIComponent url
    +:+ "&original_url=" +:+ encodeURIComponent url.

Definition errorUrl (url : string) : string :=
  getURL "block.html" +:+ "?reason=error" +:+ "&url=" +:+ encodeURIComponent url.

Definition sessionEndedUrl (url : string) : string :=
  getURL "block.html" +:+ "?reason=session-ended" +:+ "&url=" +:+ encodeURIComponent url.

Definition onError (tabId : Z) (url : string) : Eff unit :=
  if negb (isExemptUrl url) then call (TabsUpdate tabId (errorUrl url)) else Ret tt.

Definition onBeforeNavigate_try (details : NavDetails) : Eff unit :=
  r ← call (StorageGet ["sessionData"; "blockedUrls"; "allowedUrls"]);
  match r with
  | None => Throw
  | Some data =>
      if negb (session_is_active (sessionData data)) then
        if negb (isExemptUrl (nav_url details)) then
          call (TabsUpdate (nav_tabId details) (noSessionUrl (nav_url details)))
        else Ret tt
      else Ret tt
  end.

Definition onBeforeNavigate (details : NavDetails) : Eff unit :=
  if negb (Z.eqb (frameId details) 0) || negb (startsWith (nav_url details) "http")
  then Ret tt
  else try_catch (onBeforeNavigate_try details)
                 (onError (nav_tabId details) (nav_url details)).

(** The function of each tab in [blockAllTabs]. *)
Definition blockTab (tab : Tab) : Eff unit :=
  if truthy (tab_url tab) && negb (isExemptUrl (tab_url tab)) then
    call (TabsUpdate (tab_id tab) (sessionEndedUrl (tab_url tab)))
  else Ret tt.

Definition blockAllTabs : Eff unit :=
  tabs ← call TabsQuery;
  forEach tabs blockTab.


End WithPlatform.
End Legacy.

(** ** src/unnamed/part_005 *)

Module Chrome.
Section WithPlatform.
Context `{Platform}.
Import JsString Js.

Definition isBlockPage (url : string) : bool :=
  truthy url && includes url (getURL "block.html").

Definition isExemptUrl (url : string) : bool :=
  startsWith url "chrome://"
  || startsWith url "chrome-extension://"
  || startsWith url "opera://"
  || startsWith url "about:"
  || startsWith url "file://"
  || String.eqb url "about:blank"
  || includes url "localhost:5000"
  || isBlockPage url.

Definition normalizeUrl (url : string) : string :=
  match parseURL url with
  | Some parsed => toLowerCase (hostname parsed) +:+ pathname parsed
  | None => toLowerCase url
  end.

Definition getUrlKey (url : string) : string :=
  let normalized := normalizeUrl url in
  match parseURL url with
  | Some urlObj =>
      let searchQuery := get_or_empty urlObj "q" in
      if truthy searchQuery then normalized +:+ "::" +:+ searchQuery else normalized
  | None => normalizeUrl url
  end.

(** [sessionStorage.clear(); localStorage.clear()] in the background
    context.  What the two hold is not part of the world; where they are not
    defined the first statement throws a ReferenceError. *)
Definition clearWebStorage : Eff unit :=
  if background_web_storage then Ret tt else Throw.

Definition cleanupAllData : Eff unit :=
  call StorageClear;;
  clearWebStorage;;
  tabs ← call TabsQuery;
  forEach tabs (fun tab =>
    if isBlockPage (tab_url tab) then call (TabsUpdate (tab_id tab) "chrome://newtab")
    else Ret tt).

Definition checkSessionTimeout : Eff unit :=
  r ← call (StorageGet ["sessionData"]);
  match r with
  | None => Throw
  | Some data =>
      match sessionData data with
      | Some sd =>
          if negb (Z.eqb (endTime sd) 0) then
            now ← call DateNow;
            let timeRemaining := endTime sd - now in
            if Z.leb timeRemaining 0 then cleanupAllData else Ret tt
          else Ret tt
      | None => Ret tt
      end
  end.

Definition noSessionUrl (url : string) : string :=
  getURL "block.html" +:+ "?reason=no-session"
    +:+ "&url=" +:+ encodeURIComponent url
    +:+ "&original_url=" +:+ encodeURIComponent url.

Definition blockedUrl (url : string) (s : Session) (blockedEntry : Entry) : string :=
  getURL "block.html" +:+ "?reason=blocked"
    +:+ "&url=" +:+ encodeURIComponent url
    +:+ "&original_url=" +:+ encodeURIComponent url
    +:+ "&domain=" +:+ encodeURIComponent (domain s)
    +:+ "&explanation=" +:+ encodeURIComponent (e_reason blockedEntry).

Definition analyzingUrl (url : string) (s : Session) : string :=
  getURL "block.html" +:+ "?reason=analyzing"
    +:+ "&url=" +:+ encodeURIComponent url
    +:+ "&original_url=" +:+ encodeURIComponent url
    +:+ "&domain=" +:+ encodeURIComponent (domain s)
    +:+ "&context=" +:+ encodeURIComponent (context_json s).

(** [getBlockPageReason(url)]; [None] is [null]. *)
Definition getBlockPageReason (url : string) : option string :=
  match parseURL url with
  | Some urlObj => searchParams_get (searchParams urlObj) "reason"
  | None => None
  end.

(** [blockedUrls && (blockedUrls[k1] || blockedUrls[k2])] *)
Definition lookup_opt (m : option (gmap string Entry)) (k1 k2 : string) : option Entry :=
  match m with
  | Some m' => lookup_or m' k1 k2
  | None => None
  end.

(** "Skip internal browser URLs and the extension pages": the first test of
    the [tabs.onUpdated] listener. *)
Definition isInternalUrl (url : string) : bool :=
  startsWith url "chrome" || startsWith url "chrome-extension"
  || startsWith url "about" || startsWith url "edge"
  || includes url "localhost:5000".

(** The [try] block of the [tabs.onUpdated] listener. *)
Definition onUpdated_try (u : TabUpdate) : Eff unit :=
  let url := upd_tab_url u in
  let tabId := upd_tabId u in
  if isInternalUrl url
  then Ret tt
  else
    r ← call (StorageGet ["sessionData"]);
    match r with
    | None => Throw
    | Some data =>
        match sessionData data with
        | Some sessionData =>
            if String.eqb (state sessionData) "active" then
              if negb (isBlockPage url) then
                let normalizedUrl := normalizeUrl url in
                r2 ← call (StorageGet ["blockedUrls"; "allowedUrls"]);
                match r2, parseURL url with
                | Some urls, Some urlObj =>
                    let searchQuery := get_or_empty urlObj "q" in
                    let urlKey :=
                      if truthy searchQuery then normalizedUrl +:+ "::" +:+ searchQuery
                      else normalizedUrl in
                    match lookup_opt (blockedUrls urls) urlKey normalizedUrl with
                    | Some blockedEntry =>
                        sendMessageSafely
                          (URL_ANALYSIS_UPDATE url "blocked" (e_reason blockedEntry));;
                        if negb (bool_decide (getBlockPageReason url = Some "blocked")) then
                          call (TabsUpdate tabId (blockedUrl url sessionData blockedEntry))
                        else Ret tt
                    | None =>
                        let allowedEntry :=
                          lookup_opt (allowedUrls urls) urlKey normalizedUrl in
                        has ← call (ActiveHas url);
                        if negb has && negb (bool_decide (is_Some allowedEntry)) then
                          call (ActiveAdd url);;
                          call (TabsUpdate tabId (analyzingUrl url sessionData))
                        else
                          match lookup_opt (allowedUrls urls) urlKey urlKey with
                          | Some e =>
                              sendMessageSafely
                                (URL_ANALYSIS_UPDATE url "allowed"
                                   (or_default (e_reason e) "Content is productive"))
                          | None => Ret tt
                          end
                    end
                | _, _ => Throw
                end
              else
                if bool_decide (getBlockPageReason url = Some "no-session") then
                  match parseURL url with
                  | Some urlObj =>
                      let originalUrl := get_or_empty urlObj "original_url" in
                      if truthy originalUrl then call (TabsUpdate tabId originalUrl)
                      else Ret tt
                  | None => Throw
                  end
                else Ret tt
            else
              if negb (isBlockPage url) then call (TabsUpdate tabId (noSessionUrl url))
              else Ret tt
        | None =>
            if negb (isBlockPage url) then call (TabsUpdate tabId (noSessionUrl url))
            else Ret tt
        end
    end.

(** The listener; its [catch] only logs. *)
Definition onUpdated (u : TabUpdate) : Eff unit :=
  if negb (String.eqb (changeInfo_status u) "complete") || negb (truthy (upd_tab_url u))
  then Ret tt
  else try_catch (onUpdated_try u) (Ret tt).

(** [message.reason || dflt] *)
Definition reason_or (reason : option string) (dflt : string) : string :=
  match reason with
  | Some r => or_default r dflt
  | None => dflt
  end.

(** The [chrome.runtime.onMessage] listener for the analysis results. *)
Definition onMessage (message : Message) : Eff unit :=
  match message with
  | URL_BLOCKED url reason =>
      let urlKey := getUrlKey url in
      r ← call (StorageGet ["blockedUrls"]);
      match r, parseURL url with
      | Some data, Some urlObj =>
          let blockedUrls := or_empty (blockedUrls data) in
          now ← call DateNow;
          let blockedUrls :=
            <[urlKey := {| e_url := url; e_timestamp := now;
                           e_reason := reason_or reason "Not relevant to current task";
                           e_searchQuery := get_or_empty urlObj "q" |}]> blockedUrls in
          _ ← call (StorageSet {| sessionData := None; blockedUrls := Some blockedUrls;
                                  allowedUrls := None; stContext := None |});
          call (ActiveDelete url);;
          sendMessageSafely (URL_ANALYSIS_UPDATE url "blocked"
                               (reason_or reason "Not relevant to current task"))
      | _, _ => Throw
      end
  | URL_ALLOWED url reason =>
      let urlKey := getUrlKey url in
      r ← call (StorageGet ["allowedUrls"]);
      match r, parseURL url with
      | Some data, Some urlObj =>
          let allowedUrls := or_empty (allowedUrls data) in
          now ← call DateNow;
          let allowedUrls :=
            <[urlKey := {| e_url := url; e_timestamp := now;
                           e_reason := reason_or reason "Content is productive";
                           e_searchQuery := get_or_empty urlObj "q" |}]> allowedUrls in
          _ ← call (StorageSet {| sessionData := None; blockedUrls := None;
                                  allowedUrls := Some allowedUrls; stContext := None |});
          call (ActiveDelete url);;
          sendMessageSafely (URL_ANALYSIS_UPDATE url "allowed"
                               (reason_or reason "Content is productive"))
      | _, _ => Throw
      end
  | URL_ANALYSIS_UPDATE _ _ _ => Ret tt
  end.

End WithPlatform.
End Chrome.


(** ** The block page script (second document of src/extension/background.js) *)

Module BlockPage.
Section WithPlatform.
Context `{Platform}.
Import JsString Js.

Definition extractSearchQuery (url : string) : string :=
  match parseURL url with
  | Some urlObj =>
      if includes (hostname urlObj) "duckduckgo.com" then get_or_empty urlObj "q"
      else if includes (hostname urlObj) "google.com" then get_or_empty urlObj "q"
      else if includes (hostname urlObj) "bing.com" then get_or_empty urlObj "q"
      else ""
  | None => ""
  end.

Definition normalizeUrl (url : string) : string :=
  match parseURL url with
  | Some urlObj =>
      let searchQuery := extractSearchQuery url in
      if truthy searchQuery then toLowerCase (origin urlObj +:+ "?q=" +:+ searchQuery)
      else
        let urlObj := searchParams_delete urlObj "utm_source" in
        let urlObj := searchParams_delete urlObj "utm_medium" in
        let urlObj := searchParams_delete urlObj "utm_campaign" in
        dropTrailingSlash (toLowerCase (hrefOf urlObj))
  | None => toLowerCase url
  end.

Definition showSection (sectionId : string) : Eff unit :=
  pg ← call PageRead;
  call (PageWrite {| isAnalyzing := isAnalyzing pg;
                     globalRedirectFlag := globalRedirectFlag pg;
                     section := sectionId; location := location pg;
                     sessionCache := sessionCache pg |}).

Definition set_isAnalyzing (b : bool) : Eff unit :=
  pg ← call PageRead;
  call (PageWrite {| isAnalyzing := b; globalRedirectFlag := globalRedirectFlag pg;
                     section := section pg; location := location pg;
                     sessionCache := sessionCache pg |}).

(** [globalRedirectFlag = true; window.location.replace(url)] (or [.href = url]) *)
Definition redirectTo (url : string) : Eff unit :=
  pg ← call PageRead;
  call (PageWrite {| isAnalyzing := isAnalyzing pg; globalRedirectFlag := true;
                     section := section pg; location := Some url;
                     sessionCache := sessionCache pg |}).

(** [sessionStorage.setItem(cacheKey, JSON.stringify({ result, timestamp }))] *)
Definition cachePut (cacheKey : string) (result : AnalysisResult) (timestamp : Z) : Eff unit :=
  pg ← call PageRead;
  call (PageWrite {| isAnalyzing := isAnalyzing pg;
                     globalRedirectFlag := globalRedirectFlag pg;
                     section := section pg; location := location pg;
                     sessionCache := <[cacheKey := (result, timestamp)]> (sessionCache pg) |}).

(** [result.isProductive] and [result.explanation]; both are undefined on a
    bare value.  On null the property access throws: the callers take that
    case first. *)
Definition res_isProductive (result : AnalysisResult) : bool :=
  match result with ResObject p _ => p | ResLegacy _ => false | ResNull => false end.

Definition res_explanation (result : AnalysisResult) : option string :=
  match result with ResObject _ e => Some e | ResLegacy _ => None | ResNull => None end.

(** [if (el) el.textContent = decodeURIComponent(text)]: the text shown is
    not part of the world, the URIError of a malformed escape is. *)
Definition setText (id text : string) : Eff unit :=
  if has_element id then
    match decodeURIComponent text with
    | Some _ => Ret tt
    | None => Throw
    end
  else Ret tt.

(** [displayBlockedInfo(url, explanation)], as the analysis calls it, without
    a duration; [None] is an undefined explanation. *)
Definition displayBlockedInfo (url : string) (explanation : option string) : Eff unit :=
  setText "blockedUrl" url;;
  setText "explanation" (match explanation with Some e => e | None => "" end).

Definition handleAnalysisResult (result : AnalysisResult) (url originalUrl : string)
  : Eff unit :=
  match result with
  | ResObject isProductive explanation =>
      if isProductive then
        answered ← call (SendMessage (URL_ALLOWED originalUrl None));
        if (answered : bool) then redirectTo originalUrl else Ret tt
      else
        showSection "blocked";;
        displayBlockedInfo url (Some explanation);;
        _ ← call (SendMessage (URL_BLOCKED originalUrl (Some explanation)));
        Ret tt
  | ResLegacy truthy =>
      if truthy then
        answered ← call (SendMessage (URL_ALLOWED originalUrl None));
        if (answered : bool) then redirectTo originalUrl else Ret tt
      else
        showSection "blocked";;
        displayBlockedInfo url (Some "Content not relevant to current task");;
        _ ← call (SendMessage
                    (URL_BLOCKED originalUrl (Some "Content not relevant to current task")));
        Ret tt
  | ResNull => Throw            (* ['isProductive' in null] *)
  end.

(** The body sent to /analyze; [context] is the stored top-level key. *)
Definition requestBody (originalUrl domain : string) (sessionData : Session)
    (context : option string) : Request :=
  {| rq_url := originalUrl;
     rq_domain := or_default domain (session_domain sessionData);
     rq_context := match context with
                   | Some c => c
                   | None => context_json sessionData
                   end;
     rq_session_id := startTime sessionData;
     rq_search_query := extractSearchQuery originalUrl |}.

(** The analysis call fails: the promise of [fetch] is rejected, or the
    response is not ok. *)
Definition fetch_fails (response : FetchOutcome) : bool :=
  match response with
  | NetworkError => true
  | Response ok _ _ => negb ok
  end.

(** The part of the [try] block after a cache miss: the analysis call. *)
Definition analyze (url originalUrl domain : string) (sessionData : Session)
    (cacheKey : string) (now : Z) : Eff unit :=
  r ← call (StorageGet ["context"]);
  match r with
  | None => Throw
  | Some data =>
      response ← call (Fetch (requestBody originalUrl domain sessionData (stContext data)));
      match response with
      | NetworkError => Throw
      | Response ok status result =>
          if negb ok then Throw
          else
            cachePut cacheKey result now;;
            match result with
            | ResNull => Throw            (* [result.isProductive] on null *)
            | _ =>
                pg ← call PageRead;
                if res_isProductive result && negb (globalRedirectFlag pg) then
                  redirectTo originalUrl
                else
                  showSection "blocked";;
                  displayBlockedInfo url (res_explanation result);;
                  _ ← call (SendMessage
                              (URL_BLOCKED originalUrl (res_explanation result)));
                  Ret tt
            end
      end
  end.

(** [`${url}-${domain}-${sessionData.startTime}-${searchQuery}`] *)
Definition cacheKey (url domain : string) (sessionData : Session) : string :=
  url +:+ "-" +:+ domain +:+ "-" +:+ pretty (startTime sessionData)
      +:+ "-" +:+ extractSearchQuery url.

(** [cachedData && cachedData.timestamp && (now - cachedData.timestamp < 60000)] *)
Definition isCacheValid (cachedData : option (AnalysisResult * Z)) (now : Z) : bool :=
  match cachedData with
  | Some (_, timestamp) => negb (Z.eqb timestamp 0) && Z.ltb (now - timestamp) 60000
  | None => false
  end.

(** The [try] block of [handleAnalysis]. *)
Definition handleAnalysis_try (url originalUrl domain : string) (sessionData : Session)
  : Eff unit :=
  let cacheKey := cacheKey url domain sessionData in
  pg ← call PageRead;
  now ← call DateNow;
  let cachedData := sessionCache pg !! cacheKey in
  match cachedData with
  | Some (result, _) =>
      if isCacheValid cachedData now
      then handleAnalysisResult result url originalUrl
      else analyze url originalUrl domain sessionData cacheKey now
  | None => analyze url originalUrl domain sessionData cacheKey now
  end.

Definition handleAnalysis (url originalUrl domain : string) (sessionData : Session)
  : Eff unit :=
  set_isAnalyzing true;;
  showSection "analyzing";;
  try_finally
    (try_catch (handleAnalysis_try url originalUrl domain sessionData)
               (showSection "error"))
    (set_isAnalyzing false).

End WithPlatform.
End BlockPage.

(** ** A concrete platform

    A URL reader for plain absolute URLs of the form
    scheme://host[:port][/path][?query], without escapes or fragment, used
    to run the scripts on examples. *)

Module Simple.
Import JsString.

(** Splits [s] at the first occurrence of the character [c]. *)
Fixpoint split_at (c : ascii) (s : string) : string * option string :=
  match s with
  | EmptyString => (EmptyString, None)
  | String a s' =>
      if Ascii.eqb a c then (EmptyString, Some s')
      else let (l, r) := split_at c s' in (String a l, r)
  end.

Fixpoint split_all (fuel : nat) (c : ascii) (s : string) : list string :=
  match fuel with
  | O => [s]
  | S n =>
      match split_at c s with
      | (l, Some r) => l :: split_all n c r
      | (l, None) => [l]
      end
  end.

Definition parse_pair (kv : string) : string * string :=
  match split_at "=" kv with
  | (k, Some v) => (k, v)
  | (k, None) => (k, "")
  end.

Definition parse_query (q : string) : list (string * string) :=
  if String.eqb q "" then []
  else map parse_pair (split_all (String.length q) "&" q).

Definition fragment (frag : option string) : string :=
  match frag with
  | Some f => if String.eqb f "" then "" else "#" +:+ f
  | None => ""
  end.

Definition parse (s : string) : option URL :=
  match split_at ":" s with
  | (scheme, Some rest) =>
      if startsWith rest "//" && negb (String.eqb scheme "") then
        let rest := String.substring 2 (String.length rest - 2) rest in
        let (before_hash, frag) := split_at "#" rest in
        let (before_q, q) := split_at "?" before_hash in
        let (authority, path) := split_at "/" before_q in
        let (userinfo, hostport) :=
          match split_at "@" authority with
          | (u, Some hp) => (u, hp)
          | (hp, None) => ("", hp)
          end in
        let (user, pass) := split_at ":" userinfo in
        let (host, prt) := split_at ":" hostport in
        if String.eqb host "" then None
        else Some {| origin := scheme +:+ "://" +:+ hostport;
                     hostname := host;
                     pathname := match path with
                                 | Some p => "/" +:+ p
                                 | None => "/"
                                 end;
                     searchParams := match q with
                                     | Some q' => parse_query q'
                                     | None => []
                                     end;
                     protocol := scheme +:+ ":";
                     username := user;
                     password := match pass with Some p => p | None => "" end;
                     port := match prt with Some p => p | None => "" end;
                     hash := fragment frag |}
      else None
  | (_, None) => None
  end.

Definition serialize_query (ps : list (string * string)) : string :=
  match ps with
  | [] => ""
  | _ => "?" +:+ String.concat "&" (map (fun kv => fst kv +:+ "=" +:+ snd kv) ps)
  end.

Definition credentials (u : URL) : string :=
  if String.eqb (username u) "" && String.eqb (password u) "" then ""
  else username u
         +:+ (if String.eqb (password u) "" then "" else ":" +:+ password u) +:+ "@".

Definition href (u : URL) : string :=
  protocol u +:+ "//" +:+ credentials u +:+ hostname u
    +:+ (if String.eqb (port u) "" then "" else ":" +:+ port u)
    +:+ pathname u +:+ serialize_query (searchParams u) +:+ hash u.

Definition hexval (c : ascii) : option nat :=
  let n := nat_of_ascii c in
  if Nat.leb 48 n && Nat.leb n 57 then Some (n - 48)%nat
  else if Nat.leb 65 n && Nat.leb n 70 then Some (n - 55)%nat
  else if Nat.leb 97 n && Nat.leb n 102 then Some (n - 87)%nat
  else None.

Definition between (lo hi n : nat) : bool := Nat.leb lo n && Nat.leb n hi.

(** Percent-decoding; an escaped byte above 0x7F must begin a well-formed
    UTF-8 sequence, all of it escaped.  [pending] bytes of the sequence are
    still expected, the next of them between [lo] and [hi]. *)
Fixpoint decode (pending lo hi : nat) (s : string) : option string :=
  match s with
  | EmptyString => if Nat.eqb pending 0 then Some EmptyString else None
  | String c s1 =>
      if Ascii.eqb c "%" then
        match s1 with
        | String h1 (String h2 s2) =>
            match hexval h1, hexval h2 with
            | Some a, Some b =>
                let n := (16 * a + b)%nat in
                if Nat.eqb pending 0 then
                  if Nat.ltb n 128 then String (ascii_of_nat n) <$> decode 0 0 0 s2
                  else if between 194 223 n
                    then String (ascii_of_nat n) <$> decode 1 128 191 s2
                  else if Nat.eqb n 224
                    then String (ascii_of_nat n) <$> decode 2 160 191 s2
                  else if between 225 236 n || between 238 239 n
                    then String (ascii_of_nat n) <$> decode 2 128 191 s2
                  else if Nat.eqb n 237
                    then String (ascii_of_nat n) <$> decode 2 128 159 s2
                  else if Nat.eqb n 240
                    then String (ascii_of_nat n) <$> decode 3 144 191 s2
                  else if between 241 243 n
                    then String (ascii_of_nat n) <$> decode 3 128 191 s2
                  else if Nat.eqb n 244
                    then String (ascii_of_nat n) <$> decode 3 128 143 s2
                  else None
                else if between lo hi n
                  then String (ascii_of_nat n) <$> decode (pending - 1) 128 191 s2
                else None
            | _, _ => None
            end
        | _ => None
        end
      else if Nat.eqb pending 0 then String c <$> decode 0 0 0 s1
      else None
  end.

(** The background script runs as a service worker, and the document of the
    block page has every element its script looks up. *)
Definition platform : Platform :=
  {| parseURL := parse; hrefOf := href;
     runtime_id := "abcdefghijklmnopabcdefghijklmnop";
     decodeURIComponent := decode 0 0 0;
     has_element := fun _ => true;
     background_web_storage := false |}.

Definition emptyPage : Page :=
  {| isAnalyzing := false; globalRedirectFlag := false; section := "no-session";
     location := None; sessionCache := ∅ |}.

(** A world with the given store, tabs, in-flight set and clock, whose
    analyzer is unreachable. *)
Definition world (st : Store) (ts : list Tab) (a : gset string) (t : Z) : World :=
  {| storage := st; storage_ok := true; tabs := ts; next_tab_id := 100;
     activeUrls := a; now := t; analyzer := fun _ => NetworkError;
     has_receiver := true; page := emptyPage; trace := [] |}.

(** The same world with a store whose every access fails. *)
Definition failing (w : World) : World :=
  {| storage := storage w; storage_ok := false; tabs := tabs w;
     next_tab_id := next_tab_id w; activeUrls := activeUrls w; now := now w;
     analyzer := analyzer w; has_receiver := has_receiver w; page := page w;
     trace := trace w |}.

End Simple.


(** ** The exemption rule in the words of the specification

    "A URL is exempt if its scheme is an internal browser scheme, an
    extension-page scheme, a local file scheme, or if its origin matches the
    analyzer service's own origin, or if it already points at the extension's
    own block page."  Kept apart from the scripts' own [isExemptUrl] to
    compare the two. *)

Module SpecWords.
Section WithPlatform.
Context `{Platform}.

(** The text before the first colon. *)
Definition scheme (u : string) : string := fst (Simple.split_at ":" u).

Definition analyzer_origin : string := "http://localhost:5000".

Definition exempt (u : string) : bool :=
  existsb (String.eqb (scheme u)) ["chrome"; "opera"; "about"]
  || String.eqb (scheme u) "chrome-extension"
  || String.eqb (scheme u) "file"
  || match parseURL u with
     | Some p => String.eqb (origin p) analyzer_origin
     | None => false
     end
  || JsString.startsWith u (Js.getURL "block.html").

End WithPlatform.
End SpecWords.


(** ** Worlds after a rewrite *)

(** The world after [chrome.tabs.update(tabId, { url })]. *)
Definition redirected (tabId : Z) (url : string) (w : World) : World :=
  log (EvTabsUpdate tabId url)
    (with_tabs (map (set_tab_url tabId url) (tabs w)) (next_tab_id w) w).



(** What [blockAllTabs] of part_006 makes of a tab: a tab with a URL that is
    not exempt is sent to the block page, any other tab is kept. *)
Definition session_ended_tab `{Platform} (t : Tab) : Tab :=
  if JsString.truthy (tab_url t) && negb (Legacy.isExemptUrl (tab_url t))
  then {| tab_id := tab_id t; tab_url := Legacy.sessionEndedUrl (tab_url t) |}
  else t.

(** The tab [chrome.tabs.create({ url })] opens in a world. *)
Definition landing_tab (url : string) (w : World) : Tab :=
  {| tab_id := next_tab_id w; tab_url := url |}.


(** ** The rest of the scripts

    The handlers and helpers of the four scripts that the modules above
    leave out and that the commands of [Cmd] can express. *)

(** *** src/extension/background.js: start-up *)

Module OperaLifecycle.
Section WithPlatform.
Context `{Platform}.
Import JsString Js.

(** The [chrome.runtime.onStartup] listener; the [onInstalled] listener has
    the same body.  Neither has a [try]. *)
Definition onStartup : Eff unit :=
  r ← call (StorageGet ["sessionData"]);
  match r with
  | None => Throw
  | Some data =>
      if negb (session_is_active (sessionData data)) then Opera.blockAllTabs
      else Ret tt
  end.

Definition onInstalled : Eff unit := onStartup.

End WithPlatform.
End OperaLifecycle.

(** *** src/unnamed/part_006: the tab-update listener, start-up *)

Module LegacyHandlers.
Section WithPlatform.
Context `{Platform}.
Import JsString Js.

(** The [try] block of the [tabs.onUpdated] listener. *)
Definition onUpdated_try (u : TabUpdate) : Eff unit :=
  r ← call (StorageGet ["sessionData"]);
  match r with
  | None => Throw
  | Some data =>
      if negb (session_is_active (sessionData data)) then
        if negb (Legacy.isExemptUrl (changeInfo_url u)) then
          call (TabsUpdate (upd_tabId u) (Legacy.noSessionUrl (changeInfo_url u)))
        else Ret tt
      else Ret tt
  end.

Definition onUpdated (u : TabUpdate) : Eff unit :=
  if negb (truthy (changeInfo_url u)) || negb (startsWith (changeInfo_url u) "http")
  then Ret tt
  else try_catch (onUpdated_try u) (Legacy.onError (upd_tabId u) (changeInfo_url u)).

(** The [chrome.runtime.onStartup] listener; [onInstalled] has the same body. *)
Definition onStartup : Eff unit :=
  r ← call (StorageGet ["sessionData"]);
  match r with
  | None => Throw
  | Some data =>
      if negb (session_is_active (sessionData data)) then Legacy.blockAllTabs
      else Ret tt
  end.

Definition onInstalled : Eff unit := onStartup.

End WithPlatform.
End LegacyHandlers.

(** *** src/unnamed/part_005: tab management *)

Module ChromeTabs.
Section WithPlatform.
Context `{Platform}.
Import JsString Js.

Definition restartUrl (url : string) : string :=
  getURL "block.html" +:+ "?reason=no-session" +:+ "&url=" +:+ encodeURIComponent url.

(** The function of each tab in [blockAllTabs]. *)
Definition blockTab (tab : Tab) : Eff unit :=
  if truthy (tab_url tab) && negb (Chrome.isExemptUrl (tab_url tab)) then
    call (TabsUpdate (tab_id tab) (restartUrl (tab_url tab)))
  else Ret tt.

(** "Function to block all currently open tabs". *)
Definition blockAllTabs : Eff unit :=
  tabs ← call TabsQuery;
  forEach tabs blockTab.

(** [createSingleLandingAndCloseAll(landingUrl)]; the timer is run in place. *)
Definition createSingleLandingAndCloseAll (landingUrl : string) : Eff unit :=
  newTab ← call (TabsCreate landingUrl);
  if Z.eqb (tab_id newTab) 0 then Ret tt
  else
    tabs ← call TabsQuery;
    let toClose :=
      map tab_id (List.filter (fun t => negb (Z.eqb (tab_id t) (tab_id newTab))) tabs) in
    if negb (Nat.eqb (length toClose) 0) then call (TabsRemove toClose) else Ret tt.

Definition activateSessionShowNewTab : Eff unit :=
  tabs ← call TabsQuery;
  forEach tabs (fun t => call (TabsUpdate (tab_id t) (getURL "newtab.html"))).

Definition endSessionShowStartAndClose : Eff unit :=
  createSingleLandingAndCloseAll (getURL "block.html" +:+ "?reason=no-session").

End WithPlatform.
End ChromeTabs.

(** *** The block page script: the session timer *)

Module BlockPageTimer.
Section WithPlatform.
Context `{Platform}.
Import JsString Js.

(** [sessionStorage.clear()] *)
Definition clearSessionStorage : Eff unit :=
  pg ← call PageRead;
  call (PageWrite {| isAnalyzing := isAnalyzing pg;
                     globalRedirectFlag := globalRedirectFlag pg;
                     section := section pg; location := location pg;
                     sessionCache := ∅ |}).

(** [window.location.replace(url)], which leaves [globalRedirectFlag] alone. *)
Definition locationReplace (url : string) : Eff unit :=
  pg ← call PageRead;
  call (PageWrite {| isAnalyzing := isAnalyzing pg;
                     globalRedirectFlag := globalRedirectFlag pg;
                     section := section pg; location := Some url;
                     sessionCache := sessionCache pg |}).

Definition expiredUrl (href : string) : string :=
  getURL "block.html" +:+ "?reason=no-session"
    +:+ "&url=" +:+ encodeURIComponent href
    +:+ "&original_url=" +:+ encodeURIComponent href.

(** [document.getElementById('countdown').textContent = ...]: a TypeError
    when the document has no such element; the text is not part of the
    world. *)
Definition setCountdown : Eff unit :=
  if has_element "countdown" then Ret tt else Throw.

(** The [try] block of [updateTimer], run every second on the block page
    whose address is [href].  [sessionStorage] is the page's own;
    [localStorage] is not part of the world. *)
Definition updateTimer_try (href : string) : Eff unit :=
  r ← call (StorageGet ["sessionData"]);
  match r with
  | None => Throw
  | Some data =>
      match sessionData data with
      | Some sd =>
          if negb (Z.eqb (endTime sd) 0) then
            now ← call DateNow;
            let timeLeft := endTime sd - now in
            if Z.ltb 0 timeLeft then setCountdown
            else
              setCountdown;;
              clearSessionStorage;;
              call StorageClear;;
              BlockPage.showSection "no-session";;
              if negb (includes href "reason=no-session")
              then locationReplace (expiredUrl href)
              else Ret tt
          else Ret tt
      | None => Ret tt
      end
  end.

(** [updateTimer]; its [catch] only logs. *)
Definition updateTimer (href : string) : Eff unit :=
  try_catch (updateTimer_try href) (Ret tt).

End WithPlatform.
End BlockPageTimer.


(** *** Statements about a handler's run *)

(** From [w] to [w'] the handler made no tab rewrite, or one rewrite, of the
    tab [tabId], to an address of the extension's block.html. *)
Definition at_most_one_block_rewrite `{Platform} (tabId : Z) (w w' : World) : Prop :=
  exists l : list Event,
    List.filter is_update (trace w') = List.filter is_update (trace w) ++ l
    /\ (l = [] \/ exists rest : string,
                    l = [EvTabsUpdate tabId (Js.getURL "block.html" +:+ rest)]).


(** [displayBlockedInfo(url, explanation)] returns: each element it finds
    is given a text that decodes. *)
Definition displays `{Platform} (url : string) (explanation : option string) : bool :=
  (negb (has_element "blockedUrl") || bool_decide (is_Some (decodeURIComponent url)))
  && (negb (has_element "explanation")
      || bool_decide (is_Some (decodeURIComponent
                                 (match explanation with Some e => e | None => "" end)))).

(** The block page could show an unfavourable verdict: it is not null, and
    [displayBlockedInfo] returns on the page's URL and its explanation. *)
Definition verdict_shown `{Platform} (url : string) (result : AnalysisResult) : bool :=
  match result with
  | ResNull => false
  | _ => displays url (BlockPage.res_explanation result)
  end.

(** The same world at another reading of the clock. *)
Definition at_time (t : Z) (w : World) : World :=
  {| storage := storage w; storage_ok := storage_ok w; tabs := tabs w;
     next_tab_id := next_tab_id w; activeUrls := activeUrls w; now := t;
     analyzer := analyzer w; has_receiver := has_receiver w;
     page := page w; trace := trace w |}.

(** What a [forEach] that rewrites the tabs satisfying [c] to [f] makes of a
    tab. *)
Definition rewritten (c : Tab -> bool) (f : Tab -> string) (t : Tab) : Tab :=
  if c t then {| tab_id := tab_id t; tab_url := f t |} else t.



(** * Properties *)

(** ** Strings *)

Module JsStringFacts.
Import JsString.

Lemma startsWith_spec s p : startsWith s p = true <-> StartsWith s p.
Proof.
  revert s; induction p as [|a p IH]; intros s; simpl.
  - split; [intros _; exists s; reflexivity | reflexivity].
  - destruct s as [|b s].
    + split; [discriminate | intros [t Ht]; discriminate].
    + destruct (Ascii.eqb_spec a b) as [->|Hne].
      * rewrite IH. split; intros [t Ht]; exists t.
        -- simpl; now rewrite Ht.
        -- simpl in Ht; now inversion Ht.
      * split; [discriminate | intros [t Ht]; simpl in Ht; inversion Ht; congruence].
Qed.

Lemma includes_spec s sub : includes s sub = true <-> Includes s sub.
Proof.
  induction s as [|c s IH].
  - simpl. rewrite orb_false_r, startsWith_spec. split.
    + intros [t Ht]. exists "", t. exact Ht.
    + intros [a [b Hab]]. destruct a; [now exists b|discriminate].
  - cbn [includes]. rewrite orb_true_iff, startsWith_spec, IH. split.
    + intros [[t Ht] | [a [b Hab]]].
      * exists "", t. exact Ht.
      * exists (String c a), b. simpl. now rewrite Hab.
    + intros [a [b Hab]]. destruct a as [|c' a].
      * left. now exists b.
      * right. simpl in Hab. inversion Hab. now exists a, b.
Qed.

Lemma app_cons c s t : String c s +:+ t = String c (s +:+ t).
Proof. reflexivity. Qed.

Lemma length_toLowerCase s : String.length (toLowerCase s) = String.length s.
Proof.
  induction s as [|c s IH]; [reflexivity|].
  change (S (String.length (toLowerCase s)) = S (String.length s)). now rewrite IH.
Qed.

Lemma toLowerCase_app s t : toLowerCase (s +:+ t) = toLowerCase s +:+ toLowerCase t.
Proof.
  induction s as [|c s IH]; [reflexivity|].
  change (String (lower_ascii c) (toLowerCase (s +:+ t))
          = String (lower_ascii c) (toLowerCase s +:+ toLowerCase t)).
  now rewrite IH.
Qed.

Lemma length_app s t : String.length (s +:+ t) = (String.length s + String.length t)%nat.
Proof. induction s as [|c s IH]; [reflexivity|]. rewrite app_cons. simpl. now rewrite IH. Qed.

Lemma app_inv_head s t u : s +:+ t = s +:+ u -> t = u.
Proof.
  induction s as [|c s IH]; [trivial|]. rewrite !app_cons. intros H; inversion H; auto.
Qed.

Lemma app_inv_length s1 s2 t1 t2 :
  s1 +:+ t1 = s2 +:+ t2 -> String.length s1 = String.length s2 -> s1 = s2 /\ t1 = t2.
Proof.
  revert s2; induction s1 as [|a s1 IH]; intros [|b s2]; rewrite ?app_cons;
    simpl; intros H L; try discriminate.
  - auto.
  - inversion H; subst. destruct (IH s2) as [-> ->]; auto.
Qed.

Lemma app_assoc s t u : (s +:+ t) +:+ u = s +:+ (t +:+ u).
Proof. induction s as [|c s IH]; [reflexivity|]. rewrite !app_cons. now rewrite IH. Qed.

End JsStringFacts.

(** Closed examples run on the concrete platform. *)
#[local] Existing Instance Simple.platform.

(** ** Running handler programs *)

Section RunFacts.
Context {A B : Type}.

Lemma run_bind (p : Eff A) (f : A -> Eff B) (w : World) :
  run (p ≫= f) w =
  match run p w with
  | (w1, Returned a) => run (f a) w1
  | (w1, Threw) => (w1, Threw)
  end.
Proof.
  unfold mbind, Eff_bind. revert w.
  induction p as [a| |R c k IH]; intros w; simpl; try reflexivity.
  destruct (handle c w) as [w' r]. apply IH.
Qed.

Lemma run_try_catch (p h : Eff A) (w : World) :
  run (try_catch p h) w =
  match run p w with
  | (w1, Returned a) => (w1, Returned a)
  | (w1, Threw) => run h w1
  end.
Proof.
  revert w. induction p as [a| |R c k IH]; intros w; simpl; try reflexivity.
  destruct (handle c w) as [w' r]. apply IH.
Qed.

End RunFacts.

Lemma run_try_finally {A} (p : Eff A) (f : Eff unit) (w : World) :
  run (try_finally p f) w =
  match run p w with
  | (w1, Returned a) =>
      match run f w1 with
      | (w2, Returned _) => (w2, Returned a)
      | (w2, Threw) => (w2, Threw)
      end
  | (w1, Threw) => (fst (run f w1), Threw)
  end.
Proof.
  revert w. induction p as [a| |R c k IH]; intros w; simpl.
  - rewrite run_bind. destruct (run f w) as [w2 [u|]]; reflexivity.
  - rewrite run_bind. destruct (run f w) as [w2 [u|]]; reflexivity.
  - destruct (handle c w) as [w' r]. apply IH.
Qed.


(** ** The scope of the pre-navigation handler *)

(** C10.  A navigation whose frame is not the main frame, or whose URL does
    not start with 'http', makes the pre-navigation handler return at once:
    the world is left exactly as it was, so the store is not read and no tab
    is redirected, whatever the session state.  This holds for the handler
    of src/extension/background.js and for the one of part_006. *)
Theorem onBeforeNavigate_out_of_scope `{Platform} (details : NavDetails) (w : World) :
  frameId details <> 0 \/ JsString.startsWith (nav_url details) "http" = false ->
  run (Opera.onBeforeNavigate details) w = (w, Returned tt)
  /\ run (Legacy.onBeforeNavigate details) w = (w, Returned tt).
Proof.
  intros Hscope.
  assert (Hguard : negb (Z.eqb (frameId details) 0)
                   || negb (JsString.startsWith (nav_url details) "http") = true).
  { destruct Hscope as [Hframe | Hhttp].
    - apply Z.eqb_neq in Hframe. now rewrite Hframe.
    - rewrite Hhttp. apply orb_true_r. }
  unfold Opera.onBeforeNavigate, Legacy.onBeforeNavigate.
  rewrite Hguard. split; reflexivity.
Qed.

(** A subframe navigation and an ftp navigation, with no session stored. *)
Lemma onBeforeNavigate_out_of_scope_witness :
  let w := Simple.world emptyStore [mkTab 1 "http://old.test/"] ∅ 0 in
  (run (Opera.onBeforeNavigate (mkNav 7 "http://a.test/" 1)) w = (w, Returned tt)
   /\ run (Legacy.onBeforeNavigate (mkNav 7 "http://a.test/" 1)) w = (w, Returned tt))
  /\ (run (Opera.onBeforeNavigate (mkNav 0 "ftp://a.test/file" 1)) w = (w, Returned tt)
      /\ run (Legacy.onBeforeNavigate (mkNav 0 "ftp://a.test/file" 1)) w = (w, Returned tt)).
Proof.
  intros w. split.
  - apply (onBeforeNavigate_out_of_scope (mkNav 7 "http://a.test/" 1) w).
    left. simpl. lia.
  - apply (onBeforeNavigate_out_of_scope (mkNav 0 "ftp://a.test/file" 1) w).
    right. reflexivity.
Defined.

(** ** The exemption classifier *)

Section Exemption.
Context `{Platform}.
Import JsString JsStringFacts.

Lemma Opera_isExemptUrl_iff (url : string) :
  Opera.isExemptUrl url = true <->
  Includes url "localhost:5000" \/ Includes url "127.0.0.1:5000"
  \/ StartsWith url "chrome://" \/ StartsWith url "chrome-extension://"
  \/ StartsWith url "opera://" \/ StartsWith url "about:" \/ StartsWith url "file://"
  \/ (Includes url runtime_id /\ Includes url "block.html").
Proof.
  unfold Opera.isExemptUrl, Opera.isBlockPage, Opera.exemptDomains. cbn [existsb].
  rewrite !orb_true_iff, andb_true_iff, !startsWith_spec, !includes_spec, String.eqb_eq.
  assert (Hblank : url = "about:blank" -> StartsWith url "about:")
    by (intros ->; now exists "blank").
  split; [|tauto].
  intros Hany. repeat destruct Hany as [Hany | Hany]; try tauto; try discriminate.
Qed.

Lemma Legacy_isExemptUrl_iff (url : string) :
  Legacy.isExemptUrl url = true <->
  StartsWith url "chrome://" \/ StartsWith url "chrome-extension://"
  \/ StartsWith url "opera://" \/ StartsWith url "about:" \/ StartsWith url "file://"
  \/ Includes url "localhost:5000"
  \/ (url <> "" /\ Includes url (Js.getURL "block.html")).
Proof.
  unfold Legacy.isExemptUrl, Legacy.isBlockPage, truthy.
  rewrite !orb_true_iff, andb_true_iff, negb_true_iff, !startsWith_spec, !includes_spec,
    String.eqb_eq, String.eqb_neq.
  assert (Hblank : url = "about:blank" -> StartsWith url "about:")
    by (intros ->; now exists "blank").
  tauto.
Qed.

End Exemption.

(** ** Stepping through a handler *)

Lemma exec_ret_bind {A} (p : Eff A) (w : World) :
  exec (Ret tt ≫= fun _ => p) w = exec p w.
Proof. reflexivity. Qed.

Lemma run_call_bind {R A} (c : Cmd R) (k : R -> Eff A) (w : World) :
  run (call c ≫= k) w = run (k (snd (handle c w))) (fst (handle c w)).
Proof. unfold mbind, Eff_bind, call. simpl. now destruct (handle c w). Qed.

Lemma run_call {R} (c : Cmd R) (w : World) :
  run (call c) w = (fst (handle c w), Returned (snd (handle c w))).
Proof. unfold call. simpl. now destruct (handle c w). Qed.

Lemma run_sendMessageSafely (m : Message) (w : World) :
  run (sendMessageSafely m) w = (log (EvSendMessage m) w, Returned tt).
Proof. reflexivity. Qed.

Lemma updates_log (e : Event) (w : World) :
  is_update e = false ->
  List.filter is_update (trace (log e w)) = List.filter is_update (trace w).
Proof.
  intros He. unfold log. cbn [trace]. rewrite List.filter_app. cbn [List.filter].
  rewrite He. now rewrite app_nil_r.
Qed.

Ltac step :=
  first [rewrite run_call_bind | rewrite run_call | rewrite run_sendMessageSafely];
  cbn [handle fst snd].

Ltac wsimpl :=
  cbn [log with_storage with_tabs with_active with_page storage storage_ok tabs
       next_tab_id activeUrls now analyzer has_receiver page trace fst snd].

Section Bypass.
Context `{Platform}.

Lemma Opera_onBeforeNavigate_exempt (details : NavDetails) (w : World) :
  Opera.isExemptUrl (nav_url details) = true ->
  tabs (exec (Opera.onBeforeNavigate details) w) = tabs w
  /\ List.filter is_update (trace (exec (Opera.onBeforeNavigate details) w))
     = List.filter is_update (trace w).
Proof.
  intros Hex. unfold exec, Opera.onBeforeNavigate.
  destruct (negb (Z.eqb (frameId details) 0)
            || negb (JsString.startsWith (nav_url details) "http")); [now split|].
  rewrite run_try_catch. unfold Opera.onBeforeNavigate_try, Opera.onError.
  step. rewrite Hex. change (negb true) with false.
  destruct (storage_ok w); cbv beta iota; rewrite ?andb_false_r; cbn [run fst].
  - destruct (sessionData _) as [sd|]; [destruct (String.eqb (state sd) "active")|];
      cbn [run fst]; (split; [reflexivity | now apply updates_log]).
  - split; [reflexivity | now apply updates_log].
Qed.

Lemma Opera_onUpdated_exempt (u : TabUpdate) (w : World) :
  Opera.isExemptUrl (changeInfo_url u) = true ->
  tabs (exec (Opera.onUpdated u) w) = tabs w
  /\ List.filter is_update (trace (exec (Opera.onUpdated u) w)) = List.filter is_update (trace w).
Proof.
  intros Hex. unfold exec, Opera.onUpdated.
  destruct (negb (JsString.truthy (changeInfo_url u))
            || negb (JsString.startsWith (changeInfo_url u) "http")); [now split|].
  rewrite run_try_catch. unfold Opera.onUpdated_try, Opera.onError.
  step. rewrite Hex. change (negb true) with false.
  destruct (storage_ok w); cbv beta iota; cbn [run fst].
  - destruct (sessionData _) as [sd|]; [destruct (String.eqb (state sd) "active")|];
      cbn [run fst]; (split; [reflexivity | now apply updates_log]).
  - split; [reflexivity | now apply updates_log].
Qed.

Lemma Legacy_onBeforeNavigate_exempt (details : NavDetails) (w : World) :
  Legacy.isExemptUrl (nav_url details) = true ->
  tabs (exec (Legacy.onBeforeNavigate details) w) = tabs w
  /\ List.filter is_update (trace (exec (Legacy.onBeforeNavigate details) w))
     = List.filter is_update (trace w).
Proof.
  intros Hex. unfold exec, Legacy.onBeforeNavigate.
  destruct (negb (Z.eqb (frameId details) 0)
            || negb (JsString.startsWith (nav_url details) "http")); [now split|].
  rewrite run_try_catch. unfold Legacy.onBeforeNavigate_try, Legacy.onError.
  step. rewrite Hex. change (negb true) with false.
  destruct (storage_ok w); cbv beta iota; cbn [run fst].
  - destruct (negb (session_is_active _)); cbn [run fst];
      (split; [reflexivity | now apply updates_log]).
  - split; [reflexivity | now apply updates_log].
Qed.

Lemma Legacy_onUpdated_exempt (u : TabUpdate) (w : World) :
  Legacy.isExemptUrl (changeInfo_url u) = true ->
  tabs (exec (LegacyHandlers.onUpdated u) w) = tabs w
  /\ List.filter is_update (trace (exec (LegacyHandlers.onUpdated u) w))
     = List.filter is_update (trace w).
Proof.
  intros Hex. unfold exec, LegacyHandlers.onUpdated.
  destruct (negb (JsString.truthy (changeInfo_url u))
            || negb (JsString.startsWith (changeInfo_url u) "http")); [now split|].
  rewrite run_try_catch. unfold LegacyHandlers.onUpdated_try, Legacy.onError.
  step. rewrite Hex. change (negb true) with false.
  destruct (storage_ok w); cbv beta iota; cbn [run fst].
  - destruct (negb (session_is_active _)); cbn [run fst];
      (split; [reflexivity | now apply updates_log]).
  - split; [reflexivity | now apply updates_log].
Qed.

End Bypass.

(** C7, as amended.  The classifier of src/extension/background.js answers
    true exactly when the URL contains 'localhost:5000' or '127.0.0.1:5000'
    anywhere, or starts with one of 'chrome://', 'chrome-extension://',
    'opera://', 'about:', 'file://', or contains both the extension id and
    'block.html'; the one of part_006 is the same without '127.0.0.1:5000'
    and with the block page recognised by its full extension URL.  A URL the
    classifier of a script accepts is never redirected by the
    pre-navigation handler or by the tab-update handler of that script, in
    any world: the tabs and the list of tab rewrites stay as they were. *)
Theorem exempt_classifier_and_bypass `{Platform} (url : string) :
  (Opera.isExemptUrl url = true <->
     JsString.Includes url "localhost:5000" \/ JsString.Includes url "127.0.0.1:5000"
     \/ JsString.StartsWith url "chrome://"
     \/ JsString.StartsWith url "chrome-extension://"
     \/ JsString.StartsWith url "opera://" \/ JsString.StartsWith url "about:"
     \/ JsString.StartsWith url "file://"
     \/ (JsString.Includes url runtime_id /\ JsString.Includes url "block.html"))
  /\ (Legacy.isExemptUrl url = true <->
     JsString.StartsWith url "chrome://"
     \/ JsString.StartsWith url "chrome-extension://"
     \/ JsString.StartsWith url "opera://" \/ JsString.StartsWith url "about:"
     \/ JsString.StartsWith url "file://"
     \/ JsString.Includes url "localhost:5000"
     \/ (url <> "" /\ JsString.Includes url (Js.getURL "block.html")))
  /\ (Opera.isExemptUrl url = true ->
      forall (frame tabId : Z) (status tab_url : string) (w : World),
        let nav := Opera.onBeforeNavigate (mkNav frame url tabId) in
        let upd := Opera.onUpdated (mkUpd tabId url status tab_url) in
        tabs (exec nav w) = tabs w
        /\ List.filter is_update (trace (exec nav w)) = List.filter is_update (trace w)
        /\ tabs (exec upd w) = tabs w
        /\ List.filter is_update (trace (exec upd w)) = List.filter is_update (trace w))
  /\ (Legacy.isExemptUrl url = true ->
      forall (frame tabId : Z) (status tab_url : string) (w : World),
        let nav := Legacy.onBeforeNavigate (mkNav frame url tabId) in
        let upd := LegacyHandlers.onUpdated (mkUpd tabId url status tab_url) in
        tabs (exec nav w) = tabs w
        /\ List.filter is_update (trace (exec nav w)) = List.filter is_update (trace w)
        /\ tabs (exec upd w) = tabs w
        /\ List.filter is_update (trace (exec upd w)) = List.filter is_update (trace w)).
Proof.
  split; [apply Opera_isExemptUrl_iff|].
  split; [apply Legacy_isExemptUrl_iff|].
  split.
  - intros Hex frame tabId status tab_url w nav upd.
    destruct (Opera_onBeforeNavigate_exempt (mkNav frame url tabId) w Hex) as [Ht He].
    destruct (Opera_onUpdated_exempt (mkUpd tabId url status tab_url) w Hex) as [Ht' He'].
    auto.
  - intros Hex frame tabId status tab_url w nav upd.
    destruct (Legacy_onBeforeNavigate_exempt (mkNav frame url tabId) w Hex) as [Ht He].
    destruct (Legacy_onUpdated_exempt (mkUpd tabId url status tab_url) w Hex) as [Ht' He'].
    auto.
Qed.

(** The analyzer's own page, with no session stored: the tab is left alone. *)
Lemma exempt_classifier_and_bypass_witness :
  let w := Simple.world emptyStore [mkTab 1 "http://old.test/"] ∅ 0 in
  Opera.isExemptUrl "http://localhost:5000/analyze" = true
  /\ tabs (exec (Opera.onBeforeNavigate (mkNav 0 "http://localhost:5000/analyze" 1)) w)
     = tabs w
  /\ Legacy.isExemptUrl "http://localhost:5000/analyze" = true
  /\ tabs (exec (Legacy.onBeforeNavigate (mkNav 0 "http://localhost:5000/analyze" 1)) w)
     = tabs w
  /\ tabs (exec (LegacyHandlers.onUpdated
                   (mkUpd 1 "http://localhost:5000/analyze" "loading"
                      "http://localhost:5000/analyze")) w)
     = tabs w.
Proof.
  intros w.
  destruct (exempt_classifier_and_bypass "http://localhost:5000/analyze")
    as (_ & _ & Hopera & Hlegacy).
  split; [reflexivity|]. split.
  - apply (Hopera eq_refl 0 1 "loading" "http://localhost:5000/analyze" w).
  - split; [reflexivity|].
    destruct (Hlegacy eq_refl 0 1 "loading" "http://localhost:5000/analyze" w)
      as (Hnav & _ & Hupd & _).
    split; [exact Hnav | exact Hupd].
Defined.

(** C7, as stated, fails: a URL of another origin that merely carries the
    text 'localhost:5000' in its query is classified exempt, though it has
    none of the schemes listed, its origin is not the analyzer's, and it is
    not the block page. *)
Lemma exemption_is_by_substring :
  Opera.isExemptUrl "http://evil.example/?next=localhost:5000" = true
  /\ Legacy.isExemptUrl "http://evil.example/?next=localhost:5000" = true
  /\ SpecWords.exempt "http://evil.example/?next=localhost:5000" = false
  /\ (origin <$> parseURL "http://evil.example/?next=localhost:5000")
     = Some "http://evil.example".
Proof. repeat split; vm_compute; reflexivity. Qed.

(** ** Errors in the navigation handlers *)

Section DefaultDeny.
Context `{Platform}.






End DefaultDeny.




(** ** Recording a verdict *)

Section Recording.
Context `{Platform}.

Lemma run_onMessage_blocked (url : string) (reason : option string) (p : URL) (w : World) :
  storage_ok w = true ->
  parseURL url = Some p ->
  storage (exec (Chrome.onMessage (URL_BLOCKED url reason)) w)
  = {| sessionData := sessionData (storage w);
       blockedUrls :=
         Some (<[Chrome.getUrlKey url :=
                   {| e_url := url; e_timestamp := now w;
                      e_reason := Chrome.reason_or reason "Not relevant to current task";
                      e_searchQuery := Js.get_or_empty p "q" |}]>
                 (or_empty (blockedUrls (storage w))));
       allowedUrls := allowedUrls (storage w);
       stContext := stContext (storage w) |}
  /\ activeUrls (exec (Chrome.onMessage (URL_BLOCKED url reason)) w)
     = activeUrls w ∖ {[url]}.
Proof.
  intros Hok Hp. unfold exec, Chrome.onMessage.
  step. rewrite Hok, Hp. cbv beta iota.
  repeat step. wsimpl. rewrite Hok. wsimpl.
  destruct (storage w); split; reflexivity.
Qed.

Lemma run_onMessage_allowed (url : string) (reason : option string) (p : URL) (w : World) :
  storage_ok w = true ->
  parseURL url = Some p ->
  storage (exec (Chrome.onMessage (URL_ALLOWED url reason)) w)
  = {| sessionData := sessionData (storage w);
       blockedUrls := blockedUrls (storage w);
       allowedUrls :=
         Some (<[Chrome.getUrlKey url :=
                   {| e_url := url; e_timestamp := now w;
                      e_reason := Chrome.reason_or reason "Content is productive";
                      e_searchQuery := Js.get_or_empty p "q" |}]>
                 (or_empty (allowedUrls (storage w))));
       stContext := stContext (storage w) |}
  /\ activeUrls (exec (Chrome.onMessage (URL_ALLOWED url reason)) w)
     = activeUrls w ∖ {[url]}.
Proof.
  intros Hok Hp. unfold exec, Chrome.onMessage.
  step. rewrite Hok, Hp. cbv beta iota.
  repeat step. wsimpl. rewrite Hok. wsimpl.
  destruct (storage w); split; reflexivity.
Qed.

End Recording.

(** C6, as amended.  Each of the two sets is a map, so it holds at most one
    entry per key, and recording a verdict for a URL puts the new entry
    under the URL's key in the set of that verdict, replacing an entry that
    was there; the set of the other verdict is left as it was, so a key
    recorded first as allowed and then as blocked is present in both. *)
Theorem record_overwrites_own_set_only `{Platform}
    (url : string) (reason : option string) (p : URL) (w : World) :
  storage_ok w = true ->
  parseURL url = Some p ->
  let wb := exec (Chrome.onMessage (URL_BLOCKED url reason)) w in
  let wa := exec (Chrome.onMessage (URL_ALLOWED url reason)) w in
  let key := Chrome.getUrlKey url in
  (or_empty (blockedUrls (storage wb)) !! key
   = Some {| e_url := url; e_timestamp := now w;
             e_reason := Chrome.reason_or reason "Not relevant to current task";
             e_searchQuery := Js.get_or_empty p "q" |}
   /\ (forall k, k <> key ->
         or_empty (blockedUrls (storage wb)) !! k = or_empty (blockedUrls (storage w)) !! k)
   /\ allowedUrls (storage wb) = allowedUrls (storage w))
  /\ (or_empty (allowedUrls (storage wa)) !! key
      = Some {| e_url := url; e_timestamp := now w;
                e_reason := Chrome.reason_or reason "Content is productive";
                e_searchQuery := Js.get_or_empty p "q" |}
      /\ (forall k, k <> key ->
            or_empty (allowedUrls (storage wa)) !! k
            = or_empty (allowedUrls (storage w)) !! k)
      /\ blockedUrls (storage wa) = blockedUrls (storage w)).
Proof.
  intros Hok Hp wb wa key.
  destruct (run_onMessage_blocked url reason p w Hok Hp) as [Hb _].
  destruct (run_onMessage_allowed url reason p w Hok Hp) as [Ha _].
  subst wb wa key. rewrite Hb, Ha. cbn [blockedUrls allowedUrls or_empty].
  repeat split.
  - apply lookup_insert_eq.
  - intros k Hk. now apply lookup_insert_ne.
  - apply lookup_insert_eq.
  - intros k Hk. now apply lookup_insert_ne.
Qed.

(** A blocked verdict recorded for http://a.test/x over an earlier one. *)
Lemma record_overwrites_own_set_only_witness :
  let old := {| e_url := "http://a.test/x"; e_timestamp := 1; e_reason := "old";
                e_searchQuery := "" |} in
  let st := {| sessionData := None; blockedUrls := Some {[ "a.test/x" := old ]};
               allowedUrls := None; stContext := None |} in
  let w := Simple.world st [] ∅ 7 in
  or_empty (blockedUrls (storage (exec (Chrome.onMessage
              (URL_BLOCKED "http://a.test/x" (Some "off task"))) w))) !! "a.test/x"
  = Some {| e_url := "http://a.test/x"; e_timestamp := 7; e_reason := "off task";
            e_searchQuery := "" |}.
Proof.
  intros old st w.
  assert (Hp : parseURL "http://a.test/x"
               = Some {| origin := "http://a.test"; hostname := "a.test";
                         pathname := "/x"; searchParams := [] |})
    by (vm_compute; reflexivity).
  destruct (record_overwrites_own_set_only "http://a.test/x" (Some "off task") _ w
              eq_refl Hp) as [[Hnew _] _].
  exact Hnew.
Defined.

(** C6, as stated, fails: after an allowed verdict and then a blocked verdict
    for the same URL, its key has an entry in both sets. *)
Lemma key_in_both_sets :
  let w0 := Simple.world emptyStore [] ∅ 7 in
  let w1 := exec (Chrome.onMessage (URL_ALLOWED "http://a.test/x" None)) w0 in
  let w2 := exec (Chrome.onMessage (URL_BLOCKED "http://a.test/x" None)) w1 in
  Chrome.getUrlKey "http://a.test/x" = "a.test/x"
  /\ or_empty (blockedUrls (storage w2)) !! "a.test/x"
     = Some {| e_url := "http://a.test/x"; e_timestamp := 7;
               e_reason := "Not relevant to current task"; e_searchQuery := "" |}
  /\ or_empty (allowedUrls (storage w2)) !! "a.test/x"
     = Some {| e_url := "http://a.test/x"; e_timestamp := 7;
               e_reason := "Content is productive"; e_searchQuery := "" |}.
Proof. repeat split; vm_compute; reflexivity. Qed.

(** ** Keys of search URLs *)

Section SearchKeys.
Context `{Platform}.
Import JsString JsStringFacts.

Lemma truthy_false (s : string) : truthy s = false -> s = "".
Proof. unfold truthy. rewrite negb_false_iff. apply String.eqb_eq. Qed.

Lemma truthy_true (s : string) : truthy s = true -> s <> "".
Proof. unfold truthy. rewrite negb_true_iff. apply String.eqb_neq. Qed.

Lemma app_not_self (s t : string) : t <> "" -> s <> s +:+ t.
Proof.
  intros Ht Heq. apply (f_equal String.length) in Heq. rewrite length_app in Heq.
  destruct t; [congruence | simpl in Heq; lia].
Qed.

(** [getUrlKey] of part_005: same host and path, different queries. *)
Lemma Chrome_getUrlKey_query (u1 u2 : string) (p1 p2 : URL) :
  parseURL u1 = Some p1 -> parseURL u2 = Some p2 ->
  hostname p1 = hostname p2 -> pathname p1 = pathname p2 ->
  Js.get_or_empty p1 "q" <> Js.get_or_empty p2 "q" ->
  Chrome.getUrlKey u1 <> Chrome.getUrlKey u2.
Proof.
  intros Hp1 Hp2 Hhost Hpath Hq. unfold Chrome.getUrlKey, Chrome.normalizeUrl.
  rewrite Hp1, Hp2, Hhost, Hpath.
  set (n := toLowerCase (hostname p2) +:+ pathname p2).
  destruct (truthy (Js.get_or_empty p1 "q")) eqn:T1;
    destruct (truthy (Js.get_or_empty p2 "q")) eqn:T2.
  - intros Heq. apply app_inv_head in Heq. apply app_inv_head in Heq. contradiction.
  - intros Heq. symmetry in Heq. revert Heq. apply app_not_self. discriminate.
  - apply app_not_self. discriminate.
  - apply truthy_false in T1, T2. congruence.
Qed.

Lemma extractSearchQuery_searchHost (u : string) (p : URL) :
  parseURL u = Some p -> Opera.isSearchHost (hostname p) = true ->
  Opera.extractSearchQuery u = Js.get_or_empty p "q".
Proof.
  intros Hp Hs. unfold Opera.extractSearchQuery, Opera.isSearchHost in *. rewrite Hp.
  destruct (includes (hostname p) "duckduckgo.com"); [reflexivity|].
  destruct (includes (hostname p) "google.com"); [reflexivity|].
  destruct (includes (hostname p) "bing.com"); [reflexivity|discriminate].
Qed.

(** The composite key of background.js on a search host, for a query [q]. *)
Lemma Opera_compositeKey_searchHost (u : string) (p : URL) :
  parseURL u = Some p -> Opera.isSearchHost (hostname p) = true ->
  Opera.compositeKey u =
  let q := Js.get_or_empty p "q" in
  if truthy q
  then toLowerCase (origin p) +:+ "/search/" +:+ toLowerCase q +:+ "::" +:+ q
  else toLowerCase (origin p) +:+ "/search/home".
Proof.
  intros Hp Hs. unfold Opera.compositeKey, Opera.normalizeUrl.
  rewrite (extractSearchQuery_searchHost u p Hp Hs), Hp, Hs. cbv zeta.
  unfold or_default, truthy.
  destruct (String.eqb (Js.get_or_empty p "q") ""); cbn [negb].
  - now rewrite toLowerCase_app.
  - rewrite !toLowerCase_app, !app_assoc. reflexivity.
Qed.

Lemma lowered_query_key_inj (q1 q2 : string) :
  toLowerCase q1 +:+ "::" +:+ q1 = toLowerCase q2 +:+ "::" +:+ q2 -> q1 = q2.
Proof.
  intros Heq.
  assert (Hlen : String.length q1 = String.length q2).
  { apply (f_equal String.length) in Heq.
    rewrite !length_app, !length_toLowerCase in Heq. simpl in Heq. lia. }
  apply app_inv_length in Heq; [|now rewrite !length_toLowerCase].
  destruct Heq as [_ Heq]. now apply app_inv_head in Heq.
Qed.

Lemma home_is_no_query_key (q : string) :
  "home" <> toLowerCase q +:+ "::" +:+ q.
Proof.
  intros Heq.
  assert (Hlen : (String.length q = 1)%nat).
  { apply (f_equal String.length) in Heq.
    rewrite !length_app, !length_toLowerCase in Heq. simpl in Heq. lia. }
  destruct q as [|c [|c' q]]; try discriminate Hlen.
  cbv [toLowerCase] in Heq. rewrite !app_cons in Heq. inversion Heq.
Qed.

Lemma Opera_compositeKey_query (u1 u2 : string) (p1 p2 : URL) :
  parseURL u1 = Some p1 -> parseURL u2 = Some p2 ->
  Opera.isSearchHost (hostname p1) = true ->
  hostname p1 = hostname p2 -> origin p1 = origin p2 ->
  Js.get_or_empty p1 "q" <> Js.get_or_empty p2 "q" ->
  Opera.compositeKey u1 <> Opera.compositeKey u2.
Proof.
  intros Hp1 Hp2 Hs Hhost Horigin Hq.
  rewrite (Opera_compositeKey_searchHost u1 p1 Hp1 Hs).
  rewrite (Opera_compositeKey_searchHost u2 p2 Hp2) by now rewrite <- Hhost.
  cbv zeta. rewrite Horigin.
  destruct (truthy (Js.get_or_empty p1 "q")) eqn:T1;
    destruct (truthy (Js.get_or_empty p2 "q")) eqn:T2; intros Heq.
  - do 2 apply app_inv_head in Heq. now apply lowered_query_key_inj in Heq.
  - apply app_inv_head in Heq.
    change "/search/home" with ("/search/" +:+ "home") in Heq.
    apply app_inv_head in Heq. symmetry in Heq. now apply home_is_no_query_key in Heq.
  - apply app_inv_head in Heq.
    change "/search/home" with ("/search/" +:+ "home") in Heq.
    apply app_inv_head in Heq. now apply home_is_no_query_key in Heq.
  - apply truthy_false in T1, T2. congruence.
Qed.

End SearchKeys.

(** C8, as amended.  Two URLs whose search queries (the parameter q) differ
    get different keys from [getUrlKey] of part_005 when they have the same
    host and the same path, and different composite keys from background.js
    when they are on the same recognised search-engine host with the same
    origin. *)
Theorem distinct_queries_distinct_keys `{Platform} (u1 u2 : string) (p1 p2 : URL) :
  parseURL u1 = Some p1 ->
  parseURL u2 = Some p2 ->
  hostname p1 = hostname p2 ->
  Js.get_or_empty p1 "q" <> Js.get_or_empty p2 "q" ->
  (pathname p1 = pathname p2 -> Chrome.getUrlKey u1 <> Chrome.getUrlKey u2)
  /\ (Opera.isSearchHost (hostname p1) = true -> origin p1 = origin p2 ->
      Opera.compositeKey u1 <> Opera.compositeKey u2).
Proof.
  intros Hp1 Hp2 Hhost Hq. split.
  - intros Hpath. now apply (Chrome_getUrlKey_query u1 u2 p1 p2).
  - intros Hs Horigin. now apply (Opera_compositeKey_query u1 u2 p1 p2).
Qed.

(** Searches for cats and for dogs on www.google.com. *)
Lemma distinct_queries_distinct_keys_witness :
  Chrome.getUrlKey "https://www.google.com/search?q=cats"
  <> Chrome.getUrlKey "https://www.google.com/search?q=dogs"
  /\ Opera.compositeKey "https://www.google.com/search?q=cats"
     <> Opera.compositeKey "https://www.google.com/search?q=dogs".
Proof.
  assert (Hp1 : parseURL "https://www.google.com/search?q=cats"
                = Some {| origin := "https://www.google.com";
                          hostname := "www.google.com"; pathname := "/search";
                          searchParams := [("q", "cats")] |})
    by (vm_compute; reflexivity).
  assert (Hp2 : parseURL "https://www.google.com/search?q=dogs"
                = Some {| origin := "https://www.google.com";
                          hostname := "www.google.com"; pathname := "/search";
                          searchParams := [("q", "dogs")] |})
    by (vm_compute; reflexivity).
  destruct (distinct_queries_distinct_keys _ _ _ _ Hp1 Hp2 eq_refl) as [Hchrome Hopera].
  - vm_compute. discriminate.
  - split; [apply Hchrome | apply Hopera]; reflexivity.
Defined.

(** C8, as stated, fails for [getUrlKey]: two URLs on www.google.com whose
    queries are 'x::y' and 'y' get the same key, because the path of the
    second ends in '::x'. *)
Lemma same_key_for_different_queries :
  let u1 := "https://www.google.com/search?q=x::y" in
  let u2 := "https://www.google.com/search::x?q=y" in
  (hostname <$> parseURL u1) = Some "www.google.com"
  /\ (hostname <$> parseURL u2) = Some "www.google.com"
  /\ (parseURL u1 ≫= fun p => Js.searchParams_get (searchParams p) "q") = Some "x::y"
  /\ (parseURL u2 ≫= fun p => Js.searchParams_get (searchParams p) "q") = Some "y"
  /\ Chrome.getUrlKey u1 = Chrome.getUrlKey u2.
Proof. repeat split; vm_compute; reflexivity. Qed.

(** ** Blocking the open tabs *)

Section BlockAllTabs.
Context `{Platform}.
Import JsString JsStringFacts.

Lemma map_set_tab_url_other (tabId : Z) (url : string) (l : list Tab) :
  tabId ∉ map tab_id l -> map (set_tab_url tabId url) l = l.
Proof.
  induction l as [|t l IH]; [reflexivity|]. cbn [map]. intros Hnotin.
  apply not_elem_of_cons in Hnotin as [Hne Hnotin].
  unfold set_tab_url at 1. destruct (Z.eqb_spec (tab_id t) tabId); [congruence|].
  now rewrite IH.
Qed.

Lemma map_set_tab_url_one (pre post : list Tab) (t : Tab) (url : string) :
  NoDup (map tab_id (pre ++ t :: post)) ->
  map (set_tab_url (tab_id t) url) (pre ++ t :: post)
  = pre ++ {| tab_id := tab_id t; tab_url := url |} :: post.
Proof.
  rewrite map_app. cbn [map]. intros Hnd.
  apply NoDup_app in Hnd as (_ & Hpre & Hpost).
  apply NoDup_cons in Hpost as [Hpost _].
  rewrite map_app. cbn [map]. rewrite (map_set_tab_url_other _ _ post Hpost).
  rewrite map_set_tab_url_other.
  - unfold set_tab_url. now rewrite Z.eqb_refl.
  - intros Hin. apply (Hpre _ Hin). left.
Qed.

Lemma tab_id_session_ended_tab (t : Tab) : tab_id (session_ended_tab t) = tab_id t.
Proof. unfold session_ended_tab. now destruct (_ && _). Qed.

Lemma run_blockTab (t : Tab) (w : World) :
  run (Legacy.blockTab t) w
  = (if truthy (tab_url t) && negb (Legacy.isExemptUrl (tab_url t))
     then redirected (tab_id t) (Legacy.sessionEndedUrl (tab_url t)) w
     else w, Returned tt).
Proof. unfold Legacy.blockTab. now destruct (_ && _). Qed.

Lemma forEach_blockTab (l : list Tab) :
  forall (pre : list Tab) (w : World),
    tabs w = pre ++ l ->
    NoDup (map tab_id (pre ++ l)) ->
    tabs (exec (forEach l Legacy.blockTab) w) = pre ++ map session_ended_tab l.
Proof.
  induction l as [|t l IH]; intros pre w Htabs Hnd.
  - cbn. now rewrite Htabs.
  - unfold exec. cbn [forEach]. rewrite run_bind, run_blockTab.
    change (pre ++ map session_ended_tab (t :: l))
      with (pre ++ session_ended_tab t :: map session_ended_tab l).
    replace (pre ++ session_ended_tab t :: map session_ended_tab l)
      with ((pre ++ [session_ended_tab t]) ++ map session_ended_tab l)
      by now rewrite <- List.app_assoc.
    apply IH.
    + unfold session_ended_tab.
      destruct (truthy (tab_url t) && negb (Legacy.isExemptUrl (tab_url t))).
      * unfold redirected. wsimpl. rewrite Htabs, map_set_tab_url_one by assumption.
        now rewrite <- List.app_assoc.
      * rewrite Htabs. now rewrite <- List.app_assoc.
    + rewrite <- List.app_assoc. cbn [app]. rewrite map_app in *. cbn [map] in *.
      now rewrite tab_id_session_ended_tab.
Qed.

Lemma Legacy_blockAllTabs_tabs (w : World) :
  NoDup (map tab_id (tabs w)) ->
  tabs (exec Legacy.blockAllTabs w) = map session_ended_tab (tabs w).
Proof.
  intros Hnd. unfold exec, Legacy.blockAllTabs. step.
  apply (forEach_blockTab (tabs w) [] (log EvTabsQuery w)); [reflexivity | assumption].
Qed.



Lemma filter_keep_others (n : Z) (l : list Tab) :
  n ∉ map tab_id l ->
  List.filter (fun t => negb (Z.eqb (tab_id t) n)) l = l.
Proof.
  induction l as [|t l IH]; [reflexivity|]. cbn [map List.filter]. intros Hnotin.
  apply not_elem_of_cons in Hnotin as [Hne Hnotin].
  destruct (Z.eqb_spec (tab_id t) n); [congruence|]. cbn [negb]. now rewrite IH.
Qed.

Lemma existsb_id_in (n : Z) (ids : list Z) :
  existsb (Z.eqb n) ids = true <-> n ∈ ids.
Proof.
  rewrite existsb_exists, list_elem_of_In. split.
  - intros (x & Hin & Heq). apply Z.eqb_eq in Heq. now subst.
  - intros Hin. exists n. split; [assumption | apply Z.eqb_refl].
Qed.

Lemma filter_remove_listed (l : list Tab) (ids : list Z) :
  (forall t, t ∈ l -> tab_id t ∈ ids) ->
  List.filter (fun t => negb (existsb (Z.eqb (tab_id t)) ids)) l = [].
Proof.
  induction l as [|t l IH]; [reflexivity|]. intros Hall. cbn [List.filter].
  assert (Hin : existsb (Z.eqb (tab_id t)) ids = true)
    by (apply existsb_id_in, Hall; left).
  rewrite Hin. cbn [negb]. apply IH. intros t' Ht'. apply Hall. now right.
Qed.

(** Opening a landing tab and closing every other tab, as [blockAllTabs] and
    [endSessionShowStartAndClose] of background.js both do. *)
Lemma land_and_close (url : string) (w : World) :
  next_tab_id w <> 0 ->
  next_tab_id w ∉ map tab_id (tabs w) ->
  let p : Eff unit :=
    newTab ← call (TabsCreate url);
    if Z.eqb (tab_id newTab) 0 then Ret tt
    else
      tabs ← call TabsQuery;
      let toClose :=
        map tab_id (List.filter (fun t => negb (Z.eqb (tab_id t) (tab_id newTab))) tabs) in
      if negb (Nat.eqb (length toClose) 0) then call (TabsRemove toClose) else Ret tt in
  tabs (exec p w) = [landing_tab url w]
  /\ List.filter is_update (trace (exec p w)) = List.filter is_update (trace w).
Proof.
  intros Hnz Hfresh p. subst p. unfold exec.
  step. wsimpl. cbn [tab_id].
  apply Z.eqb_neq in Hnz. rewrite Hnz.
  step. wsimpl.
  rewrite List.filter_app, (filter_keep_others _ _ Hfresh). cbn [List.filter tab_id].
  rewrite Z.eqb_refl. cbn [negb]. rewrite app_nil_r.
  destruct (tabs w) as [|t l] eqn:Htabs.
  - cbn. rewrite !List.filter_app. cbn. rewrite !app_nil_r. now split.
  - cbn [map length Nat.eqb negb]. step. wsimpl. split.
    + rewrite List.filter_app. rewrite filter_remove_listed.
      * cbn [List.filter tab_id app].
        assert (Hout : existsb (Z.eqb (next_tab_id w)) (map tab_id (t :: l)) = false).
        { apply not_true_is_false. rewrite existsb_id_in. exact Hfresh. }
        cbn [map] in Hout. now rewrite Hout.
      * intros t' Ht'. change (tab_id t' ∈ tab_id <$> (t :: l)).
        now apply list_elem_of_fmap_2.
    + rewrite !List.filter_app. cbn. now rewrite !app_nil_r.
Qed.

(** [closeOthers] is what the two functions do once their tab is open. *)
Lemma blockAllTabs_closeOthers :
  Opera.blockAllTabs
  = (newTab ← call (TabsCreate (Js.getURL "block.html" +:+ "?reason=before-block"));
     Opera.closeOthers newTab)
  /\ Opera.endSessionShowStartAndClose
     = (newTab ← call (TabsCreate (Js.getURL "block.html" +:+ "?reason=no-session"));
        Opera.closeOthers newTab).
Proof. split; reflexivity. Qed.



Lemma extension_page_exempt (page rest : string) :
  Opera.isExemptUrl (Js.getURL page +:+ rest) = true.
Proof.
  apply Opera_isExemptUrl_iff. do 3 right. left.
  unfold Js.getURL. rewrite !JsStringFacts.app_assoc. eexists. reflexivity.
Qed.

End BlockAllTabs.




(** ** Cached verdicts and the in-flight set *)

Section ActiveSession.
Context `{Platform}.
Import JsString.

Lemma startsWith_http_truthy (url : string) :
  startsWith url "http" = true -> truthy url = true.
Proof. destruct url; [discriminate | reflexivity]. Qed.

Lemma not_exempt_not_blockPage (url : string) :
  Opera.isExemptUrl url = false -> Opera.isBlockPage url = false.
Proof.
  unfold Opera.isExemptUrl. destruct (Opera.isBlockPage url); [|reflexivity].
  now rewrite orb_true_r.
Qed.

(** The world after the two reads of the tab-update handler. *)
Lemma Opera_onUpdated_active (u : TabUpdate) (w : World) (sd : Session) :
  storage_ok w = true ->
  sessionData (storage w) = Some sd ->
  state sd = "active" ->
  startsWith (changeInfo_url u) "http" = true ->
  Opera.isExemptUrl (changeInfo_url u) = false ->
  let url := changeInfo_url u in
  let w2 := log (EvStorageGet ["blockedUrls"; "allowedUrls"])
              (log (EvStorageGet ["sessionData"]) w) in
  run (Opera.onUpdated u) w =
  match lookup_or (or_empty (blockedUrls (storage w)))
          (Opera.compositeKey url) (Opera.normalizeUrl url) with
  | Some blockedEntry =>
      (log (EvSendMessage (URL_ANALYSIS_UPDATE url "blocked"
              (or_default (e_reason blockedEntry) "Blocked by policy")))
         (redirected (upd_tabId u) (Opera.blockedUrl url sd blockedEntry) w2),
       Returned tt)
  | None =>
      match lookup_or (or_empty (allowedUrls (storage w)))
              (Opera.compositeKey url) (Opera.normalizeUrl url) with
      | Some allowedEntry =>
          (log (EvSendMessage (URL_ANALYSIS_UPDATE url "allowed"
                  (or_default (e_reason allowedEntry) "Content is productive"))) w2,
           Returned tt)
      | None =>
          if bool_decide (url ∈ activeUrls w) then (w2, Returned tt)
          else (redirected (upd_tabId u) (Opera.analyzingUrl url sd)
                  (with_active ({[url]} ∪ activeUrls w) w2), Returned tt)
      end
  end.
Proof.
  intros Hok Hsd Hactive Hhttp Hne url w2. subst url w2.
  unfold Opera.onUpdated.
  rewrite (startsWith_http_truthy _ Hhttp), Hhttp. cbn [negb orb].
  rewrite run_try_catch. unfold Opera.onUpdated_try.
  step. rewrite Hok. cbn [restrict has_key existsb String.eqb Ascii.eqb Bool.eqb orb sessionData].
  rewrite Hsd, Hactive, Hne, (not_exempt_not_blockPage _ Hne). cbn [String.eqb Ascii.eqb Bool.eqb].
  step. wsimpl. rewrite Hok.
  cbn [restrict has_key existsb String.eqb Ascii.eqb Bool.eqb orb blockedUrls allowedUrls].
  fold (Opera.compositeKey (changeInfo_url u)).
  destruct (lookup_or (or_empty (blockedUrls (storage w))) _ _) as [blockedEntry|].
  - step. rewrite run_sendMessageSafely. reflexivity.
  - destruct (lookup_or (or_empty (allowedUrls (storage w))) _ _) as [allowedEntry|].
    + rewrite run_sendMessageSafely. reflexivity.
    + step. wsimpl. destruct (bool_decide _); cbn [negb]; [reflexivity|].
      repeat step. reflexivity.
Qed.

(** The pre-navigation handler under an active session: the allowed-set is
    not consulted. *)
Lemma Opera_onBeforeNavigate_active (details : NavDetails) (w : World) (sd : Session) :
  storage_ok w = true ->
  sessionData (storage w) = Some sd ->
  state sd = "active" ->
  frameId details = 0 ->
  startsWith (nav_url details) "http" = true ->
  Opera.isExemptUrl (nav_url details) = false ->
  let url := nav_url details in
  let w1 := log (EvStorageGet ["sessionData"; "blockedUrls"; "allowedUrls"]) w in
  run (Opera.onBeforeNavigate details) w =
  if truthy (Opera.extractSearchQuery url) then
    (redirected (nav_tabId details)
       (Opera.analyzingSearchUrl url sd (Opera.extractSearchQuery url))
       (with_active ({[url]} ∪ activeUrls w) w1), Returned tt)
  else
    match lookup_or (or_empty (blockedUrls (storage w)))
            (Opera.compositeKey url) (Opera.normalizeUrl url) with
    | Some blockedEntry =>
        (redirected (nav_tabId details) (Opera.blockedUrl url sd blockedEntry) w1,
         Returned tt)
    | None =>
        (redirected (nav_tabId details) (Opera.analyzingUrl url sd)
           (with_active ({[url]} ∪ activeUrls w) w1), Returned tt)
    end.
Proof.
  intros Hok Hsd Hactive Hframe Hhttp Hne url w1. subst url w1.
  unfold Opera.onBeforeNavigate. rewrite Hframe, Hhttp. cbn [Z.eqb negb orb].
  rewrite run_try_catch. unfold Opera.onBeforeNavigate_try.
  step. rewrite Hok.
  cbn [restrict has_key existsb String.eqb Ascii.eqb Bool.eqb orb sessionData blockedUrls].
  rewrite Hsd. cbn [session_is_active]. rewrite Hactive, Hne.
  cbn [String.eqb Ascii.eqb Bool.eqb negb andb].
  change (includes (nav_url details) runtime_id && includes (nav_url details) "block.html")
    with (Opera.isBlockPage (nav_url details)).
  rewrite (not_exempt_not_blockPage _ Hne).
  unfold Opera.compositeKey.
  destruct (truthy (Opera.extractSearchQuery (nav_url details))).
  - repeat step. reflexivity.
  - destruct (lookup_or _ _ _) as [blockedEntry|]; repeat step; reflexivity.
Qed.

(** Both handlers when the stored record is absent or its state is not
    'active'. *)
Lemma Opera_onBeforeNavigate_no_session (details : NavDetails) (w : World) :
  storage_ok w = true ->
  session_is_active (sessionData (storage w)) = false ->
  frameId details = 0 ->
  startsWith (nav_url details) "http" = true ->
  Opera.isExemptUrl (nav_url details) = false ->
  run (Opera.onBeforeNavigate details) w
  = (redirected (nav_tabId details) (Opera.noSessionUrl (nav_url details))
       (log (EvStorageGet ["sessionData"; "blockedUrls"; "allowedUrls"]) w),
     Returned tt).
Proof.
  intros Hok Hinactive Hframe Hhttp Hne.
  unfold Opera.onBeforeNavigate. rewrite Hframe, Hhttp. cbn [Z.eqb negb orb].
  rewrite run_try_catch. unfold Opera.onBeforeNavigate_try.
  step. rewrite Hok.
  cbn [restrict has_key existsb String.eqb Ascii.eqb Bool.eqb orb sessionData].
  rewrite Hinactive, Hne. cbn [negb andb]. step. reflexivity.
Qed.

Lemma Opera_onUpdated_no_session (u : TabUpdate) (w : World) :
  storage_ok w = true ->
  session_is_active (sessionData (storage w)) = false ->
  startsWith (changeInfo_url u) "http" = true ->
  Opera.isExemptUrl (changeInfo_url u) = false ->
  run (Opera.onUpdated u) w
  = (redirected (upd_tabId u) (Opera.noSessionUrl (changeInfo_url u))
       (log (EvStorageGet ["sessionData"]) w),
     Returned tt).
Proof.
  intros Hok Hinactive Hhttp Hne.
  unfold Opera.onUpdated.
  rewrite (startsWith_http_truthy _ Hhttp), Hhttp. cbn [negb orb].
  rewrite run_try_catch. unfold Opera.onUpdated_try.
  step. rewrite Hok.
  cbn [restrict has_key existsb String.eqb Ascii.eqb Bool.eqb orb sessionData].
  unfold session_is_active in Hinactive.
  destruct (sessionData (storage w)) as [sd|].
  - rewrite Hinactive, Hne. cbn [negb]. step. reflexivity.
  - rewrite Hne. cbn [negb]. step. reflexivity.
Qed.

End ActiveSession.

(** C2, as amended.  Under an active session, a tab-update signal for an
    http URL that is not exempt, has no entry in the blocked-set and has an
    entry in the allowed-set (under its composite key or its normalised
    key) is allowed: the handler reads the store twice, sends the popup a
    notification and does nothing else, so no tab is rewritten and no
    analysis is started.  The pre-navigation handler does not consult the
    allowed-set: for a URL without search query and without blocked entry
    it marks the URL in-flight and rewrites the tab to the analysis page,
    whatever the allowed-set holds. *)
Theorem cache_hit_allow `{Platform}
    (u : TabUpdate) (details : NavDetails) (w : World) (sd : Session) (allowedEntry : Entry) :
  storage_ok w = true ->
  sessionData (storage w) = Some sd ->
  state sd = "active" ->
  (JsString.startsWith (changeInfo_url u) "http" = true ->
   Opera.isExemptUrl (changeInfo_url u) = false ->
   lookup_or (or_empty (blockedUrls (storage w)))
     (Opera.compositeKey (changeInfo_url u)) (Opera.normalizeUrl (changeInfo_url u)) = None ->
   lookup_or (or_empty (allowedUrls (storage w)))
     (Opera.compositeKey (changeInfo_url u)) (Opera.normalizeUrl (changeInfo_url u))
   = Some allowedEntry ->
   run (Opera.onUpdated u) w
   = (log (EvSendMessage (URL_ANALYSIS_UPDATE (changeInfo_url u) "allowed"
             (JsString.or_default (e_reason allowedEntry) "Content is productive")))
        (log (EvStorageGet ["blockedUrls"; "allowedUrls"])
           (log (EvStorageGet ["sessionData"]) w)),
      Returned tt))
  /\ (frameId details = 0 ->
      JsString.startsWith (nav_url details) "http" = true ->
      Opera.isExemptUrl (nav_url details) = false ->
      Opera.extractSearchQuery (nav_url details) = "" ->
      lookup_or (or_empty (blockedUrls (storage w)))
        (Opera.compositeKey (nav_url details)) (Opera.normalizeUrl (nav_url details)) = None ->
      run (Opera.onBeforeNavigate details) w
      = (redirected (nav_tabId details) (Opera.analyzingUrl (nav_url details) sd)
           (with_active ({[nav_url details]} ∪ activeUrls w)
              (log (EvStorageGet ["sessionData"; "blockedUrls"; "allowedUrls"]) w)),
         Returned tt)).
Proof.
  intros Hok Hsd Hactive. split.
  - intros Hhttp Hne Hblocked Hallowed.
    rewrite (Opera_onUpdated_active u w sd Hok Hsd Hactive Hhttp Hne).
    cbv zeta. now rewrite Hblocked, Hallowed.
  - intros Hframe Hhttp Hne Hquery Hblocked.
    rewrite (Opera_onBeforeNavigate_active details w sd Hok Hsd Hactive Hframe Hhttp Hne).
    cbv zeta. now rewrite Hquery, Hblocked.
Qed.

(** A second visit to http://a.test/x, allowed earlier, seen by the
    tab-update handler: the tab is left where it is. *)
Lemma cache_hit_allow_witness :
  let sd := mkSession "active" 1 1000 "work" None in
  let e := mkEntry "http://a.test/x" 5 "ok" "" in
  let st := {| sessionData := Some sd; blockedUrls := Some ∅;
               allowedUrls := Some {[ "http://a.test/x" := e ]}; stContext := None |} in
  let w := Simple.world st [mkTab 1 "http://old.test/"] ∅ 10 in
  let w' := exec (Opera.onUpdated (mkUpd 1 "http://a.test/x" "loading" "")) w in
  tabs w' = tabs w
  /\ trace w' = [EvStorageGet ["sessionData"]; EvStorageGet ["blockedUrls"; "allowedUrls"];
                 EvSendMessage (URL_ANALYSIS_UPDATE "http://a.test/x" "allowed" "ok")].
Proof.
  intros sd e st w w'.
  destruct (cache_hit_allow (mkUpd 1 "http://a.test/x" "loading" "")
              (mkNav 0 "http://a.test/x" 1) w sd e eq_refl eq_refl eq_refl) as [Hupd _].
  subst w'. unfold exec. rewrite Hupd.
  - split; reflexivity.
  - reflexivity.
  - reflexivity.
  - vm_compute. reflexivity.
  - vm_compute. reflexivity.
Defined.

(** C2, as stated, fails for the pre-navigation signal: under an active
    session, a navigation to http://a.test/x, which has no search query and
    has an entry in the allowed-set, is rewritten to the analysis page, and
    that page, freshly loaded, makes the analysis call. *)
Lemma allowed_url_is_analysed_again :
  let sd := mkSession "active" 1 1000 "work" None in
  let e := mkEntry "http://a.test/x" 5 "ok" "" in
  let st := {| sessionData := Some sd; blockedUrls := Some ∅;
               allowedUrls := Some {[ "http://a.test/x" := e ]}; stContext := None |} in
  let w := Simple.world st [mkTab 1 "http://old.test/"] ∅ 10 in
  let w' := exec (Opera.onBeforeNavigate (mkNav 0 "http://a.test/x" 1)) w in
  let w'' := exec (BlockPage.handleAnalysis "http://a.test/x" "http://a.test/x" "work" sd) w' in
  Opera.extractSearchQuery "http://a.test/x" = ""
  /\ or_empty (allowedUrls st) !! Opera.compositeKey "http://a.test/x" = Some e
  /\ url_of_tab (tabs w') 1 = Some (Opera.analyzingUrl "http://a.test/x" sd)
  /\ List.filter is_fetch (trace w'')
     = [EvFetch (mkRequest "http://a.test/x" "work" "[]" 1 "")].
Proof. repeat split; vm_compute; reflexivity. Qed.

(** C3, as amended.  The in-flight set holds raw URLs, and it is the
    tab-update handler that looks into it.  Under an active session, for an
    http URL that is not exempt and has no cached verdict: a tab-update
    signal that finds the URL in the in-flight set reads the store and
    takes no action; one that does not find it adds it and rewrites the tab
    to the analysis page; hence a second tab-update signal for the same URL
    adds no rewrite to those of the first.  A pre-navigation signal for
    such a URL (main frame, no search query) adds the URL to the set and
    rewrites the tab to the analysis page whether or not the URL was in the
    set. *)
Theorem in_flight_suppresses_tab_update `{Platform}
    (u u2 : TabUpdate) (details : NavDetails) (w : World) (sd : Session) :
  storage_ok w = true ->
  sessionData (storage w) = Some sd ->
  state sd = "active" ->
  JsString.startsWith (changeInfo_url u) "http" = true ->
  Opera.isExemptUrl (changeInfo_url u) = false ->
  lookup_or (or_empty (blockedUrls (storage w)))
    (Opera.compositeKey (changeInfo_url u)) (Opera.normalizeUrl (changeInfo_url u)) = None ->
  lookup_or (or_empty (allowedUrls (storage w)))
    (Opera.compositeKey (changeInfo_url u)) (Opera.normalizeUrl (changeInfo_url u)) = None ->
  let w2 := log (EvStorageGet ["blockedUrls"; "allowedUrls"])
              (log (EvStorageGet ["sessionData"]) w) in
  (changeInfo_url u ∈ activeUrls w -> run (Opera.onUpdated u) w = (w2, Returned tt))
  /\ (changeInfo_url u ∉ activeUrls w ->
      run (Opera.onUpdated u) w
      = (redirected (upd_tabId u) (Opera.analyzingUrl (changeInfo_url u) sd)
           (with_active ({[changeInfo_url u]} ∪ activeUrls w) w2), Returned tt))
  /\ (changeInfo_url u2 = changeInfo_url u ->
      List.filter is_update (trace (exec (Opera.onUpdated u2) (exec (Opera.onUpdated u) w)))
      = List.filter is_update (trace (exec (Opera.onUpdated u) w)))
  /\ (nav_url details = changeInfo_url u ->
      frameId details = 0 ->
      Opera.extractSearchQuery (nav_url details) = "" ->
      run (Opera.onBeforeNavigate details) w
      = (redirected (nav_tabId details) (Opera.analyzingUrl (nav_url details) sd)
           (with_active ({[nav_url details]} ∪ activeUrls w)
              (log (EvStorageGet ["sessionData"; "blockedUrls"; "allowedUrls"]) w)),
         Returned tt)).
Proof.
  intros Hok Hsd Hactive Hhttp Hne Hblocked Hallowed w2.
  pose proof (Opera_onUpdated_active u w sd Hok Hsd Hactive Hhttp Hne) as Hrun.
  cbv zeta in Hrun. rewrite Hblocked, Hallowed in Hrun. fold w2 in Hrun.
  split; [|split; [|split]].
  - intros Hin. rewrite Hrun. now rewrite bool_decide_eq_true_2.
  - intros Hnotin. rewrite Hrun. now rewrite bool_decide_eq_false_2.
  - intros Hsame.
    set (w1 := exec (Opera.onUpdated u) w).
    assert (Hw1 : storage_ok w1 = true /\ storage w1 = storage w
                  /\ changeInfo_url u ∈ activeUrls w1).
    { subst w1. unfold exec. rewrite Hrun.
      destruct (decide (changeInfo_url u ∈ activeUrls w)) as [Hin|Hnotin].
      - rewrite bool_decide_eq_true_2 by assumption. now repeat split.
      - rewrite bool_decide_eq_false_2 by assumption. repeat split; try assumption.
        cbn. set_solver. }
    destruct Hw1 as (Hok1 & Hst1 & Hin1).
    pose proof (Opera_onUpdated_active u2 w1 sd Hok1) as Hrun2.
    rewrite Hst1, Hsame in Hrun2. specialize (Hrun2 Hsd Hactive Hhttp Hne).
    cbv zeta in Hrun2. rewrite Hblocked, Hallowed in Hrun2.
    rewrite bool_decide_eq_true_2 in Hrun2 by assumption.
    unfold exec at 1. rewrite Hrun2. cbn [fst].
    now rewrite !updates_log.
  - intros Hurl Hframe Hquery.
    rewrite <- Hurl in Hhttp, Hne, Hblocked.
    rewrite (Opera_onBeforeNavigate_active details w sd Hok Hsd Hactive Hframe Hhttp Hne).
    cbv zeta. now rewrite Hquery, Hblocked.
Qed.

(** Two tab-update signals for http://b.test/ in two tabs: one rewrite. *)
Lemma in_flight_suppresses_tab_update_witness :
  let sd := mkSession "active" 1 1000 "work" None in
  let st := {| sessionData := Some sd; blockedUrls := Some ∅; allowedUrls := Some ∅;
               stContext := None |} in
  let w := Simple.world st [mkTab 1 "http://old.test/"; mkTab 2 "http://old.test/"] ∅ 10 in
  let first := Opera.onUpdated (mkUpd 1 "http://b.test/" "loading" "") in
  let second := Opera.onUpdated (mkUpd 2 "http://b.test/" "loading" "") in
  List.filter is_update (trace (exec second (exec first w)))
  = [EvTabsUpdate 1 (Opera.analyzingUrl "http://b.test/" sd)].
Proof.
  intros sd st w first second.
  destruct (in_flight_suppresses_tab_update (mkUpd 1 "http://b.test/" "loading" "")
              (mkUpd 2 "http://b.test/" "loading" "") (mkNav 0 "http://b.test/" 1)
              w sd eq_refl eq_refl eq_refl)
    as (_ & _ & Hsecond & _).
  - reflexivity.
  - reflexivity.
  - vm_compute. reflexivity.
  - vm_compute. reflexivity.
  - subst first second. rewrite Hsecond by reflexivity. vm_compute. reflexivity.
Defined.

(** C3, as stated, fails for the pre-navigation signal: of two navigation
    signals for http://b.test/, the second finds the URL in the in-flight
    set and still rewrites its tab to the analysis page. *)
Lemma second_navigation_signal_is_not_suppressed :
  let sd := mkSession "active" 1 1000 "work" None in
  let st := {| sessionData := Some sd; blockedUrls := Some ∅; allowedUrls := Some ∅;
               stContext := None |} in
  let w := Simple.world st [mkTab 1 "http://old.test/"; mkTab 2 "http://old.test/"] ∅ 10 in
  let w1 := exec (Opera.onBeforeNavigate (mkNav 0 "http://b.test/" 1)) w in
  let w2 := exec (Opera.onBeforeNavigate (mkNav 0 "http://b.test/" 2)) w1 in
  bool_decide ("http://b.test/" ∈ activeUrls w1) = true
  /\ List.filter is_update (trace w2)
     = [EvTabsUpdate 1 (Opera.analyzingUrl "http://b.test/" sd);
        EvTabsUpdate 2 (Opera.analyzingUrl "http://b.test/" sd)].
Proof. repeat split; vm_compute; reflexivity. Qed.

(** ** Expiry of the session *)

Section Expiry.
Context `{Platform}.
Import JsString.

Lemma forEach_keeps_store (l : list Tab) (f : Tab -> (Z * string)) (c : Tab -> bool) :
  forall w : World,
    let p := forEach l (fun tab =>
               if c tab then call (TabsUpdate (fst (f tab)) (snd (f tab))) else Ret tt) in
    storage (exec p w) = storage w /\ storage_ok (exec p w) = storage_ok w.
Proof.
  induction l as [|t l IH]; intros w p; subst p; [now split|].
  unfold exec. cbn [forEach]. rewrite run_bind.
  destruct (c t).
  - step. exact (IH (redirected (fst (f t)) (snd (f t)) w)).
  - cbn [run]. exact (IH w).
Qed.

Lemma cleanupAllData_clears (w : World) :
  storage_ok w = true ->
  storage (exec Chrome.cleanupAllData w) = emptyStore
  /\ storage_ok (exec Chrome.cleanupAllData w) = true.
Proof.
  intros Hok. unfold exec, Chrome.cleanupAllData, Chrome.clearWebStorage.
  step. rewrite Hok.
  destruct background_web_storage; [|now split].
  rewrite run_bind. cbn [run]. step. wsimpl.
  match goal with
  | |- context [run (forEach ?l ?g) ?w0] =>
      destruct (forEach_keeps_store l (fun tab => (tab_id tab, "chrome://newtab"))
                  (fun tab => Chrome.isBlockPage (tab_url tab)) w0) as [Hst Hk]
  end.
  unfold exec in Hst, Hk. cbn [fst snd] in Hst, Hk. rewrite Hst, Hk. now split.
Qed.

Lemma checkSessionTimeout_expired (w : World) (sd : Session) :
  storage_ok w = true ->
  sessionData (storage w) = Some sd ->
  endTime sd <> 0 ->
  endTime sd <= now w ->
  storage (exec Chrome.checkSessionTimeout w) = emptyStore
  /\ storage_ok (exec Chrome.checkSessionTimeout w) = true.
Proof.
  intros Hok Hsd Hnz Hpast. unfold exec, Chrome.checkSessionTimeout.
  step. rewrite Hok.
  cbn [restrict has_key existsb String.eqb Ascii.eqb Bool.eqb orb sessionData].
  rewrite Hsd. apply Z.eqb_neq in Hnz. rewrite Hnz. cbn [negb].
  step. wsimpl.
  assert (Hle : Z.leb (endTime sd - now w) 0 = true) by (apply Z.leb_le; lia).
  rewrite Hle.
  apply (cleanupAllData_clears (log (EvStorageGet ["sessionData"]) w)). exact Hok.
Qed.

End Expiry.

Lemma Chrome_onUpdated_no_session `{Platform} (u : TabUpdate) (w : World) :
  storage_ok w = true ->
  session_is_active (sessionData (storage w)) = false ->
  changeInfo_status u = "complete" ->
  upd_tab_url u <> "" ->
  Chrome.isInternalUrl (upd_tab_url u) = false ->
  Chrome.isBlockPage (upd_tab_url u) = false ->
  run (Chrome.onUpdated u) w
  = (redirected (upd_tabId u) (Chrome.noSessionUrl (upd_tab_url u))
       (log (EvStorageGet ["sessionData"]) w),
     Returned tt).
Proof.
  intros Hok Hinactive Hstatus Hurl Hinternal Hblock.
  unfold Chrome.onUpdated. rewrite Hstatus.
  apply String.eqb_neq in Hurl. unfold JsString.truthy. rewrite Hurl.
  cbn [String.eqb Ascii.eqb Bool.eqb negb orb].
  rewrite run_try_catch. unfold Chrome.onUpdated_try. rewrite Hinternal.
  step. rewrite Hok.
  cbn [restrict has_key existsb String.eqb Ascii.eqb Bool.eqb orb sessionData].
  unfold session_is_active in Hinactive.
  destruct (sessionData (storage w)) as [sd|].
  - rewrite Hinactive, Hblock. cbn [negb]. step. reflexivity.
  - rewrite Hblock. cbn [negb]. step. reflexivity.
Qed.

(** C1, as amended.  The handlers decide on the stored state field.  Every
    main-frame http navigation to a URL that is not exempt, evaluated while
    the stored session record is absent or its state is not 'active', is
    rewritten to the block page with reason no-session, whatever its
    endTime; so are a tab update to such a URL and, in part_005, a
    completed tab update.  A record whose
    state is 'active' is handled as an active session whatever its endTime
    and the clock: the navigation goes to the analysis page, or to the
    block page when the URL has a blocked entry.  A record whose endTime
    has passed is cleared, with the whole store, by the periodic timeout
    check of part_005, after which no session record is stored and the
    no-session blocks apply. *)
Theorem expiry_blocks_after_sweep `{Platform}
    (details : NavDetails) (u : TabUpdate) (w : World) :
  storage_ok w = true ->
  (session_is_active (sessionData (storage w)) = false ->
   (frameId details = 0 ->
    JsString.startsWith (nav_url details) "http" = true ->
    Opera.isExemptUrl (nav_url details) = false ->
    run (Opera.onBeforeNavigate details) w
    = (redirected (nav_tabId details) (Opera.noSessionUrl (nav_url details))
         (log (EvStorageGet ["sessionData"; "blockedUrls"; "allowedUrls"]) w),
       Returned tt))
   /\ (JsString.startsWith (changeInfo_url u) "http" = true ->
       Opera.isExemptUrl (changeInfo_url u) = false ->
       run (Opera.onUpdated u) w
       = (redirected (upd_tabId u) (Opera.noSessionUrl (changeInfo_url u))
            (log (EvStorageGet ["sessionData"]) w),
          Returned tt))
   /\ (changeInfo_status u = "complete" ->
       upd_tab_url u <> "" ->
       Chrome.isInternalUrl (upd_tab_url u) = false ->
       Chrome.isBlockPage (upd_tab_url u) = false ->
       run (Chrome.onUpdated u) w
       = (redirected (upd_tabId u) (Chrome.noSessionUrl (upd_tab_url u))
            (log (EvStorageGet ["sessionData"]) w),
          Returned tt)))
  /\ (forall sd : Session,
        sessionData (storage w) = Some sd ->
        state sd = "active" ->
        frameId details = 0 ->
        JsString.startsWith (nav_url details) "http" = true ->
        Opera.isExemptUrl (nav_url details) = false ->
        let url := nav_url details in
        let w1 := log (EvStorageGet ["sessionData"; "blockedUrls"; "allowedUrls"]) w in
        run (Opera.onBeforeNavigate details) w =
        if JsString.truthy (Opera.extractSearchQuery url) then
          (redirected (nav_tabId details)
             (Opera.analyzingSearchUrl url sd (Opera.extractSearchQuery url))
             (with_active ({[url]} ∪ activeUrls w) w1), Returned tt)
        else
          match lookup_or (or_empty (blockedUrls (storage w)))
                  (Opera.compositeKey url) (Opera.normalizeUrl url) with
          | Some blockedEntry =>
              (redirected (nav_tabId details) (Opera.blockedUrl url sd blockedEntry) w1,
               Returned tt)
          | None =>
              (redirected (nav_tabId details) (Opera.analyzingUrl url sd)
                 (with_active ({[url]} ∪ activeUrls w) w1), Returned tt)
          end)
  /\ (forall sd : Session,
        sessionData (storage w) = Some sd ->
        endTime sd <> 0 ->
        endTime sd <= now w ->
        let w' := exec Chrome.checkSessionTimeout w in
        storage w' = emptyStore
        /\ storage_ok w' = true
        /\ session_is_active (sessionData (storage w')) = false).
Proof.
  intros Hok. split; [|split].
  - intros Hinactive. split; [|split].
    + intros Hframe Hhttp Hne. now apply Opera_onBeforeNavigate_no_session.
    + intros Hhttp Hne. now apply Opera_onUpdated_no_session.
    + intros Hstatus Hurl Hinternal Hblock. now apply Chrome_onUpdated_no_session.
  - intros sd Hsd Hactive Hframe Hhttp Hne.
    now apply Opera_onBeforeNavigate_active.
  - intros sd Hsd Hnz Hpast w'.
    destruct (checkSessionTimeout_expired w sd Hok Hsd Hnz Hpast) as [Hst Hok'].
    subst w'. rewrite Hst, Hok'. now repeat split.
Qed.

(** A record that says 'active' with endTime 1000, at time 5000: after the
    timeout check, a navigation to http://a.test/x is blocked. *)
Lemma expiry_blocks_after_sweep_witness :
  let sd := mkSession "active" 1 1000 "work" None in
  let st := {| sessionData := Some sd; blockedUrls := Some ∅; allowedUrls := Some ∅;
               stContext := None |} in
  let w := Simple.world st [mkTab 1 "http://old.test/"] ∅ 5000 in
  let w' := exec Chrome.checkSessionTimeout w in
  storage w' = emptyStore
  /\ url_of_tab (tabs (exec (Opera.onBeforeNavigate (mkNav 0 "http://a.test/x" 1)) w')) 1
     = Some (Opera.noSessionUrl "http://a.test/x")
  /\ url_of_tab (tabs (exec (Chrome.onUpdated
                              (mkUpd 1 "http://a.test/x" "complete" "http://a.test/x")) w')) 1
     = Some (Chrome.noSessionUrl "http://a.test/x").
Proof.
  intros sd st w w'.
  destruct (expiry_blocks_after_sweep (mkNav 0 "http://a.test/x" 1)
              (mkUpd 1 "http://a.test/x" "complete" "http://a.test/x") w eq_refl)
    as (_ & _ & Hsweep).
  destruct (Hsweep sd eq_refl) as (Hst & Hok' & Hinactive); [discriminate | simpl; lia |].
  fold w' in Hst, Hok', Hinactive.
  destruct (expiry_blocks_after_sweep (mkNav 0 "http://a.test/x" 1)
              (mkUpd 1 "http://a.test/x" "complete" "http://a.test/x") w' Hok')
    as [Hgate _].
  destruct (Hgate Hinactive) as (Hnav & _ & Hupd).
  split; [exact Hst|]. unfold exec.
  rewrite Hnav, Hupd; try reflexivity; try discriminate.
  split; reflexivity.
Defined.

(** C1, as stated, fails: with a stored record that still says 'active' and
    whose endTime (1000) is in the past (the clock reads 5000), a tab update
    to http://a.test/x, which has an entry in the allowed-set, is allowed:
    no tab is rewritten.  The pre-navigation handler, for its part, treats
    the record as an active session and sends the tab to the analysis page
    rather than to the no-session block. *)
Lemma expired_but_active_record_allows :
  let sd := mkSession "active" 1 1000 "work" None in
  let e := mkEntry "http://a.test/x" 5 "ok" "" in
  let st := {| sessionData := Some sd; blockedUrls := Some ∅;
               allowedUrls := Some {[ "http://a.test/x" := e ]}; stContext := None |} in
  let w := Simple.world st [mkTab 1 "http://old.test/"] ∅ 5000 in
  endTime sd < now w
  /\ Opera.isExemptUrl "http://a.test/x" = false
  /\ List.filter is_update
       (trace (exec (Opera.onUpdated (mkUpd 1 "http://a.test/x" "loading" "")) w)) = []
  /\ tabs (exec (Opera.onUpdated (mkUpd 1 "http://a.test/x" "loading" "")) w) = tabs w
  /\ url_of_tab (tabs (exec (Opera.onBeforeNavigate (mkNav 0 "http://a.test/x" 1)) w)) 1
     = Some (Opera.analyzingUrl "http://a.test/x" sd).
Proof. repeat split; vm_compute; reflexivity. Qed.

(** ** A failed analysis call *)

Section AnalysisFailure.
Context `{Platform}.

Ltac psimpl :=
  wsimpl; cbn [isAnalyzing globalRedirectFlag section location sessionCache].

(** The trace a failed analysis leaves: the read of 'context' and, when the
    read succeeded, the call. *)
Lemma analyze_failure (url originalUrl domain : string) (sd : Session)
    (key : string) (t : Z) (w : World) :
  storage_ok w = false
  \/ BlockPage.fetch_fails
       (analyzer w (BlockPage.requestBody originalUrl domain sd (stContext (storage w))))
     = true ->
  run (BlockPage.analyze url originalUrl domain sd key t) w
  = (if storage_ok w
     then log (EvFetch (BlockPage.requestBody originalUrl domain sd (stContext (storage w))))
            (log (EvStorageGet ["context"]) w)
     else log (EvStorageGet ["context"]) w, Threw).
Proof.
  intros Hfail. unfold BlockPage.analyze. step.
  destruct (storage_ok w) eqn:Hok.
  - destruct Hfail as [Hbad | Hfail]; [discriminate|].
    cbn [restrict has_key existsb String.eqb Ascii.eqb Bool.eqb orb stContext].
    step. wsimpl.
    destruct (analyzer w _) as [|ok status body]; [reflexivity|].
    cbn [BlockPage.fetch_fails] in Hfail. now rewrite Hfail.
  - reflexivity.
Qed.

Lemma handleAnalysis_try_failure (url originalUrl domain : string) (sd : Session) (w : World) :
  BlockPage.isCacheValid
    (sessionCache (page w) !! BlockPage.cacheKey url domain sd) (now w) = false ->
  storage_ok w = false
  \/ BlockPage.fetch_fails
       (analyzer w (BlockPage.requestBody originalUrl domain sd (stContext (storage w))))
     = true ->
  run (BlockPage.handleAnalysis_try url originalUrl domain sd) w
  = (if storage_ok w
     then log (EvFetch (BlockPage.requestBody originalUrl domain sd (stContext (storage w))))
            (log (EvStorageGet ["context"]) w)
     else log (EvStorageGet ["context"]) w, Threw).
Proof.
  intros Hmiss Hfail. unfold BlockPage.handleAnalysis_try.
  repeat step. cbv zeta.
  destruct (sessionCache (page w) !! BlockPage.cacheKey url domain sd) as [[result ts]|].
  - rewrite Hmiss. now apply analyze_failure.
  - now apply analyze_failure.
Qed.

Lemma handleAnalysis_failure (url originalUrl domain : string) (sd : Session) (w : World) :
  BlockPage.isCacheValid
    (sessionCache (page w) !! BlockPage.cacheKey url domain sd) (now w) = false ->
  storage_ok w = false
  \/ BlockPage.fetch_fails
       (analyzer w (BlockPage.requestBody originalUrl domain sd (stContext (storage w))))
     = true ->
  let w' := exec (BlockPage.handleAnalysis url originalUrl domain sd) w in
  storage w' = storage w
  /\ activeUrls w' = activeUrls w
  /\ tabs w' = tabs w
  /\ page w' = {| isAnalyzing := false; globalRedirectFlag := globalRedirectFlag (page w);
                  section := "error"; location := location (page w);
                  sessionCache := sessionCache (page w) |}
  /\ List.filter is_message (trace w') = List.filter is_message (trace w).
Proof.
  intros Hmiss Hfail w'. subst w'.
  eassert (Hrun : run (BlockPage.handleAnalysis url originalUrl domain sd) w
                  = (_, Returned tt)).
  { unfold BlockPage.handleAnalysis.
    rewrite run_bind. unfold BlockPage.set_isAnalyzing at 1. repeat step. psimpl.
    rewrite run_bind. unfold BlockPage.showSection at 1. repeat step. psimpl.
    rewrite run_try_finally, run_try_catch.
    rewrite handleAnalysis_try_failure by (psimpl; assumption).
    psimpl. unfold BlockPage.showSection, BlockPage.set_isAnalyzing.
    repeat step. psimpl. reflexivity. }
  unfold exec. rewrite Hrun. cbn [fst].
  destruct (storage_ok w); psimpl;
    (repeat split; try reflexivity;
     rewrite ?List.filter_app; cbn; now rewrite ?app_nil_r).
Qed.

End AnalysisFailure.

(** C4, as amended.  When the analysis call fails (the store cannot be
    read, the request is rejected, or the response is not ok) and no valid
    cached result exists, the analysis page ends in its error section with
    [isAnalyzing] reset, writes nothing to the store and sends no message;
    the in-flight set is left as it was, so the marker of the URL stays.
    It is on handling a URL_BLOCKED or URL_ALLOWED message that the
    background script of part_005 removes the marker of the message's URL. *)
Theorem analysis_failure_keeps_marker `{Platform}
    (url originalUrl domain : string) (sd : Session) (w : World) :
  BlockPage.isCacheValid
    (sessionCache (page w) !! BlockPage.cacheKey url domain sd) (now w) = false ->
  storage_ok w = false
  \/ BlockPage.fetch_fails
       (analyzer w (BlockPage.requestBody originalUrl domain sd (stContext (storage w))))
     = true ->
  let w' := exec (BlockPage.handleAnalysis url originalUrl domain sd) w in
  (storage w' = storage w
   /\ activeUrls w' = activeUrls w
   /\ tabs w' = tabs w
   /\ page w' = {| isAnalyzing := false; globalRedirectFlag := globalRedirectFlag (page w);
                   section := "error"; location := location (page w);
                   sessionCache := sessionCache (page w) |}
   /\ List.filter is_message (trace w') = List.filter is_message (trace w))
  /\ (forall (reason : option string) (p : URL) (wb : World),
        storage_ok wb = true ->
        parseURL originalUrl = Some p ->
        activeUrls (exec (Chrome.onMessage (URL_BLOCKED originalUrl reason)) wb)
        = activeUrls wb ∖ {[originalUrl]}
        /\ activeUrls (exec (Chrome.onMessage (URL_ALLOWED originalUrl reason)) wb)
           = activeUrls wb ∖ {[originalUrl]}).
Proof.
  intros Hmiss Hfail w'. split.
  - now apply handleAnalysis_failure.
  - intros reason p wb Hok Hp. split.
    + apply (run_onMessage_blocked originalUrl reason p wb Hok Hp).
    + apply (run_onMessage_allowed originalUrl reason p wb Hok Hp).
Qed.

(** The analysis of http://b.test/ with the analyzer unreachable. *)
Lemma analysis_failure_keeps_marker_witness :
  let sd := mkSession "active" 1 1000 "work" None in
  let st := {| sessionData := Some sd; blockedUrls := Some ∅; allowedUrls := Some ∅;
               stContext := None |} in
  let w := Simple.world st [mkTab 1 "http://old.test/"] {["http://b.test/"]} 10 in
  let w' := exec (BlockPage.handleAnalysis "http://b.test/" "http://b.test/" "work" sd) w in
  storage w' = st
  /\ activeUrls w' = {["http://b.test/"]}
  /\ section (page w') = "error".
Proof.
  intros sd st w w'.
  destruct (analysis_failure_keeps_marker "http://b.test/" "http://b.test/" "work" sd w)
    as [(Hst & Hact & _ & Hpage & _) _].
  - vm_compute. reflexivity.
  - right. reflexivity.
  - fold w' in Hst, Hact, Hpage. rewrite Hst, Hact, Hpage. repeat split.
Defined.

(** C4, as stated, fails: after the failed analysis of http://b.test/, no
    message reaches the background script and the URL is still in the
    in-flight set; a later completed tab update to the same URL in part_005
    then takes no action, so the analysis is not retried. *)
Lemma failed_analysis_leaves_marker :
  let sd := mkSession "active" 1 1000 "work" None in
  let st := {| sessionData := Some sd; blockedUrls := Some ∅; allowedUrls := Some ∅;
               stContext := None |} in
  let w := Simple.world st [mkTab 1 "http://old.test/"] {["http://b.test/"]} 10 in
  let w' := exec (BlockPage.handleAnalysis "http://b.test/" "http://b.test/" "work" sd) w in
  let later := Chrome.onUpdated (mkUpd 1 "http://b.test/" "complete" "http://b.test/") in
  analyzer w (BlockPage.requestBody "http://b.test/" "work" sd None) = NetworkError
  /\ List.filter is_message (trace w') = []
  /\ bool_decide ("http://b.test/" ∈ activeUrls w') = true
  /\ List.filter is_update (trace (exec later w')) = []
  /\ tabs (exec later w') = tabs w.
Proof. repeat split; vm_compute; reflexivity. Qed.

(** * Further properties of the scripts *)

(** ** The navigation handlers of src/extension/background.js as a whole *)

Section OperaHandlers.
Context `{Platform}.
Import JsString.

Lemma no_rewrite (tabId : Z) (w w' : World) :
  List.filter is_update (trace w') = List.filter is_update (trace w) ->
  at_most_one_block_rewrite tabId w w'.
Proof. intros Heq. exists []. rewrite app_nil_r. auto. Qed.

Lemma one_rewrite (tabId : Z) (rest : string) (w0 w : World) :
  List.filter is_update (trace w0) = List.filter is_update (trace w) ->
  at_most_one_block_rewrite tabId w
    (redirected tabId (Js.getURL "block.html" +:+ rest) w0).
Proof.
  intros Heq. exists [EvTabsUpdate tabId (Js.getURL "block.html" +:+ rest)].
  split; [|right; eauto].
  unfold redirected. wsimpl. rewrite List.filter_app. cbn. now rewrite Heq.
Qed.

Lemma block_urls_shape (url : string) (sd : Session) (e : Entry) (q : string) :
  (exists r, Opera.errorUrl url = Js.getURL "block.html" +:+ r)
  /\ (exists r, Opera.noSessionUrl url = Js.getURL "block.html" +:+ r)
  /\ (exists r, Opera.analyzingUrl url sd = Js.getURL "block.html" +:+ r)
  /\ (exists r, Opera.analyzingSearchUrl url sd q = Js.getURL "block.html" +:+ r)
  /\ (exists r, Opera.blockedUrl url sd e = Js.getURL "block.html" +:+ r).
Proof.
  unfold Opera.errorUrl, Opera.noSessionUrl, Opera.analyzingSearchUrl,
    Opera.analyzingUrl, Opera.blockedUrl.
  rewrite ?JsStringFacts.app_assoc. repeat split; eexists; reflexivity.
Qed.

(** Closes a goal about the world a handler leaves: the store and the
    in-flight set by computation, the rewrites by [no_rewrite] or
    [one_rewrite]. *)
Ltac one_block_rewrite url sd e q :=
  let Hs := fresh in
  pose proof (block_urls_shape url sd e q) as Hs;
  let E1 := fresh in let E2 := fresh in let E3 := fresh in
  let E4 := fresh in let E5 := fresh in
  destruct Hs as ([? E1] & [? E2] & [? E3] & [? E4] & [? E5]);
  rewrite ?E4, ?E1, ?E2, ?E3, ?E5;
  first
    [ apply no_rewrite; wsimpl; rewrite ?List.filter_app; cbn; now rewrite ?app_nil_r
    | match goal with
      | |- at_most_one_block_rewrite ?t _
             (log (EvTabsUpdate ?t (Js.getURL "block.html" +:+ ?r)) (with_tabs _ _ ?w0)) =>
          apply (one_rewrite t r w0); wsimpl;
          rewrite ?List.filter_app; cbn; now rewrite ?app_nil_r
      end ].

Lemma Opera_onBeforeNavigate_total (details : NavDetails) (w : World) :
  let w' := exec (Opera.onBeforeNavigate details) w in
  snd (run (Opera.onBeforeNavigate details) w) = Returned tt
  /\ storage w' = storage w
  /\ activeUrls w ⊆ activeUrls w'
  /\ at_most_one_block_rewrite (nav_tabId details) w w'.
Proof.
  intros w'. subst w'. unfold exec, Opera.onBeforeNavigate.
  set (dflt_s := mkSession "" 0 0 "" None). set (dflt_e := mkEntry "" 0 "" "").
  destruct (negb (Z.eqb (frameId details) 0) || negb (startsWith (nav_url details) "http")).
  { cbn. repeat split; [set_solver | now apply no_rewrite]. }
  rewrite run_try_catch. unfold Opera.onBeforeNavigate_try, Opera.onError.
  step.
  destruct (storage_ok w); cbv beta iota.
  2:{ cbn [run]. destruct (negb (Opera.isExemptUrl (nav_url details))).
      - step. wsimpl. repeat split; [set_solver|].
        one_block_rewrite (nav_url details) dflt_s dflt_e "".
      - cbn. repeat split; [set_solver|].
        one_block_rewrite (nav_url details) dflt_s dflt_e "". }
  cbn [restrict has_key existsb String.eqb Ascii.eqb Bool.eqb orb sessionData blockedUrls].
  destruct (negb (session_is_active (sessionData (storage w)))
            && negb (Opera.isExemptUrl (nav_url details))).
  { step. wsimpl. repeat split; [set_solver|].
    one_block_rewrite (nav_url details) dflt_s dflt_e "". }
  destruct (sessionData (storage w)) as [sd|].
  2:{ cbn. repeat split; [set_solver|].
      one_block_rewrite (nav_url details) dflt_s dflt_e "". }
  destruct (String.eqb (state sd) "active").
  2:{ cbn. repeat split; [set_solver|].
      one_block_rewrite (nav_url details) dflt_s dflt_e "". }
  destruct (Opera.isExemptUrl (nav_url details)).
  { cbn. repeat split; [set_solver|].
    one_block_rewrite (nav_url details) dflt_s dflt_e "". }
  destruct (includes (nav_url details) runtime_id && includes (nav_url details) "block.html").
  { cbn. repeat split; [set_solver|].
    one_block_rewrite (nav_url details) dflt_s dflt_e "". }
  destruct (truthy (Opera.extractSearchQuery (nav_url details))).
  { repeat step. wsimpl. repeat split; [set_solver|].
    one_block_rewrite (nav_url details) sd dflt_e
      (Opera.extractSearchQuery (nav_url details)). }
  destruct (lookup_or _ _ _) as [blockedEntry|].
  - repeat step. wsimpl. repeat split; [set_solver|].
    one_block_rewrite (nav_url details) sd blockedEntry "".
  - repeat step. wsimpl. repeat split; [set_solver|].
    one_block_rewrite (nav_url details) sd dflt_e "".
Qed.

Lemma Opera_onUpdated_total (u : TabUpdate) (w : World) :
  let w' := exec (Opera.onUpdated u) w in
  snd (run (Opera.onUpdated u) w) = Returned tt
  /\ storage w' = storage w
  /\ activeUrls w ⊆ activeUrls w'
  /\ at_most_one_block_rewrite (upd_tabId u) w w'.
Proof.
  intros w'. subst w'. unfold exec, Opera.onUpdated.
  set (dflt_s := mkSession "" 0 0 "" None). set (dflt_e := mkEntry "" 0 "" "").
  destruct (negb (truthy (changeInfo_url u))
            || negb (startsWith (changeInfo_url u) "http")).
  { cbn. repeat split; [set_solver | now apply no_rewrite]. }
  rewrite run_try_catch. unfold Opera.onUpdated_try, Opera.onError.
  step.
  destruct (storage_ok w) eqn:Hok; cbv beta iota.
  2:{ cbn [run]. destruct (negb (Opera.isExemptUrl (changeInfo_url u))).
      - step. wsimpl. repeat split; [set_solver|].
        one_block_rewrite (changeInfo_url u) dflt_s dflt_e "".
      - cbn. repeat split; [set_solver|].
        one_block_rewrite (changeInfo_url u) dflt_s dflt_e "". }
  cbn [restrict has_key existsb String.eqb Ascii.eqb Bool.eqb orb sessionData].
  destruct (sessionData (storage w)) as [sd|].
  2:{ destruct (negb (Opera.isExemptUrl (changeInfo_url u))).
      - step. wsimpl. repeat split; [set_solver|].
        one_block_rewrite (changeInfo_url u) dflt_s dflt_e "".
      - cbn. repeat split; [set_solver|].
        one_block_rewrite (changeInfo_url u) dflt_s dflt_e "". }
  destruct (String.eqb (state sd) "active").
  2:{ destruct (negb (Opera.isExemptUrl (changeInfo_url u))).
      - step. wsimpl. repeat split; [set_solver|].
        one_block_rewrite (changeInfo_url u) dflt_s dflt_e "".
      - cbn. repeat split; [set_solver|].
        one_block_rewrite (changeInfo_url u) dflt_s dflt_e "". }
  destruct (Opera.isExemptUrl (changeInfo_url u)).
  { cbn. repeat split; [set_solver|].
    one_block_rewrite (changeInfo_url u) dflt_s dflt_e "". }
  destruct (Opera.isBlockPage (changeInfo_url u)).
  { cbn. repeat split; [set_solver|].
    one_block_rewrite (changeInfo_url u) dflt_s dflt_e "". }
  step. wsimpl. rewrite Hok.
  cbn [restrict has_key existsb String.eqb Ascii.eqb Bool.eqb orb blockedUrls allowedUrls].
  destruct (lookup_or (or_empty (blockedUrls (storage w))) _ _) as [blockedEntry|].
  { step. rewrite run_sendMessageSafely. wsimpl. repeat split; [set_solver|].
    pose proof (block_urls_shape (changeInfo_url u) sd blockedEntry "")
      as (_ & _ & _ & _ & [r Hr]).
    exists [EvTabsUpdate (upd_tabId u) (Js.getURL "block.html" +:+ r)].
    split; [|right; eauto].
    rewrite Hr. wsimpl. rewrite !List.filter_app. cbn. now rewrite !app_nil_r. }
  destruct (lookup_or (or_empty (allowedUrls (storage w))) _ _) as [allowedEntry|].
  { rewrite run_sendMessageSafely. wsimpl. repeat split; [set_solver|].
    one_block_rewrite (changeInfo_url u) dflt_s dflt_e "". }
  step. wsimpl. destruct (bool_decide _); cbn [negb].
  - cbn. repeat split; [set_solver|].
    one_block_rewrite (changeInfo_url u) dflt_s dflt_e "".
  - repeat step. wsimpl. repeat split; [set_solver|].
    one_block_rewrite (changeInfo_url u) sd dflt_e "".
Qed.

End OperaHandlers.

(** X1.  Whatever the world and the event, neither navigation handler of
    src/extension/background.js lets an exception escape, changes the
    store, or takes a URL out of the in-flight set; each makes at most one
    tab rewrite, of the tab of the event, and only to an address of the
    extension's block.html. *)
Theorem Opera_handlers_total_and_contained `{Platform}
    (details : NavDetails) (u : TabUpdate) (w : World) :
  (snd (run (Opera.onBeforeNavigate details) w) = Returned tt
   /\ storage (exec (Opera.onBeforeNavigate details) w) = storage w
   /\ activeUrls w ⊆ activeUrls (exec (Opera.onBeforeNavigate details) w)
   /\ at_most_one_block_rewrite (nav_tabId details) w
        (exec (Opera.onBeforeNavigate details) w))
  /\ (snd (run (Opera.onUpdated u) w) = Returned tt
      /\ storage (exec (Opera.onUpdated u) w) = storage w
      /\ activeUrls w ⊆ activeUrls (exec (Opera.onUpdated u) w)
      /\ at_most_one_block_rewrite (upd_tabId u) w (exec (Opera.onUpdated u) w)).
Proof.
  split.
  - apply Opera_onBeforeNavigate_total.
  - apply Opera_onUpdated_total.
Qed.


(** ** The script of part_006 under an active session *)

Section LegacyGating.
Context `{Platform}.
Import JsString.

Lemma Legacy_onBeforeNavigate_run (details : NavDetails) (w : World) :
  storage_ok w = true ->
  frameId details = 0 ->
  startsWith (nav_url details) "http" = true ->
  run (Legacy.onBeforeNavigate details) w
  = (if negb (session_is_active (sessionData (storage w)))
        && negb (Legacy.isExemptUrl (nav_url details))
     then redirected (nav_tabId details) (Legacy.noSessionUrl (nav_url details))
            (log (EvStorageGet ["sessionData"; "blockedUrls"; "allowedUrls"]) w)
     else log (EvStorageGet ["sessionData"; "blockedUrls"; "allowedUrls"]) w,
     Returned tt).
Proof.
  intros Hok Hframe Hhttp. unfold Legacy.onBeforeNavigate.
  rewrite Hframe, Hhttp. cbn [Z.eqb negb orb].
  rewrite run_try_catch. unfold Legacy.onBeforeNavigate_try.
  step. rewrite Hok.
  cbn [restrict has_key existsb String.eqb Ascii.eqb Bool.eqb orb sessionData].
  destruct (negb (session_is_active _)); [|reflexivity].
  destruct (negb (Legacy.isExemptUrl _)); [step|]; reflexivity.
Qed.

Lemma Legacy_onUpdated_run (u : TabUpdate) (w : World) :
  storage_ok w = true ->
  startsWith (changeInfo_url u) "http" = true ->
  run (LegacyHandlers.onUpdated u) w
  = (if negb (session_is_active (sessionData (storage w)))
        && negb (Legacy.isExemptUrl (changeInfo_url u))
     then redirected (upd_tabId u) (Legacy.noSessionUrl (changeInfo_url u))
            (log (EvStorageGet ["sessionData"]) w)
     else log (EvStorageGet ["sessionData"]) w,
     Returned tt).
Proof.
  intros Hok Hhttp. unfold LegacyHandlers.onUpdated.
  rewrite (startsWith_http_truthy _ Hhttp), Hhttp. cbn [negb orb].
  rewrite run_try_catch. unfold LegacyHandlers.onUpdated_try.
  step. rewrite Hok.
  cbn [restrict has_key existsb String.eqb Ascii.eqb Bool.eqb orb sessionData].
  destruct (negb (session_is_active _)); [|reflexivity].
  destruct (negb (Legacy.isExemptUrl _)); [step|]; reflexivity.
Qed.

End LegacyGating.

(** X2.  In part_006 an active session switches the gating off: while the
    stored state is 'active', neither the pre-navigation handler nor the
    tab-update handler rewrites a tab, for any URL at all and whatever the
    blocked-set holds; they only read the store. *)
Theorem Legacy_active_session_gates_nothing `{Platform}
    (details : NavDetails) (u : TabUpdate) (w : World) :
  storage_ok w = true ->
  session_is_active (sessionData (storage w)) = true ->
  (tabs (exec (Legacy.onBeforeNavigate details) w) = tabs w
   /\ List.filter is_update (trace (exec (Legacy.onBeforeNavigate details) w))
      = List.filter is_update (trace w))
  /\ (tabs (exec (LegacyHandlers.onUpdated u) w) = tabs w
      /\ List.filter is_update (trace (exec (LegacyHandlers.onUpdated u) w))
         = List.filter is_update (trace w)).
Proof.
  intros Hok Hactive. split.
  - unfold exec, Legacy.onBeforeNavigate.
    destruct (negb (Z.eqb (frameId details) 0)
              || negb (JsString.startsWith (nav_url details) "http")); [now split|].
    rewrite run_try_catch. unfold Legacy.onBeforeNavigate_try.
    step. rewrite Hok.
    cbn [restrict has_key existsb String.eqb Ascii.eqb Bool.eqb orb sessionData].
    rewrite Hactive. cbn. split; [reflexivity|].
    rewrite List.filter_app. cbn. now rewrite app_nil_r.
  - unfold exec, LegacyHandlers.onUpdated.
    destruct (negb (JsString.truthy (changeInfo_url u))
              || negb (JsString.startsWith (changeInfo_url u) "http")); [now split|].
    rewrite run_try_catch. unfold LegacyHandlers.onUpdated_try.
    step. rewrite Hok.
    cbn [restrict has_key existsb String.eqb Ascii.eqb Bool.eqb orb sessionData].
    rewrite Hactive. cbn. split; [reflexivity|].
    rewrite List.filter_app. cbn. now rewrite app_nil_r.
Qed.

(** A navigation to a URL of the blocked-set during an active session. *)
Lemma Legacy_active_session_gates_nothing_witness :
  let sd := mkSession "active" 1 1000 "work" None in
  let e := mkEntry "http://games.test/" 5 "off task" "" in
  let st := {| sessionData := Some sd; blockedUrls := Some {[ "games.test/" := e ]};
               allowedUrls := Some ∅; stContext := None |} in
  let w := Simple.world st [mkTab 1 "http://old.test/"] ∅ 10 in
  tabs (exec (Legacy.onBeforeNavigate (mkNav 0 "http://games.test/" 1)) w) = tabs w
  /\ tabs (exec (LegacyHandlers.onUpdated (mkUpd 1 "http://games.test/" "loading" "")) w)
     = tabs w.
Proof.
  intros sd e st w.
  destruct (Legacy_active_session_gates_nothing (mkNav 0 "http://games.test/" 1)
              (mkUpd 1 "http://games.test/" "loading" "") w eq_refl eq_refl)
    as [[Hnav _] [Hupd _]].
  split; assumption.
Defined.

(** X3.  In part_006, for a main-frame http navigation (or a tab update to
    an http URL) with a readable store, the tab is rewritten exactly when no
    active session is stored and the URL is not exempt, and then to the
    block page with reason no-session; in every other case the handler only
    reads the store. *)
Theorem Legacy_blocks_iff_no_session_and_not_exempt `{Platform}
    (details : NavDetails) (u : TabUpdate) (w : World) :
  storage_ok w = true ->
  (frameId details = 0 ->
   JsString.startsWith (nav_url details) "http" = true ->
   run (Legacy.onBeforeNavigate details) w
   = (if negb (session_is_active (sessionData (storage w)))
         && negb (Legacy.isExemptUrl (nav_url details))
      then redirected (nav_tabId details) (Legacy.noSessionUrl (nav_url details))
             (log (EvStorageGet ["sessionData"; "blockedUrls"; "allowedUrls"]) w)
      else log (EvStorageGet ["sessionData"; "blockedUrls"; "allowedUrls"]) w,
      Returned tt))
  /\ (JsString.startsWith (changeInfo_url u) "http" = true ->
      run (LegacyHandlers.onUpdated u) w
      = (if negb (session_is_active (sessionData (storage w)))
            && negb (Legacy.isExemptUrl (changeInfo_url u))
         then redirected (upd_tabId u) (Legacy.noSessionUrl (changeInfo_url u))
                (log (EvStorageGet ["sessionData"]) w)
         else log (EvStorageGet ["sessionData"]) w,
         Returned tt)).
Proof.
  intros Hok. split.
  - intros Hframe Hhttp. now apply Legacy_onBeforeNavigate_run.
  - intros Hhttp. now apply Legacy_onUpdated_run.
Qed.

(** With no session stored, http://a.test/ is blocked and the analyzer's
    page is not. *)
Lemma Legacy_blocks_iff_no_session_and_not_exempt_witness :
  let w := Simple.world emptyStore [mkTab 1 "http://old.test/"] ∅ 10 in
  url_of_tab (tabs (exec (Legacy.onBeforeNavigate (mkNav 0 "http://a.test/" 1)) w)) 1
  = Some (Legacy.noSessionUrl "http://a.test/")
  /\ url_of_tab
       (tabs (exec (LegacyHandlers.onUpdated
                      (mkUpd 1 "http://localhost:5000/" "loading" "")) w)) 1
     = Some "http://old.test/".
Proof.
  intros w.
  destruct (Legacy_blocks_iff_no_session_and_not_exempt (mkNav 0 "http://a.test/" 1)
              (mkUpd 1 "http://localhost:5000/" "loading" "") w eq_refl) as [Hnav Hupd].
  unfold exec. rewrite Hnav, Hupd; try reflexivity. split; reflexivity.
Defined.

(** ** The completed-tab handler of part_005 *)

Section ChromeGate.
Context `{Platform}.
Import JsString.

Lemma Chrome_urlKey (url : string) (p : URL) :
  parseURL url = Some p ->
  (if truthy (Js.get_or_empty p "q")
   then Chrome.normalizeUrl url +:+ "::" +:+ Js.get_or_empty p "q"
   else Chrome.normalizeUrl url) = Chrome.getUrlKey url.
Proof. intros Hp. unfold Chrome.getUrlKey. now rewrite Hp. Qed.

(** The handler up to the look-up of the two sets, for a completed update
    under an active session. *)
Lemma Chrome_onUpdated_active (u : TabUpdate) (sd : Session) (p : URL) (w : World) :
  storage_ok w = true ->
  sessionData (storage w) = Some sd ->
  state sd = "active" ->
  changeInfo_status u = "complete" ->
  upd_tab_url u <> "" ->
  Chrome.isInternalUrl (upd_tab_url u) = false ->
  Chrome.isBlockPage (upd_tab_url u) = false ->
  parseURL (upd_tab_url u) = Some p ->
  let url := upd_tab_url u in
  let w2 := log (EvStorageGet ["blockedUrls"; "allowedUrls"])
              (log (EvStorageGet ["sessionData"]) w) in
  run (Chrome.onUpdated u) w
  = run (try_catch
           (match Chrome.lookup_opt (blockedUrls (storage w))
                    (Chrome.getUrlKey url) (Chrome.normalizeUrl url) with
            | Some blockedEntry =>
                sendMessageSafely (URL_ANALYSIS_UPDATE url "blocked" (e_reason blockedEntry));;
                if negb (bool_decide (Chrome.getBlockPageReason url = Some "blocked"))
                then call (TabsUpdate (upd_tabId u) (Chrome.blockedUrl url sd blockedEntry))
                else Ret tt
            | None =>
                has ← call (ActiveHas url);
                if negb has
                   && negb (bool_decide
                              (is_Some (Chrome.lookup_opt (allowedUrls (storage w))
                                          (Chrome.getUrlKey url) (Chrome.normalizeUrl url))))
                then call (ActiveAdd url);;
                     call (TabsUpdate (upd_tabId u) (Chrome.analyzingUrl url sd))
                else
                  match Chrome.lookup_opt (allowedUrls (storage w))
                          (Chrome.getUrlKey url) (Chrome.getUrlKey url) with
                  | Some e =>
                      sendMessageSafely
                        (URL_ANALYSIS_UPDATE url "allowed"
                           (or_default (e_reason e) "Content is productive"))
                  | None => Ret tt
                  end
            end) (Ret tt)) w2.
Proof.
  intros Hok Hsd Hactive Hstatus Hurl Hinternal Hblock Hp url w2. subst url w2.
  unfold Chrome.onUpdated. rewrite Hstatus.
  apply String.eqb_neq in Hurl. unfold truthy. rewrite Hurl.
  cbn [String.eqb Ascii.eqb Bool.eqb negb orb].
  rewrite !run_try_catch. unfold Chrome.onUpdated_try. rewrite Hinternal.
  step. rewrite Hok.
  cbn [restrict has_key existsb String.eqb Ascii.eqb Bool.eqb orb sessionData].
  rewrite Hsd, Hactive, Hblock.
  cbn [String.eqb Ascii.eqb Bool.eqb negb].
  step. wsimpl. rewrite Hok, Hp.
  cbn [restrict has_key existsb String.eqb Ascii.eqb Bool.eqb orb blockedUrls allowedUrls].
  fold (truthy (Js.get_or_empty p "q")).
  rewrite (Chrome_urlKey _ p Hp). reflexivity.
Qed.

Lemma Chrome_onUpdated_blocked (u : TabUpdate) (sd : Session) (p : URL) (e : Entry)
    (w : World) :
  storage_ok w = true ->
  sessionData (storage w) = Some sd ->
  state sd = "active" ->
  changeInfo_status u = "complete" ->
  upd_tab_url u <> "" ->
  Chrome.isInternalUrl (upd_tab_url u) = false ->
  Chrome.isBlockPage (upd_tab_url u) = false ->
  parseURL (upd_tab_url u) = Some p ->
  Chrome.lookup_opt (blockedUrls (storage w))
    (Chrome.getUrlKey (upd_tab_url u)) (Chrome.normalizeUrl (upd_tab_url u)) = Some e ->
  let url := upd_tab_url u in
  let w3 := log (EvSendMessage (URL_ANALYSIS_UPDATE url "blocked" (e_reason e)))
              (log (EvStorageGet ["blockedUrls"; "allowedUrls"])
                 (log (EvStorageGet ["sessionData"]) w)) in
  run (Chrome.onUpdated u) w
  = (if bool_decide (Chrome.getBlockPageReason url = Some "blocked") then w3
     else redirected (upd_tabId u) (Chrome.blockedUrl url sd e) w3,
     Returned tt).
Proof.
  intros Hok Hsd Hactive Hstatus Hurl Hinternal Hblock Hp He url w3. subst url w3.
  rewrite (Chrome_onUpdated_active u sd p w) by assumption.
  rewrite He, run_try_catch, run_bind. step.
  destruct (bool_decide _); cbn [negb]; [|step]; reflexivity.
Qed.

Lemma onMessage_keeps_ok (m : Message) (w : World) :
  storage_ok (exec (Chrome.onMessage m) w) = storage_ok w.
Proof.
  unfold exec. destruct m as [url reason|url reason|url action reason];
    [| |reflexivity]; unfold Chrome.onMessage; step;
    (case_eq (storage_ok w); intros Hok; cbv beta iota;
     [|cbn [run fst]; wsimpl; exact Hok]);
    (destruct (parseURL url); [|cbn [run fst]; wsimpl; exact Hok]);
    repeat step; wsimpl; rewrite Hok; wsimpl; exact Hok.
Qed.

Lemma or_default_reason_or (reason : option string) (d : string) :
  or_default (Chrome.reason_or reason d) d = Chrome.reason_or reason d.
Proof.
  unfold Chrome.reason_or, or_default. destruct reason as [r|].
  - destruct (String.eqb r "") eqn:E.
    + now destruct (String.eqb d "").
    + now rewrite E.
  - now destruct (String.eqb d "").
Qed.

Lemma file_url_not_internal (url : string) :
  startsWith url "file://" = true ->
  includes url "localhost:5000" = false ->
  Chrome.isInternalUrl url = false /\ Chrome.isExemptUrl url = true /\ url <> "".
Proof.
  intros Hfile Hlocal. unfold Chrome.isInternalUrl, Chrome.isExemptUrl.
  rewrite Hfile, Hlocal.
  destruct url as [|c url]; [discriminate|].
  cbn [startsWith] in Hfile |- *.
  destruct (Ascii.eqb "f" c) eqn:Ec; [|discriminate].
  apply Ascii.eqb_eq in Ec. subst c. cbn. repeat split; try reflexivity.
  discriminate.
Qed.

Lemma extension_page_internal (path rest : string) :
  Chrome.isInternalUrl (Js.getURL path +:+ rest) = true.
Proof. reflexivity. Qed.

End ChromeGate.

(** X4.  In part_005 a blocked entry decides before anything else: for a
    completed update of a tab under an active session, with a readable
    store, to a URL that parses, is not skipped as internal and is not a
    block page, an entry of the blocked-set under the URL's key (or under
    its normalised form) has the popup notified and the tab rewritten to
    the block page with reason blocked and the entry's explanation,
    whatever the allowed-set and the in-flight set hold.  The one exception
    is written in the code: a URL whose own query carries reason=blocked is
    taken for the block page and is left where it is. *)
Theorem Chrome_blocked_entry_decides `{Platform}
    (u : TabUpdate) (sd : Session) (p : URL) (e : Entry) (w : World) :
  storage_ok w = true ->
  sessionData (storage w) = Some sd ->
  state sd = "active" ->
  changeInfo_status u = "complete" ->
  upd_tab_url u <> "" ->
  Chrome.isInternalUrl (upd_tab_url u) = false ->
  Chrome.isBlockPage (upd_tab_url u) = false ->
  parseURL (upd_tab_url u) = Some p ->
  Chrome.lookup_opt (blockedUrls (storage w))
    (Chrome.getUrlKey (upd_tab_url u)) (Chrome.normalizeUrl (upd_tab_url u)) = Some e ->
  let url := upd_tab_url u in
  let w3 := log (EvSendMessage (URL_ANALYSIS_UPDATE url "blocked" (e_reason e)))
              (log (EvStorageGet ["blockedUrls"; "allowedUrls"])
                 (log (EvStorageGet ["sessionData"]) w)) in
  run (Chrome.onUpdated u) w
  = (if bool_decide (Js.searchParams_get (searchParams p) "reason" = Some "blocked")
     then w3
     else redirected (upd_tabId u) (Chrome.blockedUrl url sd e) w3,
     Returned tt).
Proof.
  intros Hok Hsd Hactive Hstatus Hurl Hinternal Hblock Hp He url w3. subst url w3.
  rewrite (Chrome_onUpdated_blocked u sd p e w) by assumption.
  unfold Chrome.getBlockPageReason. now rewrite Hp.
Qed.

(** A blocked URL that is also in the allowed-set and in flight is sent to
    the block page; the same URL with reason=blocked in its query is not. *)
Lemma Chrome_blocked_entry_decides_witness :
  let sd := mkSession "active" 1 1000 "work" None in
  let e := mkEntry "http://games.test/play" 5 "off task" "" in
  let st := {| sessionData := Some sd;
               blockedUrls := Some {[ "games.test/play" := e ]};
               allowedUrls := Some {[ "games.test/play" := e ]}; stContext := None |} in
  let w := Simple.world st [mkTab 1 "http://games.test/play"]
             {[ "http://games.test/play" ]} 10 in
  url_of_tab (tabs (exec (Chrome.onUpdated
                            (mkUpd 1 "" "complete" "http://games.test/play")) w)) 1
  = Some (Chrome.blockedUrl "http://games.test/play" sd e)
  /\ tabs (exec (Chrome.onUpdated
                   (mkUpd 1 "" "complete" "http://games.test/play?reason=blocked")) w)
     = tabs w.
Proof.
  intros sd e st w.
  assert (Hp1 : parseURL "http://games.test/play"
                = Some (mkURL "http://games.test" "games.test" "/play" [] "http:" "" "" "" ""))
    by (vm_compute; reflexivity).
  assert (Hp2 : parseURL "http://games.test/play?reason=blocked"
                = Some (mkURL "http://games.test" "games.test" "/play"
                          [("reason", "blocked")] "http:" "" "" "" ""))
    by (vm_compute; reflexivity).
  split; unfold exec.
  - rewrite (Chrome_blocked_entry_decides
               (mkUpd 1 "" "complete" "http://games.test/play") sd _ e w
               eq_refl eq_refl eq_refl eq_refl ltac:(discriminate) eq_refl eq_refl Hp1
               ltac:(vm_compute; reflexivity)).
    vm_compute. reflexivity.
  - rewrite (Chrome_blocked_entry_decides
               (mkUpd 1 "" "complete" "http://games.test/play?reason=blocked") sd _ e w
               eq_refl eq_refl eq_refl eq_refl ltac:(discriminate) eq_refl eq_refl Hp2
               ltac:(vm_compute; reflexivity)).
    vm_compute. reflexivity.
Defined.

(** X5.  The completed-tab handler of part_005 fails open.  Its catch block
    only logs: when the store cannot be read, or when the session is active
    and the tab's URL does not parse, the handler returns without rewriting
    any tab and without marking anything in flight. *)
Theorem Chrome_onUpdated_fails_open `{Platform} (u : TabUpdate) (w : World) :
  storage_ok w = false
  \/ (session_is_active (sessionData (storage w)) = true
      /\ parseURL (upd_tab_url u) = None) ->
  snd (run (Chrome.onUpdated u) w) = Returned tt
  /\ tabs (exec (Chrome.onUpdated u) w) = tabs w
  /\ activeUrls (exec (Chrome.onUpdated u) w) = activeUrls w
  /\ List.filter is_update (trace (exec (Chrome.onUpdated u) w))
     = List.filter is_update (trace w).
Proof.
  intros Hfail. unfold exec, Chrome.onUpdated.
  destruct (negb (String.eqb (changeInfo_status u) "complete")
            || negb (JsString.truthy (upd_tab_url u))); [now repeat split|].
  rewrite run_try_catch. unfold Chrome.onUpdated_try.
  destruct (Chrome.isInternalUrl (upd_tab_url u)); [now repeat split|].
  step.
  destruct Hfail as [Hok|[Hactive Hp]].
  - rewrite Hok. cbn [run fst snd].
    repeat split; try reflexivity. now rewrite updates_log.
  - destruct (storage_ok w) eqn:Hok.
    + cbn [restrict has_key existsb String.eqb Ascii.eqb Bool.eqb orb sessionData].
      unfold session_is_active in Hactive.
      destruct (sessionData (storage w)) as [sd|]; [|discriminate].
      rewrite Hactive.
      destruct (negb (Chrome.isBlockPage (upd_tab_url u))).
      * step. wsimpl. rewrite Hok, Hp. cbn [run fst snd].
        repeat split; try reflexivity. now rewrite !updates_log.
      * unfold Chrome.getBlockPageReason. rewrite Hp.
        rewrite bool_decide_eq_false_2 by discriminate.
        cbn [run fst snd].
        repeat split; try reflexivity. now rewrite updates_log.
    + cbn [run fst snd].
      repeat split; try reflexivity. now rewrite updates_log.
Qed.

(** With no session and a store that cannot be read, the tab stays on the
    page it loaded. *)
Lemma Chrome_onUpdated_fails_open_witness :
  let w := Simple.failing (Simple.world emptyStore [mkTab 1 "http://games.test/"] ∅ 10) in
  tabs (exec (Chrome.onUpdated (mkUpd 1 "" "complete" "http://games.test/")) w)
  = [mkTab 1 "http://games.test/"].
Proof.
  intros w.
  destruct (Chrome_onUpdated_fails_open
              (mkUpd 1 "" "complete" "http://games.test/") w (or_introl eq_refl))
    as (_ & Htabs & _).
  exact Htabs.
Defined.

(** X6.  Recording and gating compose in part_005: once the listener has
    handled URL_BLOCKED for a URL, a completed update of a tab to that URL
    under an active session is rewritten to the block page with reason
    blocked, and the explanation shown is the reason of the message (or the
    default text when the message has none). *)
Theorem Chrome_recorded_block_is_enforced `{Platform}
    (url : string) (reason : option string) (tabId : Z) (changed : string)
    (sd : Session) (p : URL) (w : World) :
  storage_ok w = true ->
  sessionData (storage w) = Some sd ->
  state sd = "active" ->
  parseURL url = Some p ->
  url <> "" ->
  Chrome.isInternalUrl url = false ->
  Chrome.isBlockPage url = false ->
  Js.searchParams_get (searchParams p) "reason" <> Some "blocked" ->
  let w1 := exec (Chrome.onMessage (URL_BLOCKED url reason)) w in
  let text := Chrome.reason_or reason "Not relevant to current task" in
  let e := {| e_url := url; e_timestamp := now w; e_reason := text;
              e_searchQuery := Js.get_or_empty p "q" |} in
  run (Chrome.onUpdated (mkUpd tabId changed "complete" url)) w1
  = (redirected tabId (Chrome.blockedUrl url sd e)
       (log (EvSendMessage (URL_ANALYSIS_UPDATE url "blocked" text))
          (log (EvStorageGet ["blockedUrls"; "allowedUrls"])
             (log (EvStorageGet ["sessionData"]) w1))),
     Returned tt).
Proof.
  intros Hok Hsd Hactive Hp Hurl Hinternal Hblock Hreason w1 text e.
  destruct (run_onMessage_blocked url reason p w Hok Hp) as [Hst _].
  fold w1 in Hst.
  assert (Hok1 : storage_ok w1 = true)
    by (unfold w1; now rewrite onMessage_keeps_ok).
  assert (Hsd1 : sessionData (storage w1) = Some sd) by now rewrite Hst.
  assert (He : Chrome.lookup_opt (blockedUrls (storage w1))
                 (Chrome.getUrlKey url) (Chrome.normalizeUrl url) = Some e).
  { rewrite Hst. cbn [blockedUrls Chrome.lookup_opt].
    unfold lookup_or. now rewrite lookup_insert_eq. }
  rewrite (Chrome_onUpdated_blocked (mkUpd tabId changed "complete" url) sd p e w1
             Hok1 Hsd1 Hactive eq_refl Hurl Hinternal Hblock Hp He).
  cbn [upd_tab_url upd_tabId]. unfold Chrome.getBlockPageReason. rewrite Hp.
  now rewrite bool_decide_eq_false_2.
Qed.

Lemma Chrome_recorded_block_is_enforced_witness :
  let sd := mkSession "active" 1 1000 "work" None in
  let st := {| sessionData := Some sd; blockedUrls := None; allowedUrls := None;
               stContext := None |} in
  let w := Simple.world st [mkTab 1 "http://games.test/play"] ∅ 10 in
  let w1 := exec (Chrome.onMessage (URL_BLOCKED "http://games.test/play" (Some "a game"))) w in
  url_of_tab
    (tabs (exec (Chrome.onUpdated (mkUpd 1 "" "complete" "http://games.test/play")) w1)) 1
  = Some (Chrome.blockedUrl "http://games.test/play" sd
            (mkEntry "http://games.test/play" 10 "a game" "")).
Proof.
  intros sd st w w1.
  assert (Hp : parseURL "http://games.test/play"
               = Some (mkURL "http://games.test" "games.test" "/play" [] "http:" "" "" "" ""))
    by (vm_compute; reflexivity).
  subst w1. unfold exec at 1.
  rewrite (Chrome_recorded_block_is_enforced "http://games.test/play" (Some "a game")
             1 "" sd _ w eq_refl eq_refl eq_refl Hp ltac:(discriminate) eq_refl eq_refl
             ltac:(discriminate)).
  vm_compute. reflexivity.
Defined.

(** X7.  Likewise for a favourable verdict: once the listener has handled
    URL_ALLOWED for a URL that has no blocked entry, a completed update of a
    tab to that URL under an active session rewrites nothing and marks
    nothing in flight; the popup is told 'allowed' with the recorded
    reason. *)
Theorem Chrome_recorded_allow_is_honoured `{Platform}
    (url : string) (reason : option string) (tabId : Z) (changed : string)
    (sd : Session) (p : URL) (w : World) :
  storage_ok w = true ->
  sessionData (storage w) = Some sd ->
  state sd = "active" ->
  parseURL url = Some p ->
  url <> "" ->
  Chrome.isInternalUrl url = false ->
  Chrome.isBlockPage url = false ->
  Chrome.lookup_opt (blockedUrls (storage w))
    (Chrome.getUrlKey url) (Chrome.normalizeUrl url) = None ->
  let w1 := exec (Chrome.onMessage (URL_ALLOWED url reason)) w in
  run (Chrome.onUpdated (mkUpd tabId changed "complete" url)) w1
  = (log (EvSendMessage
            (URL_ANALYSIS_UPDATE url "allowed"
               (Chrome.reason_or reason "Content is productive")))
       (log (EvStorageGet ["blockedUrls"; "allowedUrls"])
          (log (EvStorageGet ["sessionData"]) w1)),
     Returned tt).
Proof.
  intros Hok Hsd Hactive Hp Hurl Hinternal Hblock Hnot w1.
  destruct (run_onMessage_allowed url reason p w Hok Hp) as [Hst Hact].
  fold w1 in Hst, Hact.
  assert (Hok1 : storage_ok w1 = true)
    by (unfold w1; now rewrite onMessage_keeps_ok).
  assert (Hsd1 : sessionData (storage w1) = Some sd) by now rewrite Hst.
  rewrite (Chrome_onUpdated_active (mkUpd tabId changed "complete" url) sd p w1
             Hok1 Hsd1 Hactive eq_refl Hurl Hinternal Hblock Hp).
  cbn [upd_tab_url upd_tabId]. rewrite Hst. cbn [blockedUrls allowedUrls].
  rewrite Hnot. cbn [Chrome.lookup_opt]. unfold lookup_or.
  rewrite lookup_insert_eq.
  rewrite run_try_catch. step. wsimpl.
  rewrite (bool_decide_eq_true_2 (is_Some _)) by eauto.
  rewrite andb_false_r. step.
  cbn [e_reason]. now rewrite or_default_reason_or.
Qed.

Lemma Chrome_recorded_allow_is_honoured_witness :
  let sd := mkSession "active" 1 1000 "work" None in
  let st := {| sessionData := Some sd; blockedUrls := None; allowedUrls := None;
               stContext := None |} in
  let w := Simple.world st [mkTab 1 "http://docs.test/api"] {[ "http://docs.test/api" ]} 10 in
  let w1 := exec (Chrome.onMessage (URL_ALLOWED "http://docs.test/api" None)) w in
  tabs (exec (Chrome.onUpdated (mkUpd 1 "" "complete" "http://docs.test/api")) w1)
  = [mkTab 1 "http://docs.test/api"].
Proof.
  intros sd st w w1.
  assert (Hp : parseURL "http://docs.test/api"
               = Some (mkURL "http://docs.test" "docs.test" "/api" [] "http:" "" "" "" ""))
    by (vm_compute; reflexivity).
  subst w1. unfold exec at 1.
  rewrite (Chrome_recorded_allow_is_honoured "http://docs.test/api" None
             1 "" sd _ w eq_refl eq_refl eq_refl Hp ltac:(discriminate) eq_refl eq_refl
             eq_refl).
  vm_compute. reflexivity.
Defined.

(** X8.  The completed-tab handler of part_005 does not consult
    [isExemptUrl].  A file:// URL is exempt by that classifier, yet with no
    active session a tab that completes loading one is rewritten to the
    block page with reason no-session. *)
Theorem Chrome_exempt_file_url_is_blocked `{Platform} (u : TabUpdate) (w : World) :
  storage_ok w = true ->
  session_is_active (sessionData (storage w)) = false ->
  changeInfo_status u = "complete" ->
  JsString.startsWith (upd_tab_url u) "file://" = true ->
  JsString.includes (upd_tab_url u) "localhost:5000" = false ->
  Chrome.isBlockPage (upd_tab_url u) = false ->
  Chrome.isExemptUrl (upd_tab_url u) = true
  /\ run (Chrome.onUpdated u) w
     = (redirected (upd_tabId u) (Chrome.noSessionUrl (upd_tab_url u))
          (log (EvStorageGet ["sessionData"]) w),
        Returned tt).
Proof.
  intros Hok Hinactive Hstatus Hfile Hlocal Hblock.
  destruct (file_url_not_internal _ Hfile Hlocal) as (Hinternal & Hexempt & Hurl).
  split; [exact Hexempt|].
  now apply Chrome_onUpdated_no_session.
Qed.

Lemma Chrome_exempt_file_url_is_blocked_witness :
  let w := Simple.world emptyStore [mkTab 1 "file:///home/notes.txt"] ∅ 10 in
  Chrome.isExemptUrl "file:///home/notes.txt" = true
  /\ url_of_tab
       (tabs (exec (Chrome.onUpdated (mkUpd 1 "" "complete" "file:///home/notes.txt")) w)) 1
     = Some (Chrome.noSessionUrl "file:///home/notes.txt").
Proof.
  intros w.
  destruct (Chrome_exempt_file_url_is_blocked
              (mkUpd 1 "" "complete" "file:///home/notes.txt") w
              eq_refl eq_refl eq_refl eq_refl eq_refl eq_refl) as [Hex Hrun].
  split; [exact Hex|].
  unfold exec. rewrite Hrun. vm_compute. reflexivity.
Defined.

(** X9.  The completed-tab handler of part_005 never acts on a page of the
    extension itself: an address that begins with the extension's own
    origin is skipped by the first test, before the store is read.  So the
    branch that sends a no-session block page back to its original URL once
    a session is active is not reached for the block page's own address. *)
Theorem Chrome_onUpdated_skips_extension_pages `{Platform}
    (tabId : Z) (changed status path rest : string) (w : World) :
  run (Chrome.onUpdated (mkUpd tabId changed status (Js.getURL path +:+ rest))) w
  = (w, Returned tt).
Proof.
  unfold Chrome.onUpdated. cbn [changeInfo_status upd_tab_url].
  destruct (negb (String.eqb status "complete")
            || negb (JsString.truthy (Js.getURL path +:+ rest))); [reflexivity|].
  rewrite run_try_catch. unfold Chrome.onUpdated_try. cbn [upd_tab_url].
  now rewrite extension_page_internal.
Qed.

(** X10.  The timeout check of part_005 leaves everything as it is while the
    session has time left, and also when no session is stored or the stored
    endTime is 0: it only reads the store. *)
Theorem Chrome_checkSessionTimeout_keeps_running_session `{Platform} (w : World) :
  storage_ok w = true ->
  match sessionData (storage w) with
  | Some sd => endTime sd = 0 \/ now w < endTime sd
  | None => True
  end ->
  run Chrome.checkSessionTimeout w = (log (EvStorageGet ["sessionData"]) w, Returned tt).
Proof.
  intros Hok Hleft. unfold Chrome.checkSessionTimeout.
  step. rewrite Hok.
  cbn [restrict has_key existsb String.eqb Ascii.eqb Bool.eqb orb sessionData].
  destruct (sessionData (storage w)) as [sd|]; [|reflexivity].
  destruct (Z.eqb_spec (endTime sd) 0) as [Hz|Hnz]; [reflexivity|].
  cbn [negb]. step. wsimpl.
  destruct Hleft as [Hz|Hlt]; [contradiction|].
  assert (Hle : Z.leb (endTime sd - now w) 0 = false) by (apply Z.leb_gt; lia).
  now rewrite Hle.
Qed.

Lemma Chrome_checkSessionTimeout_keeps_running_session_witness :
  let sd := mkSession "active" 1 1000 "work" None in
  let st := {| sessionData := Some sd; blockedUrls := None; allowedUrls := None;
               stContext := None |} in
  storage (exec Chrome.checkSessionTimeout (Simple.world st [] ∅ 999)) = st.
Proof.
  intros sd st. unfold exec.
  assert (Hleft : endTime sd = 0 \/ 999 < endTime sd) by (right; simpl; lia).
  rewrite (Chrome_checkSessionTimeout_keeps_running_session (Simple.world st [] ∅ 999)
             eq_refl Hleft).
  reflexivity.
Defined.

(** ** Sweeps over the open tabs *)

Section TabSweeps.
Context `{Platform}.
Import JsString.

Lemma tab_id_rewritten (c : Tab -> bool) (f : Tab -> string) (t : Tab) :
  tab_id (rewritten c f t) = tab_id t.
Proof. unfold rewritten. now destruct (c t). Qed.

(** A [forEach] over the tabs that rewrites those satisfying [c]. *)
Lemma forEach_rewritten (c : Tab -> bool) (f : Tab -> string) (l : list Tab) :
  forall (pre : list Tab) (w : World),
    tabs w = pre ++ l ->
    NoDup (map tab_id (pre ++ l)) ->
    tabs (exec (forEach l (fun t =>
                  if c t then call (TabsUpdate (tab_id t) (f t)) else Ret tt)) w)
    = pre ++ map (rewritten c f) l.
Proof.
  induction l as [|t l IH]; intros pre w Htabs Hnd.
  - cbn. now rewrite Htabs.
  - unfold exec. cbn [forEach]. rewrite run_bind.
    change (pre ++ map (rewritten c f) (t :: l))
      with (pre ++ rewritten c f t :: map (rewritten c f) l).
    replace (pre ++ rewritten c f t :: map (rewritten c f) l)
      with ((pre ++ [rewritten c f t]) ++ map (rewritten c f) l)
      by now rewrite <- List.app_assoc.
    assert (Hnd' : NoDup (map tab_id ((pre ++ [rewritten c f t]) ++ l))).
    { rewrite <- List.app_assoc. cbn [app]. rewrite map_app in *. cbn [map] in *.
      now rewrite tab_id_rewritten. }
    unfold rewritten in *. destruct (c t).
    + step. apply IH; [|exact Hnd'].
      wsimpl. rewrite Htabs, map_set_tab_url_one by assumption.
      now rewrite <- List.app_assoc.
    + cbn [run]. apply IH; [|exact Hnd'].
      rewrite Htabs. now rewrite <- List.app_assoc.
Qed.

Lemma sweep_rewritten (c : Tab -> bool) (f : Tab -> string) (w : World) :
  NoDup (map tab_id (tabs w)) ->
  tabs (exec (tabs ← call TabsQuery;
              forEach tabs (fun t =>
                if c t then call (TabsUpdate (tab_id t) (f t)) else Ret tt)) w)
  = map (rewritten c f) (tabs w).
Proof.
  intros Hnd. unfold exec. step.
  apply (forEach_rewritten c f (tabs w) [] (log EvTabsQuery w)); [reflexivity|assumption].
Qed.

Lemma Chrome_restartUrl_exempt (url : string) :
  Chrome.isExemptUrl (ChromeTabs.restartUrl url) = true.
Proof. reflexivity. Qed.

Lemma land_and_close_store (url : string) (w : World) :
  let p : Eff unit :=
    newTab ← call (TabsCreate url);
    if Z.eqb (tab_id newTab) 0 then Ret tt
    else
      tabs ← call TabsQuery;
      let toClose :=
        map tab_id (List.filter (fun t => negb (Z.eqb (tab_id t) (tab_id newTab))) tabs) in
      if negb (Nat.eqb (length toClose) 0) then call (TabsRemove toClose) else Ret tt in
  storage (exec p w) = storage w /\ snd (run p w) = Returned tt.
Proof.
  intros p. subst p. unfold exec. step. wsimpl. cbn [tab_id].
  destruct (Z.eqb (next_tab_id w) 0); [now split|].
  step. wsimpl.
  destruct (negb _); [step|]; now split.
Qed.

End TabSweeps.

(** X11.  [blockAllTabs] of part_005, run at start-up when no session is
    active, rewrites each open tab that has a URL which is not exempt to
    the block page with reason no-session and keeps the other tabs; after
    it every tab with a URL shows an exempt address.  The store is not
    touched. *)
Theorem Chrome_blockAllTabs_settles_tabs `{Platform} (w : World) :
  NoDup (map tab_id (tabs w)) ->
  let w' := exec ChromeTabs.blockAllTabs w in
  tabs w'
  = map (rewritten (fun t => JsString.truthy (tab_url t)
                             && negb (Chrome.isExemptUrl (tab_url t)))
                   (fun t => ChromeTabs.restartUrl (tab_url t))) (tabs w)
  /\ (forall t, t ∈ tabs w' ->
        tab_url t = "" \/ Chrome.isExemptUrl (tab_url t) = true)
  /\ storage w' = storage w.
Proof.
  intros Hnd w'. subst w'.
  assert (Htabs : tabs (exec ChromeTabs.blockAllTabs w)
                  = map (rewritten (fun t => JsString.truthy (tab_url t)
                                             && negb (Chrome.isExemptUrl (tab_url t)))
                           (fun t => ChromeTabs.restartUrl (tab_url t))) (tabs w)).
  { unfold ChromeTabs.blockAllTabs, ChromeTabs.blockTab.
    now rewrite sweep_rewritten. }
  split; [exact Htabs|]. split.
  - intros t Ht. rewrite Htabs in Ht.
    apply list_elem_of_fmap in Ht as (t0 & -> & _).
    unfold rewritten.
    destruct (JsString.truthy (tab_url t0)) eqn:Hurl; cbn [andb].
    + destruct (Chrome.isExemptUrl (tab_url t0)) eqn:Hex; cbn [negb].
      * now right.
      * right. apply Chrome_restartUrl_exempt.
    + left. now apply truthy_false.
  - unfold exec, ChromeTabs.blockAllTabs, ChromeTabs.blockTab. step.
    match goal with
    | |- context [run (forEach ?l _) ?w0] =>
        destruct (forEach_keeps_store l
                    (fun tab => (tab_id tab, ChromeTabs.restartUrl (tab_url tab)))
                    (fun tab => JsString.truthy (tab_url tab)
                                && negb (Chrome.isExemptUrl (tab_url tab))) w0) as [Hst _]
    end.
    exact Hst.
Qed.

Lemma Chrome_blockAllTabs_settles_tabs_witness :
  let w := Simple.world emptyStore
             [mkTab 1 "http://games.test/"; mkTab 2 "about:blank"; mkTab 3 ""] ∅ 10 in
  tabs (exec ChromeTabs.blockAllTabs w)
  = [mkTab 1 (ChromeTabs.restartUrl "http://games.test/"); mkTab 2 "about:blank";
     mkTab 3 ""].
Proof.
  intros w.
  assert (Hnd : NoDup (map tab_id (tabs w)))
    by (apply (bool_decide_unpack _); vm_compute; exact I).
  destruct (Chrome_blockAllTabs_settles_tabs w Hnd) as (Htabs & _ & _).
  rewrite Htabs. vm_compute. reflexivity.
Defined.

(** X12.  Where the background context has no [sessionStorage] (the
    background script runs as a service worker), [cleanupAllData] of
    part_005 never reaches its sweep of the tabs: it asks for the store to
    be cleared, and the next statement, [sessionStorage.clear()], throws.
    The store is emptied; the clearing is the only call it makes. *)
Theorem Chrome_cleanupAllData_stops_after_clearing `{Platform} (w : World) :
  background_web_storage = false ->
  storage_ok w = true ->
  snd (run Chrome.cleanupAllData w) = Threw
  /\ storage (exec Chrome.cleanupAllData w) = emptyStore
  /\ trace (exec Chrome.cleanupAllData w) = trace w ++ [EvStorageClear].
Proof.
  intros Hsw Hok. unfold exec, Chrome.cleanupAllData, Chrome.clearWebStorage.
  step. rewrite Hok, Hsw. now repeat split.
Qed.

Lemma Chrome_cleanupAllData_stops_after_clearing_witness :
  let sd := mkSession "active" 1 1000 "work" None in
  let st := {| sessionData := Some sd; blockedUrls := None; allowedUrls := None;
               stContext := None |} in
  let w := Simple.world st [mkTab 1 (Chrome.noSessionUrl "http://a.test/")] ∅ 10 in
  storage (exec Chrome.cleanupAllData w) = emptyStore
  /\ trace (exec Chrome.cleanupAllData w) = [EvStorageClear].
Proof.
  intros sd st w.
  assert (Hsw : background_web_storage = false) by reflexivity.
  destruct (Chrome_cleanupAllData_stops_after_clearing w Hsw eq_refl)
    as (_ & Hst & Htrace).
  split; [exact Hst | exact Htrace].
Defined.

(** X13.  When a session starts, [activateSessionShowNewTab] (the same in
    src/extension/background.js and in part_005) sends every open tab to
    the extension's new-tab page, exempt pages and the analyzer's own page
    included. *)
Theorem activateSessionShowNewTab_takes_every_tab `{Platform} (w : World) :
  NoDup (map tab_id (tabs w)) ->
  tabs (exec Opera.activateSessionShowNewTab w)
  = map (fun t => {| tab_id := tab_id t; tab_url := Js.getURL "newtab.html" |}) (tabs w)
  /\ tabs (exec ChromeTabs.activateSessionShowNewTab w)
     = map (fun t => {| tab_id := tab_id t; tab_url := Js.getURL "newtab.html" |}) (tabs w).
Proof.
  intros Hnd.
  pose proof (sweep_rewritten (fun _ => true) (fun _ => Js.getURL "newtab.html") w Hnd)
    as Hsweep.
  split; exact Hsweep.
Qed.

Lemma activateSessionShowNewTab_takes_every_tab_witness :
  let w := Simple.world emptyStore
             [mkTab 1 "http://localhost:5000/"; mkTab 2 "about:blank"] ∅ 10 in
  tabs (exec Opera.activateSessionShowNewTab w)
  = [mkTab 1 (Js.getURL "newtab.html"); mkTab 2 (Js.getURL "newtab.html")].
Proof.
  intros w.
  assert (Hnd : NoDup (map tab_id (tabs w)))
    by (apply (bool_decide_unpack _); vm_compute; exact I).
  destruct (activateSessionShowNewTab_takes_every_tab w Hnd) as [Htabs _].
  rewrite Htabs. reflexivity.
Defined.

(** X14.  [endSessionShowStartAndClose] of part_005 opens the block page
    with reason no-session in a new tab and closes every other tab: when
    the new tab's id is fresh, that tab is the only one left, and no tab
    was rewritten. *)
Theorem Chrome_endSession_leaves_landing_tab `{Platform} (w : World) :
  next_tab_id w <> 0 ->
  next_tab_id w ∉ map tab_id (tabs w) ->
  let w' := exec ChromeTabs.endSessionShowStartAndClose w in
  tabs w' = [landing_tab (Js.getURL "block.html" +:+ "?reason=no-session") w]
  /\ List.filter is_update (trace w') = List.filter is_update (trace w)
  /\ storage w' = storage w.
Proof.
  intros Hnz Hfresh w'. subst w'.
  destruct (land_and_close (Js.getURL "block.html" +:+ "?reason=no-session") w Hnz Hfresh)
    as [Htabs Hupd].
  destruct (land_and_close_store (Js.getURL "block.html" +:+ "?reason=no-session") w)
    as [Hst _].
  split; [exact Htabs|]. split; [exact Hupd|exact Hst].
Qed.

Lemma Chrome_endSession_leaves_landing_tab_witness :
  let w := Simple.world emptyStore
             [mkTab 1 "http://a.test/"; mkTab 2 "http://b.test/"] ∅ 10 in
  tabs (exec ChromeTabs.endSessionShowStartAndClose w)
  = [mkTab 100 (Js.getURL "block.html" +:+ "?reason=no-session")].
Proof.
  intros w.
  assert (Hfresh : next_tab_id w ∉ map tab_id (tabs w))
    by (apply (bool_decide_unpack _); vm_compute; exact I).
  destruct (Chrome_endSession_leaves_landing_tab w ltac:(discriminate) Hfresh)
    as (Htabs & _ & _).
  exact Htabs.
Defined.

(** ** Start-up and clean-up *)

(** X15.  The start-up (and install) listeners of src/extension/background.js
    and of part_006 decide on the stored state field alone and have no
    try: with a stored state 'active' they touch nothing, whatever the
    endTime and the clock, and with a store that cannot be read the
    exception escapes before any tab is touched. *)
Theorem startup_touches_nothing `{Platform} (w : World) :
  storage_ok w = false \/ session_is_active (sessionData (storage w)) = true ->
  run OperaLifecycle.onStartup w
  = (log (EvStorageGet ["sessionData"]) w,
     if storage_ok w then Returned tt else Threw)
  /\ run LegacyHandlers.onStartup w
     = (log (EvStorageGet ["sessionData"]) w,
        if storage_ok w then Returned tt else Threw)
  /\ run OperaLifecycle.onInstalled w = run OperaLifecycle.onStartup w
  /\ run LegacyHandlers.onInstalled w = run LegacyHandlers.onStartup w.
Proof.
  intros Hcase.
  unfold OperaLifecycle.onInstalled, LegacyHandlers.onInstalled,
    OperaLifecycle.onStartup, LegacyHandlers.onStartup.
  rewrite !run_call_bind. cbn [handle fst snd].
  destruct (storage_ok w) eqn:Hok.
  - destruct Hcase as [Hbad|Hactive]; [discriminate|].
    cbn [restrict has_key existsb String.eqb Ascii.eqb Bool.eqb orb sessionData].
    rewrite Hactive. now repeat split.
  - now repeat split.
Qed.

(** A session whose endTime passed long ago, still stored as 'active'. *)
Lemma startup_touches_nothing_witness :
  let sd := mkSession "active" 1 1000 "work" None in
  let st := {| sessionData := Some sd; blockedUrls := None; allowedUrls := None;
               stContext := None |} in
  let w := Simple.world st [mkTab 1 "http://games.test/"] ∅ 999999 in
  tabs (exec OperaLifecycle.onStartup w) = tabs w
  /\ tabs (exec LegacyHandlers.onStartup w) = tabs w.
Proof.
  intros sd st w.
  destruct (startup_touches_nothing w (or_intror eq_refl)) as (HO & HL & _).
  unfold exec. rewrite HO, HL. split; reflexivity.
Defined.

(** X16.  At start-up with no active session the two scripts sweep the
    tabs: part_006 rewrites every tab whose URL is not exempt to the block
    page with reason session-ended and keeps the others, and
    src/extension/background.js opens the block page with reason
    before-block in a new tab and closes every other tab.  Neither changes
    the store. *)
Theorem startup_without_session_sweeps_tabs `{Platform} (w : World) :
  storage_ok w = true ->
  session_is_active (sessionData (storage w)) = false ->
  NoDup (map tab_id (tabs w)) ->
  next_tab_id w <> 0 ->
  next_tab_id w ∉ map tab_id (tabs w) ->
  (tabs (exec LegacyHandlers.onStartup w) = map session_ended_tab (tabs w)
   /\ storage (exec LegacyHandlers.onStartup w) = storage w)
  /\ (tabs (exec OperaLifecycle.onStartup w)
      = [landing_tab (Js.getURL "block.html" +:+ "?reason=before-block") w]
      /\ List.filter is_update (trace (exec OperaLifecycle.onStartup w))
         = List.filter is_update (trace w)
      /\ storage (exec OperaLifecycle.onStartup w) = storage w).
Proof.
  intros Hok Hinactive Hnd Hnz Hfresh. split; [split|split; [|split]].
  - unfold exec, LegacyHandlers.onStartup. step. rewrite Hok.
    cbn [restrict has_key existsb String.eqb Ascii.eqb Bool.eqb orb sessionData].
    rewrite Hinactive. cbn [negb].
    apply (Legacy_blockAllTabs_tabs (log (EvStorageGet ["sessionData"]) w) Hnd).
  - unfold exec, LegacyHandlers.onStartup. step. rewrite Hok.
    cbn [restrict has_key existsb String.eqb Ascii.eqb Bool.eqb orb sessionData].
    rewrite Hinactive. cbn [negb].
    unfold Legacy.blockAllTabs, Legacy.blockTab. step.
    match goal with
    | |- context [run (forEach ?l _) ?w0] =>
        destruct (forEach_keeps_store l
                    (fun tab => (tab_id tab, Legacy.sessionEndedUrl (tab_url tab)))
                    (fun tab => JsString.truthy (tab_url tab)
                                && negb (Legacy.isExemptUrl (tab_url tab))) w0) as [Hst _]
    end.
    exact Hst.
  - unfold exec, OperaLifecycle.onStartup. step. rewrite Hok.
    cbn [restrict has_key existsb String.eqb Ascii.eqb Bool.eqb orb sessionData].
    rewrite Hinactive. cbn [negb].
    apply (land_and_close _ (log (EvStorageGet ["sessionData"]) w) Hnz Hfresh).
  - unfold exec, OperaLifecycle.onStartup. step. rewrite Hok.
    cbn [restrict has_key existsb String.eqb Ascii.eqb Bool.eqb orb sessionData].
    rewrite Hinactive. cbn [negb].
    destruct (land_and_close (Js.getURL "block.html" +:+ "?reason=before-block")
                (log (EvStorageGet ["sessionData"]) w) Hnz Hfresh)
      as [_ Hupd].
    unfold exec in Hupd. unfold Opera.blockAllTabs. rewrite Hupd.
    now apply updates_log.
  - unfold exec, OperaLifecycle.onStartup. step. rewrite Hok.
    cbn [restrict has_key existsb String.eqb Ascii.eqb Bool.eqb orb sessionData].
    rewrite Hinactive. cbn [negb].
    apply (land_and_close_store _ (log (EvStorageGet ["sessionData"]) w)).
Qed.

Lemma startup_without_session_sweeps_tabs_witness :
  let w := Simple.world emptyStore
             [mkTab 1 "http://games.test/"; mkTab 2 "about:blank"] ∅ 10 in
  tabs (exec LegacyHandlers.onStartup w)
  = [mkTab 1 (Legacy.sessionEndedUrl "http://games.test/"); mkTab 2 "about:blank"]
  /\ tabs (exec OperaLifecycle.onStartup w)
     = [mkTab 100 (Js.getURL "block.html" +:+ "?reason=before-block")].
Proof.
  intros w.
  assert (Hnd : NoDup (map tab_id (tabs w)))
    by (apply (bool_decide_unpack _); vm_compute; exact I).
  assert (Hfresh : next_tab_id w ∉ map tab_id (tabs w))
    by (apply (bool_decide_unpack _); vm_compute; exact I).
  destruct (startup_without_session_sweeps_tabs w eq_refl eq_refl Hnd
              ltac:(discriminate) Hfresh)
    as ([HL _] & HO & _).
  split; [rewrite HL; vm_compute; reflexivity | exact HO].
Defined.

(** ** The block page script *)

Section BlockPageFacts.
Context `{Platform}.

Ltac psimpl :=
  wsimpl; cbn [isAnalyzing globalRedirectFlag section location sessionCache].

Lemma run_showSection (s : string) (w : World) :
  run (BlockPage.showSection s) w
  = (with_page {| isAnalyzing := isAnalyzing (page w);
                  globalRedirectFlag := globalRedirectFlag (page w);
                  section := s; location := location (page w);
                  sessionCache := sessionCache (page w) |} w, Returned tt).
Proof. reflexivity. Qed.

Lemma run_set_isAnalyzing (b : bool) (w : World) :
  run (BlockPage.set_isAnalyzing b) w
  = (with_page {| isAnalyzing := b;
                  globalRedirectFlag := globalRedirectFlag (page w);
                  section := section (page w); location := location (page w);
                  sessionCache := sessionCache (page w) |} w, Returned tt).
Proof. reflexivity. Qed.

Lemma run_redirectTo (url : string) (w : World) :
  run (BlockPage.redirectTo url) w
  = (with_page {| isAnalyzing := isAnalyzing (page w);
                  globalRedirectFlag := true;
                  section := section (page w); location := Some url;
                  sessionCache := sessionCache (page w) |} w, Returned tt).
Proof. reflexivity. Qed.

Lemma run_cachePut (key : string) (r : AnalysisResult) (t : Z) (w : World) :
  run (BlockPage.cachePut key r t) w
  = (with_page {| isAnalyzing := isAnalyzing (page w);
                  globalRedirectFlag := globalRedirectFlag (page w);
                  section := section (page w); location := location (page w);
                  sessionCache := <[key := (r, t)]> (sessionCache (page w)) |} w,
     Returned tt).
Proof. reflexivity. Qed.

Lemma run_displayBlockedInfo (url : string) (explanation : option string) (w : World) :
  run (BlockPage.displayBlockedInfo url explanation) w
  = (w, if displays url explanation then Returned tt else Threw).
Proof.
  unfold BlockPage.displayBlockedInfo, BlockPage.setText, displays.
  rewrite run_bind.
  destruct (has_element "blockedUrl"); cbn [negb orb andb].
  - destruct (decodeURIComponent url) as [d|]; cbn [run].
    + rewrite (bool_decide_eq_true_2 _ (ltac:(eauto) : is_Some (Some d))). cbn [andb].
      destruct (has_element "explanation"); cbn [negb orb]; [|reflexivity].
      destruct (decodeURIComponent _) as [d'|]; cbn [run].
      * now rewrite (bool_decide_eq_true_2 _ (ltac:(eauto) : is_Some (Some d'))).
      * rewrite bool_decide_eq_false_2; [reflexivity|]. now intros [? ?].
    + rewrite bool_decide_eq_false_2; [reflexivity|]. now intros [? ?].
  - cbn [run]. destruct (has_element "explanation"); cbn [negb orb]; [|reflexivity].
    destruct (decodeURIComponent _) as [d'|]; cbn [run].
    + now rewrite (bool_decide_eq_true_2 _ (ltac:(eauto) : is_Some (Some d'))).
    + rewrite bool_decide_eq_false_2; [reflexivity|]. now intros [? ?].
Qed.

(** The unfavourable branch shared by the analysis and by the handling of a
    cached verdict: the section, the texts, the message. *)
Lemma run_blocked_branch (url originalUrl : string) (shown reported : option string)
    (w : World) :
  run (BlockPage.showSection "blocked";;
       BlockPage.displayBlockedInfo url shown;;
       _ ← call (SendMessage (URL_BLOCKED originalUrl reported));
       Ret tt) w
  = (let w1 := fst (run (BlockPage.showSection "blocked") w) in
     if displays url shown
     then (log (EvSendMessage (URL_BLOCKED originalUrl reported)) w1, Returned tt)
     else (w1, Threw)).
Proof.
  rewrite run_bind, run_showSection, run_bind, run_displayBlockedInfo. cbv zeta.
  cbn [fst]. destruct (displays url shown); [step|]; reflexivity.
Qed.

(** What the handling of a cached verdict does. *)
Lemma run_handleAnalysisResult (result : AnalysisResult) (url originalUrl : string)
    (w : World) :
  run (BlockPage.handleAnalysisResult result url originalUrl) w
  = match result with
    | ResNull => (w, Threw)
    | _ =>
        let favourable :=
          match result with ResObject p _ => p | ResLegacy t => t | ResNull => false end in
        let text := match result with
                    | ResObject _ e => e
                    | _ => "Content not relevant to current task"
                    end in
        if favourable then
          let w1 := log (EvSendMessage (URL_ALLOWED originalUrl None)) w in
          (if has_receiver w then fst (run (BlockPage.redirectTo originalUrl) w1) else w1,
           Returned tt)
        else
          let w1 := fst (run (BlockPage.showSection "blocked") w) in
          if displays url (Some text)
          then (log (EvSendMessage (URL_BLOCKED originalUrl (Some text))) w1, Returned tt)
          else (w1, Threw)
    end.
Proof.
  unfold BlockPage.handleAnalysisResult.
  destruct result as [[|] e|[|]|]; cbv zeta beta iota.
  - step. destruct (has_receiver w); reflexivity.
  - apply run_blocked_branch.
  - step. destruct (has_receiver w); reflexivity.
  - apply run_blocked_branch.
  - reflexivity.
Qed.

(** The analysis call when the analyzer answers. *)
Lemma run_analyze_answered (url originalUrl domain : string) (sd : Session)
    (key : string) (t : Z) (status : Z) (result : AnalysisResult) (w : World) :
  storage_ok w = true ->
  analyzer w (BlockPage.requestBody originalUrl domain sd (stContext (storage w)))
  = Response true status result ->
  run (BlockPage.analyze url originalUrl domain sd key t) w
  = (let w1 := log (EvFetch (BlockPage.requestBody originalUrl domain sd
                               (stContext (storage w))))
                 (log (EvStorageGet ["context"]) w) in
     let w2 := fst (run (BlockPage.cachePut key result t) w1) in
     match result with
     | ResNull => (w2, Threw)
     | _ =>
         if BlockPage.res_isProductive result && negb (globalRedirectFlag (page w))
         then (fst (run (BlockPage.redirectTo originalUrl) w2), Returned tt)
         else
           let w3 := fst (run (BlockPage.showSection "blocked") w2) in
           if displays url (BlockPage.res_explanation result)
           then (log (EvSendMessage
                        (URL_BLOCKED originalUrl (BlockPage.res_explanation result))) w3,
                 Returned tt)
           else (w3, Threw)
     end).
Proof.
  intros Hok Hans. unfold BlockPage.analyze. step. rewrite Hok.
  cbn [restrict has_key existsb String.eqb Ascii.eqb Bool.eqb orb stContext].
  step. wsimpl. rewrite Hans. cbn [negb].
  rewrite run_bind, run_cachePut. cbv zeta.
  destruct result as [p e|t0|]; [| |reflexivity].
  - step. psimpl.
    destruct (BlockPage.res_isProductive (ResObject p e)
              && negb (globalRedirectFlag (page w))); [reflexivity|].
    apply run_blocked_branch.
  - step. psimpl.
    destruct (BlockPage.res_isProductive (ResLegacy t0)
              && negb (globalRedirectFlag (page w))); [reflexivity|].
    apply run_blocked_branch.
Qed.

(** The [try] block of the block page leaves the store, the in-flight set
    and the environment as they are. *)
Lemma handleAnalysis_try_frame (url originalUrl domain : string) (sd : Session) (w : World) :
  let w' := fst (run (BlockPage.handleAnalysis_try url originalUrl domain sd) w) in
  storage w' = storage w /\ storage_ok w' = storage_ok w
  /\ activeUrls w' = activeUrls w /\ now w' = now w
  /\ analyzer w' = analyzer w /\ has_receiver w' = has_receiver w.
Proof.
  assert (Hblocked : forall shown reported w0,
    let w' := fst (run (BlockPage.showSection "blocked";;
                        BlockPage.displayBlockedInfo url shown;;
                        _ ← call (SendMessage (URL_BLOCKED originalUrl reported));
                        Ret tt) w0) in
    storage w' = storage w0 /\ storage_ok w' = storage_ok w0
    /\ activeUrls w' = activeUrls w0 /\ now w' = now w0
    /\ analyzer w' = analyzer w0 /\ has_receiver w' = has_receiver w0).
  { intros shown reported w0. rewrite run_blocked_branch. cbv zeta.
    destruct (displays url shown); cbn [fst]; now repeat split. }
  assert (Hanalyze : forall key t,
    let w' := fst (run (BlockPage.analyze url originalUrl domain sd key t) w) in
    storage w' = storage w /\ storage_ok w' = storage_ok w
    /\ activeUrls w' = activeUrls w /\ now w' = now w
    /\ analyzer w' = analyzer w /\ has_receiver w' = has_receiver w).
  { intros key t.
    destruct (storage_ok w) eqn:Hok.
    - destruct (analyzer w (BlockPage.requestBody originalUrl domain sd
                              (stContext (storage w)))) as [|[|] status result] eqn:Hans.
      + rewrite (analyze_failure url originalUrl domain sd key t w)
          by (right; now rewrite Hans).
        rewrite Hok. cbn [fst]. psimpl. rewrite ?Hok. now repeat split.
      + rewrite (run_analyze_answered url originalUrl domain sd key t status result w Hok Hans).
        cbv zeta. rewrite run_cachePut. cbn [fst].
        destruct result as [p e|t0|];
          [destruct (BlockPage.res_isProductive _ && _);
             [|destruct (displays _ _)]
          |destruct (BlockPage.res_isProductive _ && _);
             [|destruct (displays _ _)]
          |];
          cbn [fst]; psimpl; rewrite ?Hok; now repeat split.
      + rewrite (analyze_failure url originalUrl domain sd key t w)
          by (right; now rewrite Hans).
        rewrite Hok. cbn [fst]. psimpl. rewrite ?Hok. now repeat split.
    - rewrite (analyze_failure url originalUrl domain sd key t w) by now left.
      rewrite Hok. cbn [fst]. psimpl. rewrite ?Hok. now repeat split. }
  unfold BlockPage.handleAnalysis_try. repeat step. cbv zeta.
  destruct (sessionCache (page w) !! BlockPage.cacheKey url domain sd) as [[result ts]|];
    [|apply Hanalyze].
  destruct (BlockPage.isCacheValid _ _); [|apply Hanalyze].
  rewrite run_handleAnalysisResult.
  destruct result as [[|] e|[|]|]; cbv zeta beta iota;
    try (destruct (has_receiver w) eqn:Hr; cbn [fst]; psimpl; now rewrite ?Hr);
    try (destruct (displays _ _); cbn [fst]; psimpl; now repeat split).
Qed.

(** [handleAnalysis] around its [try] block. *)
Lemma run_handleAnalysis (url originalUrl domain : string) (sd : Session) (w : World) :
  let w0 := with_page {| isAnalyzing := true;
                         globalRedirectFlag := globalRedirectFlag (page w);
                         section := "analyzing"; location := location (page w);
                         sessionCache := sessionCache (page w) |} w in
  run (BlockPage.handleAnalysis url originalUrl domain sd) w
  = match run (BlockPage.handleAnalysis_try url originalUrl domain sd) w0 with
    | (w1, Returned _) => (fst (run (BlockPage.set_isAnalyzing false) w1), Returned tt)
    | (w1, Threw) =>
        (fst (run (BlockPage.set_isAnalyzing false)
                (fst (run (BlockPage.showSection "error") w1))), Returned tt)
    end.
Proof.
  intros w0. unfold BlockPage.handleAnalysis.
  rewrite run_bind, run_set_isAnalyzing, run_bind, run_showSection.
  psimpl.
  match goal with
  | |- context [with_page ?pg (with_page ?pg' w)] =>
      change (with_page pg (with_page pg' w)) with w0
  end.
  rewrite run_try_finally, run_try_catch.
  destruct (run (BlockPage.handleAnalysis_try url originalUrl domain sd) w0)
    as [w1 [[]|]]; reflexivity.
Qed.

(** What [handleAnalysis] adds to the trace is what its [try] block adds. *)
Lemma trace_handleAnalysis (url originalUrl domain : string) (sd : Session) (w : World) :
  let w0 := with_page {| isAnalyzing := true;
                         globalRedirectFlag := globalRedirectFlag (page w);
                         section := "analyzing"; location := location (page w);
                         sessionCache := sessionCache (page w) |} w in
  trace (exec (BlockPage.handleAnalysis url originalUrl domain sd) w)
  = trace (fst (run (BlockPage.handleAnalysis_try url originalUrl domain sd) w0)).
Proof.
  intros w0. unfold exec. rewrite run_handleAnalysis. fold w0.
  destruct (run (BlockPage.handleAnalysis_try url originalUrl domain sd) w0)
    as [w1 [[]|]]; reflexivity.
Qed.

End BlockPageFacts.

(** X17.  [handleAnalysis] of the block page always returns: whatever the
    cache, the store and the analyzer do, and whatever the verdict and its
    texts are, no exception escapes it, the [isAnalyzing] flag is false
    again when it ends, and it changes neither the store nor the in-flight
    set of the background script. *)
Theorem handleAnalysis_always_returns `{Platform}
    (url originalUrl domain : string) (sd : Session) (w : World) :
  let w' := exec (BlockPage.handleAnalysis url originalUrl domain sd) w in
  snd (run (BlockPage.handleAnalysis url originalUrl domain sd) w) = Returned tt
  /\ isAnalyzing (page w') = false
  /\ storage w' = storage w
  /\ activeUrls w' = activeUrls w.
Proof.
  intros w'. subst w'. unfold exec. rewrite run_handleAnalysis. cbv zeta.
  match goal with
  | |- context [run (BlockPage.handleAnalysis_try _ _ _ _) ?w0] =>
      destruct (handleAnalysis_try_frame url originalUrl domain sd w0)
        as (Hst & _ & Hact & _);
      destruct (run (BlockPage.handleAnalysis_try url originalUrl domain sd) w0)
        as [w1 [[]|]]
  end; cbn [fst snd] in *.
  - rewrite run_set_isAnalyzing. cbn [fst]. wsimpl. cbn [isAnalyzing].
    now rewrite Hst, Hact.
  - rewrite run_showSection. cbn [fst]. rewrite run_set_isAnalyzing. cbn [fst].
    wsimpl. cbn [isAnalyzing]. now rewrite Hst, Hact.
Qed.

Section BlockPageVerdicts.
Context `{Platform}.

Ltac psimpl :=
  wsimpl; cbn [isAnalyzing globalRedirectFlag section location sessionCache].

Lemma handleAnalysis_try_miss (url originalUrl domain : string) (sd : Session) (w : World) :
  BlockPage.isCacheValid
    (sessionCache (page w) !! BlockPage.cacheKey url domain sd) (now w) = false ->
  run (BlockPage.handleAnalysis_try url originalUrl domain sd) w
  = run (BlockPage.analyze url originalUrl domain sd
           (BlockPage.cacheKey url domain sd) (now w)) w.
Proof.
  intros Hmiss. unfold BlockPage.handleAnalysis_try. repeat step. cbv zeta.
  destruct (sessionCache (page w) !! BlockPage.cacheKey url domain sd) as [[result ts]|];
    [now rewrite Hmiss|reflexivity].
Qed.

Lemma handleAnalysis_try_hit (url originalUrl domain : string) (sd : Session)
    (result : AnalysisResult) (ts : Z) (w : World) :
  sessionCache (page w) !! BlockPage.cacheKey url domain sd = Some (result, ts) ->
  BlockPage.isCacheValid (Some (result, ts)) (now w) = true ->
  run (BlockPage.handleAnalysis_try url originalUrl domain sd) w
  = run (BlockPage.handleAnalysisResult result url originalUrl) w.
Proof.
  intros Hhit Hvalid. unfold BlockPage.handleAnalysis_try. repeat step. cbv zeta.
  now rewrite Hhit, Hvalid.
Qed.

Lemma messages_log (e : Event) (w : World) :
  List.filter is_message (trace (log e w))
  = List.filter is_message (trace w) ++ (if is_message e then [e] else []).
Proof.
  unfold log. cbn [trace]. rewrite List.filter_app. cbn [List.filter].
  now destruct (is_message e).
Qed.

Lemma fetches_log (e : Event) (w : World) :
  List.filter is_fetch (trace (log e w))
  = List.filter is_fetch (trace w) ++ (if is_fetch e then [e] else []).
Proof.
  unfold log. cbn [trace]. rewrite List.filter_app. cbn [List.filter].
  now destruct (is_fetch e).
Qed.

End BlockPageVerdicts.

Ltac prun :=
  repeat first [rewrite run_set_isAnalyzing | rewrite run_redirectTo
               | rewrite run_showSection | rewrite run_cachePut | progress cbn [fst]].

Ltac ftrace :=
  repeat first [rewrite fetches_log | rewrite messages_log
               | progress cbn [with_page at_time trace is_fetch is_message]];
  rewrite ?app_nil_r.

Section FreshVerdict.
Context `{Platform}.

Ltac psimpl :=
  wsimpl; cbn [isAnalyzing globalRedirectFlag section location sessionCache].

(** The whole of [handleAnalysis] on a cache miss answered by the analyzer. *)
Lemma run_handleAnalysis_answered (url originalUrl domain : string) (sd : Session)
    (status : Z) (result : AnalysisResult) (w : World) :
  storage_ok w = true ->
  BlockPage.isCacheValid
    (sessionCache (page w) !! BlockPage.cacheKey url domain sd) (now w) = false ->
  analyzer w (BlockPage.requestBody originalUrl domain sd (stContext (storage w)))
  = Response true status result ->
  let go := BlockPage.res_isProductive result && negb (globalRedirectFlag (page w)) in
  let shown := verdict_shown url result in
  let rq := BlockPage.requestBody originalUrl domain sd (stContext (storage w)) in
  let w2 := log (EvFetch rq) (log (EvStorageGet ["context"]) w) in
  let pg := {| isAnalyzing := false;
               globalRedirectFlag := go || globalRedirectFlag (page w);
               section := if go then "analyzing" else if shown then "blocked" else "error";
               location := if go then Some originalUrl else location (page w);
               sessionCache := <[BlockPage.cacheKey url domain sd := (result, now w)]>
                                 (sessionCache (page w)) |} in
  run (BlockPage.handleAnalysis url originalUrl domain sd) w
  = (if negb go && shown
     then with_page pg
            (log (EvSendMessage
                    (URL_BLOCKED originalUrl (BlockPage.res_explanation result))) w2)
     else with_page pg w2,
     Returned tt).
Proof.
  intros Hok Hmiss Hans go shown rq w2 pg. subst go shown rq w2 pg.
  rewrite run_handleAnalysis. cbv zeta.
  rewrite handleAnalysis_try_miss by exact Hmiss.
  rewrite (run_analyze_answered url originalUrl domain sd _ _ status result)
    by assumption.
  cbv zeta. unfold verdict_shown. psimpl.
  destruct result as [p e|t0|].
  - destruct (BlockPage.res_isProductive (ResObject p e)
              && negb (globalRedirectFlag (page w))) eqn:Hgo; cbn [negb andb orb].
    + reflexivity.
    + destruct (displays url (BlockPage.res_explanation (ResObject p e))); reflexivity.
  - destruct (BlockPage.res_isProductive (ResLegacy t0)
              && negb (globalRedirectFlag (page w))) eqn:Hgo; cbn [negb andb orb].
    + reflexivity.
    + destruct (displays url (BlockPage.res_explanation (ResLegacy t0))); reflexivity.
  - reflexivity.
Qed.

End FreshVerdict.

(** X18.  A verdict fetched from the analyzer (cache miss, readable store,
    response ok) is cached under the page's cache key with the time of the
    call, whatever it is.  If [result.isProductive && !globalRedirectFlag]
    holds, the page sets the flag and navigates to the original URL and
    sends no message at all, so nothing is recorded as allowed.  Otherwise,
    also for a productive verdict when the flag is already set, it shows
    the blocked section and, if [displayBlockedInfo] can decode the URL and
    the explanation it is given, sends URL_BLOCKED with the verdict's
    explanation.  When the verdict is null, or a text does not decode, the
    page ends in its error section and sends no message. *)
Theorem fresh_verdict_is_cached_and_decided `{Platform}
    (url originalUrl domain : string) (sd : Session)
    (status : Z) (result : AnalysisResult) (w : World) :
  storage_ok w = true ->
  BlockPage.isCacheValid
    (sessionCache (page w) !! BlockPage.cacheKey url domain sd) (now w) = false ->
  analyzer w (BlockPage.requestBody originalUrl domain sd (stContext (storage w)))
  = Response true status result ->
  let go := BlockPage.res_isProductive result && negb (globalRedirectFlag (page w)) in
  let shown := verdict_shown url result in
  let w' := exec (BlockPage.handleAnalysis url originalUrl domain sd) w in
  page w' = {| isAnalyzing := false;
               globalRedirectFlag := go || globalRedirectFlag (page w);
               section := if go then "analyzing" else if shown then "blocked" else "error";
               location := if go then Some originalUrl else location (page w);
               sessionCache := <[BlockPage.cacheKey url domain sd := (result, now w)]>
                                 (sessionCache (page w)) |}
  /\ List.filter is_message (trace w')
     = List.filter is_message (trace w)
       ++ (if negb go && shown
           then [EvSendMessage
                   (URL_BLOCKED originalUrl (BlockPage.res_explanation result))]
           else []).
Proof.
  intros Hok Hmiss Hans go shown w'. subst go shown w'. unfold exec.
  rewrite (run_handleAnalysis_answered url originalUrl domain sd status result w)
    by assumption.
  cbv zeta.
  destruct (negb (BlockPage.res_isProductive result && negb (globalRedirectFlag (page w)))
            && verdict_shown url result);
    cbn [fst]; (split; [reflexivity|]); cbn [with_page trace];
    rewrite !messages_log; cbn [is_message]; now rewrite ?app_nil_r.
Qed.

(** A favourable verdict navigates and sends nothing; an unfavourable one
    whose explanation has a bare per-cent sign ends in the error section,
    and sends nothing either. *)
Lemma fresh_verdict_is_cached_and_decided_witness :
  let sd := mkSession "active" 1 1000 "work" None in
  let st := {| sessionData := Some sd; blockedUrls := None; allowedUrls := None;
               stContext := None |} in
  let world answer :=
    {| storage := st; storage_ok := true; tabs := []; next_tab_id := 100;
       activeUrls := ∅; now := 10; analyzer := fun _ => Response true 200 answer;
       has_receiver := true; page := Simple.emptyPage; trace := [] |} in
  let w1 := exec (BlockPage.handleAnalysis "http://docs.test/" "http://docs.test/"
                    "work" sd) (world (ResObject true "on task")) in
  let w2 := exec (BlockPage.handleAnalysis "http://games.test/" "http://games.test/"
                    "work" sd) (world (ResObject false "100% off task")) in
  (location (page w1) = Some "http://docs.test/"
   /\ List.filter is_message (trace w1) = [])
  /\ (section (page w2) = "error"
      /\ List.filter is_message (trace w2) = []).
Proof.
  intros sd st world w1 w2. subst w1 w2.
  destruct (fresh_verdict_is_cached_and_decided "http://docs.test/" "http://docs.test/"
              "work" sd 200 (ResObject true "on task")
              (world (ResObject true "on task")) eq_refl eq_refl eq_refl)
    as [Hpage1 Hmsg1].
  destruct (fresh_verdict_is_cached_and_decided "http://games.test/" "http://games.test/"
              "work" sd 200 (ResObject false "100% off task")
              (world (ResObject false "100% off task")) eq_refl eq_refl eq_refl)
    as [Hpage2 Hmsg2].
  rewrite Hpage1, Hmsg1, Hpage2, Hmsg2. repeat split.
Defined.

(** X19.  The cached verdict is good for one minute.  After a fetched
    verdict, a second [handleAnalysis] for the same page at clock reading
    [t] makes no call to the analyzer if the first ran at a non-zero time
    less than 60000 ms before [t], and makes exactly one more call
    otherwise. *)
Theorem cached_verdict_valid_for_a_minute `{Platform}
    (url originalUrl domain : string) (sd : Session)
    (status : Z) (result : AnalysisResult) (t : Z) (w : World) :
  storage_ok w = true ->
  BlockPage.isCacheValid
    (sessionCache (page w) !! BlockPage.cacheKey url domain sd) (now w) = false ->
  analyzer w (BlockPage.requestBody originalUrl domain sd (stContext (storage w)))
  = Response true status result ->
  let w1 := exec (BlockPage.handleAnalysis url originalUrl domain sd) w in
  let w2 := exec (BlockPage.handleAnalysis url originalUrl domain sd) (at_time t w1) in
  List.filter is_fetch (trace w2)
  = List.filter is_fetch (trace w1)
    ++ (if negb (Z.eqb (now w) 0) && Z.ltb (t - now w) 60000 then []
        else [EvFetch (BlockPage.requestBody originalUrl domain sd
                         (stContext (storage w)))]).
Proof.
  intros Hok Hmiss Hans w1 w2.
  assert (Hw1 : sessionCache (page w1) !! BlockPage.cacheKey url domain sd
                = Some (result, now w)
                /\ storage w1 = storage w /\ storage_ok w1 = true
                /\ analyzer w1 = analyzer w).
  { subst w1. unfold exec.
    rewrite (run_handleAnalysis_answered url originalUrl domain sd status result w)
      by assumption.
    cbv zeta.
    destruct (negb _ && verdict_shown url result);
      cbn [fst]; wsimpl; cbn [sessionCache]; rewrite lookup_insert_eq; now repeat split. }
  destruct Hw1 as (Hcache & Hst1 & Hok1 & Han1).
  subst w2. rewrite (trace_handleAnalysis url originalUrl domain sd (at_time t w1)).
  cbv zeta.
  set (w0 := with_page _ (at_time t w1)).
  assert (Hcache0 : sessionCache (page w0) !! BlockPage.cacheKey url domain sd
                    = Some (result, now w)) by exact Hcache.
  assert (Htrace0 : trace w0 = trace w1) by reflexivity.
  destruct (negb (Z.eqb (now w) 0) && Z.ltb (t - now w) 60000) eqn:Hvalid.
  - rewrite (handleAnalysis_try_hit url originalUrl domain sd result (now w) w0 Hcache0)
      by exact Hvalid.
    rewrite run_handleAnalysisResult. rewrite app_nil_r, <- Htrace0.
    destruct result as [[|] e|[|]|]; cbv zeta beta iota;
      try (destruct (has_receiver w0)); try (destruct (displays _ _));
      prun; now ftrace.
  - rewrite handleAnalysis_try_miss
      by (rewrite Hcache0; exact Hvalid).
    assert (Hok0 : storage_ok w0 = true) by exact Hok1.
    assert (Hans0 : analyzer w0 (BlockPage.requestBody originalUrl domain sd
                                   (stContext (storage w0)))
                    = Response true status result).
    { change (analyzer w0) with (analyzer w1). change (storage w0) with (storage w1).
      now rewrite Han1, Hst1. }
    rewrite (run_analyze_answered url originalUrl domain sd _ _ status result w0 Hok0 Hans0).
    cbv zeta. change (storage w0) with (storage w1). rewrite Hst1, <- Htrace0.
    destruct result as [p e|t0|];
      [destruct (BlockPage.res_isProductive _ && _); [|destruct (displays _ _)]
      |destruct (BlockPage.res_isProductive _ && _); [|destruct (displays _ _)]
      |];
      prun; now ftrace.
Qed.

Lemma cached_verdict_valid_for_a_minute_witness :
  let sd := mkSession "active" 1 1000 "work" None in
  let st := {| sessionData := Some sd; blockedUrls := None; allowedUrls := None;
               stContext := None |} in
  let w := {| storage := st; storage_ok := true; tabs := []; next_tab_id := 100;
              activeUrls := ∅; now := 10;
              analyzer := fun _ => Response true 200 (ResObject false "off task");
              has_receiver := true; page := Simple.emptyPage; trace := [] |} in
  let w1 := exec (BlockPage.handleAnalysis "http://games.test/" "http://games.test/"
                    "work" sd) w in
  length (List.filter is_fetch
            (trace (exec (BlockPage.handleAnalysis "http://games.test/"
                            "http://games.test/" "work" sd) (at_time 60009 w1))))
  = 1%nat
  /\ length (List.filter is_fetch
               (trace (exec (BlockPage.handleAnalysis "http://games.test/"
                               "http://games.test/" "work" sd) (at_time 60010 w1))))
     = 2%nat.
Proof.
  intros sd st w w1. subst w1.
  rewrite (cached_verdict_valid_for_a_minute "http://games.test/" "http://games.test/"
             "work" sd 200 (ResObject false "off task") 60009 w eq_refl eq_refl eq_refl).
  rewrite (cached_verdict_valid_for_a_minute "http://games.test/" "http://games.test/"
             "work" sd 200 (ResObject false "off task") 60010 w eq_refl eq_refl eq_refl).
  split; vm_compute; reflexivity.
Defined.

(** X20.  A cached favourable verdict is acted on only through the message
    callback: the page sends URL_ALLOWED and navigates to the original URL
    when a listener answers; when none answers it sends the message and
    stays on the analysing section without navigating. *)
Theorem cached_allow_needs_a_listener `{Platform}
    (url originalUrl domain explanation : string) (sd : Session) (ts : Z) (w : World) :
  sessionCache (page w) !! BlockPage.cacheKey url domain sd
  = Some (ResObject true explanation, ts) ->
  ts <> 0 ->
  now w - ts < 60000 ->
  let w' := exec (BlockPage.handleAnalysis url originalUrl domain sd) w in
  List.filter is_message (trace w')
  = List.filter is_message (trace w) ++ [EvSendMessage (URL_ALLOWED originalUrl None)]
  /\ List.filter is_fetch (trace w') = List.filter is_fetch (trace w)
  /\ section (page w') = "analyzing"
  /\ location (page w')
     = (if has_receiver w then Some originalUrl else location (page w)).
Proof.
  intros Hhit Hts Hfresh w'. subst w'. unfold exec.
  rewrite run_handleAnalysis. cbv zeta.
  set (w0 := with_page _ w).
  assert (Hhit0 : sessionCache (page w0) !! BlockPage.cacheKey url domain sd
                  = Some (ResObject true explanation, ts)) by exact Hhit.
  assert (Hvalid : BlockPage.isCacheValid (Some (ResObject true explanation, ts)) (now w0)
                   = true).
  { unfold BlockPage.isCacheValid. apply andb_true_iff. split.
    - apply negb_true_iff. now apply Z.eqb_neq.
    - apply Z.ltb_lt. exact Hfresh. }
  rewrite (handleAnalysis_try_hit url originalUrl domain sd _ ts w0 Hhit0 Hvalid).
  rewrite run_handleAnalysisResult. cbv zeta beta iota.
  change (has_receiver w0) with (has_receiver w).
  destruct (has_receiver w); prun; subst w0;
    cbn [with_page log trace page section location];
    rewrite !List.filter_app; cbn [List.filter is_message is_fetch];
    rewrite ?app_nil_r; now repeat split.
Qed.

Lemma cached_allow_needs_a_listener_witness :
  let sd := mkSession "active" 1 1000 "work" None in
  let key := BlockPage.cacheKey "http://docs.test/" "work" sd in
  let pg := {| isAnalyzing := false; globalRedirectFlag := false; section := "no-session";
               location := None;
               sessionCache := {[ key := (ResObject true "on task", 5) ]} |} in
  let w := {| storage := emptyStore; storage_ok := true; tabs := []; next_tab_id := 100;
              activeUrls := ∅; now := 10; analyzer := fun _ => NetworkError;
              has_receiver := false; page := pg; trace := [] |} in
  location (page (exec (BlockPage.handleAnalysis "http://docs.test/" "http://docs.test/"
                          "work" sd) w)) = None.
Proof.
  intros sd key pg w.
  assert (Hhit : sessionCache (page w) !! BlockPage.cacheKey "http://docs.test/" "work" sd
                 = Some (ResObject true "on task", 5))
    by (apply lookup_singleton_eq).
  destruct (cached_allow_needs_a_listener "http://docs.test/" "http://docs.test/" "work"
              "on task" sd 5 w Hhit ltac:(discriminate) ltac:(simpl; lia))
    as (_ & _ & _ & Hloc).
  exact Hloc.
Defined.

(** ** The session timer of the block page *)

(** X21.  [updateTimer] of the block page is what ends an expired session
    in src/extension/background.js.  On a page that has the countdown
    element, when the stored endTime is set and is not in the future, it
    clears the page's sessionStorage and the whole store, shows the
    no-session section and, unless the page's address already carries
    reason=no-session, replaces the address by the block page with reason
    no-session; it never lets an exception escape.  As long as the store
    stays as the timer left it, the pre-navigation handler finds no
    session: a main-frame http navigation to a URL that is not exempt is
    rewritten to the block page. *)
Theorem updateTimer_ends_expired_session `{Platform}
    (href : string) (sd : Session) (w : World) :
  has_element "countdown" = true ->
  storage_ok w = true ->
  sessionData (storage w) = Some sd ->
  endTime sd <> 0 ->
  endTime sd <= now w ->
  let w' := exec (BlockPageTimer.updateTimer href) w in
  snd (run (BlockPageTimer.updateTimer href) w) = Returned tt
  /\ storage w' = emptyStore
  /\ page w' = {| isAnalyzing := isAnalyzing (page w);
                  globalRedirectFlag := globalRedirectFlag (page w);
                  section := "no-session";
                  location := if JsString.includes href "reason=no-session"
                              then location (page w)
                              else Some (BlockPageTimer.expiredUrl href);
                  sessionCache := ∅ |}
  /\ forall (details : NavDetails) (later : World),
       storage later = storage w' ->
       storage_ok later = true ->
       frameId details = 0 ->
       JsString.startsWith (nav_url details) "http" = true ->
       Opera.isExemptUrl (nav_url details) = false ->
       run (Opera.onBeforeNavigate details) later
       = (redirected (nav_tabId details) (Opera.noSessionUrl (nav_url details))
            (log (EvStorageGet ["sessionData"; "blockedUrls"; "allowedUrls"]) later),
          Returned tt).
Proof.
  intros Hel Hok Hsd Hnz Hpast w'.
  assert (Hrun : run (BlockPageTimer.updateTimer href) w
                 = (with_page {| isAnalyzing := isAnalyzing (page w);
                                 globalRedirectFlag := globalRedirectFlag (page w);
                                 section := "no-session";
                                 location := if JsString.includes href "reason=no-session"
                                             then location (page w)
                                             else Some (BlockPageTimer.expiredUrl href);
                                 sessionCache := ∅ |}
                      (log EvStorageClear
                         (with_storage emptyStore (log (EvStorageGet ["sessionData"]) w))),
                    Returned tt)).
  { unfold BlockPageTimer.updateTimer. rewrite run_try_catch.
    unfold BlockPageTimer.updateTimer_try, BlockPageTimer.setCountdown. step. rewrite Hok.
    cbn [restrict has_key existsb String.eqb Ascii.eqb Bool.eqb orb sessionData].
    rewrite Hsd. apply Z.eqb_neq in Hnz. rewrite Hnz. cbn [negb].
    step. wsimpl.
    assert (Hlt : Z.ltb 0 (endTime sd - now w) = false) by (apply Z.ltb_ge; lia).
    rewrite Hlt, Hel.
    rewrite run_bind. cbn [run].
    rewrite run_bind. unfold BlockPageTimer.clearSessionStorage at 1.
    repeat step. wsimpl. rewrite Hok.
    rewrite run_bind, run_showSection. wsimpl.
    cbn [isAnalyzing globalRedirectFlag section location sessionCache].
    destruct (JsString.includes href "reason=no-session"); cbn [negb].
    - reflexivity.
    - unfold BlockPageTimer.locationReplace. repeat step. reflexivity. }
  subst w'. unfold exec. rewrite Hrun. cbn [fst snd].
  repeat split.
  intros details later Hst Hlater Hframe Hhttp Hne.
  apply Opera_onBeforeNavigate_no_session; try assumption.
  now rewrite Hst.
Qed.

Lemma updateTimer_ends_expired_session_witness :
  let sd := mkSession "active" 1 1000 "work" None in
  let st := {| sessionData := Some sd; blockedUrls := None; allowedUrls := None;
               stContext := None |} in
  let w := Simple.world st [mkTab 1 "http://old.test/"] ∅ 1000 in
  let w' := exec (BlockPageTimer.updateTimer
                    (Opera.analyzingUrl "http://games.test/" sd)) w in
  storage w' = emptyStore
  /\ url_of_tab (tabs (exec (Opera.onBeforeNavigate (mkNav 0 "http://games.test/" 1)) w')) 1
     = Some (Opera.noSessionUrl "http://games.test/").
Proof.
  intros sd st w w'. subst w'.
  assert (Hel : has_element "countdown" = true) by reflexivity.
  destruct (updateTimer_ends_expired_session (Opera.analyzingUrl "http://games.test/" sd)
              sd w Hel eq_refl eq_refl ltac:(discriminate) ltac:(simpl; lia))
    as (_ & Hst & _ & Hnav).
  split; [exact Hst|].
  unfold exec at 1.
  rewrite (Hnav (mkNav 0 "http://games.test/" 1) _ eq_refl eq_refl eq_refl eq_refl eq_refl).
  vm_compute. reflexivity.
Defined.

(** X22.  While the session has time left, or has no endTime, or no session
    is stored, [updateTimer] changes nothing but the countdown text; and
    when the store cannot be read its catch block swallows the error. *)
Theorem updateTimer_keeps_running_session `{Platform} (href : string) (w : World) :
  storage_ok w = false
  \/ match sessionData (storage w) with
     | Some sd => endTime sd = 0 \/ now w < endTime sd
     | None => True
     end ->
  run (BlockPageTimer.updateTimer href) w
  = (log (EvStorageGet ["sessionData"]) w, Returned tt).
Proof.
  intros Hcase. unfold BlockPageTimer.updateTimer. rewrite run_try_catch.
  unfold BlockPageTimer.updateTimer_try, BlockPageTimer.setCountdown. step.
  destruct (storage_ok w) eqn:Hok; [|reflexivity].
  destruct Hcase as [Hbad|Hleft]; [discriminate|].
  cbn [restrict has_key existsb String.eqb Ascii.eqb Bool.eqb orb sessionData].
  destruct (sessionData (storage w)) as [sd|]; [|reflexivity].
  destruct (Z.eqb_spec (endTime sd) 0) as [Hz|Hnz]; [reflexivity|].
  cbn [negb]. step. wsimpl.
  destruct Hleft as [Hz|Hlt]; [contradiction|].
  assert (Hpos : Z.ltb 0 (endTime sd - now w) = true) by (apply Z.ltb_lt; lia).
  rewrite Hpos. now destruct (has_element "countdown").
Qed.

Lemma updateTimer_keeps_running_session_witness :
  let sd := mkSession "active" 1 1000 "work" None in
  let st := {| sessionData := Some sd; blockedUrls := None; allowedUrls := None;
               stContext := None |} in
  storage (exec (BlockPageTimer.updateTimer "x") (Simple.world st [] ∅ 999)) = st.
Proof.
  intros sd st. unfold exec.
  assert (Hleft : endTime sd = 0 \/ 999 < endTime sd) by (right; simpl; lia).
  rewrite (updateTimer_keeps_running_session "x" (Simple.world st [] ∅ 999)
             (or_intror Hleft)).
  reflexivity.
Defined.

(** ** Keys and classifiers across the scripts *)

Section KeysAcrossScripts.
Context `{Platform}.
Import JsString JsStringFacts.


Lemma not_searchHost (h : string) :
  Opera.isSearchHost h = false ->
  includes h "duckduckgo.com" = false /\ includes h "google.com" = false
  /\ includes h "bing.com" = false.
Proof.
  unfold Opera.isSearchHost. intros Hno.
  apply orb_false_iff in Hno as [Hno Hd].
  apply orb_false_iff in Hno as [Hg Hb]. now repeat split.
Qed.

Lemma extractSearchQuery_other_host (url : string) (p : URL) :
  parseURL url = Some p ->
  Opera.isSearchHost (hostname p) = false ->
  Opera.extractSearchQuery url = "".
Proof.
  intros Hp Hno. apply not_searchHost in Hno as (Hd & Hg & Hb).
  unfold Opera.extractSearchQuery. now rewrite Hp, Hd, Hg, Hb.
Qed.

Lemma extractSearchQuery_searchHost_only (url : string) (p : URL) :
  parseURL url = Some p ->
  Opera.extractSearchQuery url <> "" ->
  Opera.isSearchHost (hostname p) = true.
Proof.
  intros Hp Hq. destruct (Opera.isSearchHost (hostname p)) eqn:Hs; [reflexivity|].
  now rewrite (extractSearchQuery_other_host url p Hp Hs) in Hq.
Qed.

Lemma Includes_getURL (url path : string) :
  Includes url (Js.getURL path) -> Includes url runtime_id /\ Includes url path.
Proof.
  intros (a & b & ->). unfold Js.getURL. split.
  - exists (a +:+ "chrome-extension://"), (("/" +:+ path) +:+ b).
    now rewrite !JsStringFacts.app_assoc.
  - exists (a +:+ "chrome-extension://" +:+ runtime_id +:+ "/"), b.
    now rewrite !JsStringFacts.app_assoc.
Qed.

End KeysAcrossScripts.



(** X24.  The block page and the background script of
    src/extension/background.js extract the same search query from every
    URL and normalise every URL outside the search hosts alike, but they
    normalise a search URL with a query differently: the block page to
    origin?q=query, the background script to origin/search/query. *)
Theorem block_page_normalises_search_urls_differently `{Platform}
    (url : string) (p : URL) :
  parseURL url = Some p ->
  BlockPage.extractSearchQuery url = Opera.extractSearchQuery url
  /\ (Opera.isSearchHost (hostname p) = false ->
      BlockPage.normalizeUrl url = Opera.normalizeUrl url)
  /\ (Opera.extractSearchQuery url <> "" ->
      BlockPage.normalizeUrl url <> Opera.normalizeUrl url).
Proof.
  intros Hp. split; [reflexivity|]. split.
  - intros Hno. unfold BlockPage.normalizeUrl, Opera.normalizeUrl.
    rewrite Hp, Hno.
    change (BlockPage.extractSearchQuery url) with (Opera.extractSearchQuery url).
    rewrite (extractSearchQuery_other_host url p Hp Hno). reflexivity.
  - intros Hq. unfold BlockPage.normalizeUrl, Opera.normalizeUrl.
    rewrite Hp, (extractSearchQuery_searchHost_only url p Hp Hq).
    change (BlockPage.extractSearchQuery url) with (Opera.extractSearchQuery url).
    cbv zeta. unfold JsString.truthy, JsString.or_default.
    apply String.eqb_neq in Hq. rewrite Hq. cbn [negb].
    rewrite !JsStringFacts.toLowerCase_app.
    intros Heq. apply JsStringFacts.app_inv_head in Heq.
    vm_compute in Heq. discriminate Heq.
Qed.

Lemma block_page_normalises_search_urls_differently_witness :
  BlockPage.normalizeUrl "https://www.google.com/search?q=cats"
  <> Opera.normalizeUrl "https://www.google.com/search?q=cats".
Proof.
  assert (Hp : parseURL "https://www.google.com/search?q=cats"
               = Some (mkURL "https://www.google.com" "www.google.com" "/search"
                         [("q", "cats")] "https:" "" "" "" ""))
    by (vm_compute; reflexivity).
  destruct (block_page_normalises_search_urls_differently _ _ Hp) as (_ & _ & Hdiff).
  apply Hdiff. vm_compute. discriminate.
Defined.

(** X25.  The three exemption classifiers are nested.  Those of part_005
    and part_006 are the same function: they agree on every URL.  Every URL
    they exempt is exempt in src/extension/background.js as well, and not
    the other way round: background.js alone exempts a URL for carrying
    '127.0.0.1:5000'. *)
Theorem exempt_in_part_006_is_exempt_everywhere `{Platform} (url : string) :
  Chrome.isExemptUrl url = Legacy.isExemptUrl url
  /\ (Legacy.isExemptUrl url = true -> Opera.isExemptUrl url = true)
  /\ (Opera.isExemptUrl "http://127.0.0.1:5000/" = true
      /\ Legacy.isExemptUrl "http://127.0.0.1:5000/" = false).
Proof.
  split; [reflexivity|]. split; [|split; reflexivity].
  intros Hex.
  apply Legacy_isExemptUrl_iff in Hex. apply Opera_isExemptUrl_iff.
  destruct Hex as [Hc|[Hce|[Ho|[Ha|[Hf|[Hl|[_ Hb]]]]]]]; try tauto.
  do 7 right. now apply Includes_getURL.
Qed.

Lemma exempt_in_part_006_is_exempt_everywhere_witness :
  Opera.isExemptUrl (Legacy.sessionEndedUrl "http://games.test/") = true.
Proof.
  destruct (exempt_in_part_006_is_exempt_everywhere
              (Legacy.sessionEndedUrl "http://games.test/")) as (_ & Hsub & _).
  exact (Hsub eq_refl).
Defined.

(** X26.  The verdict listener of part_005 records nothing when it cannot:
    if the store cannot be read, or the URL of the message does not parse,
    the exception escapes the listener, the store is unchanged, the URL
    stays in the in-flight set and the popup is not told. *)
Theorem Chrome_onMessage_failure_records_nothing `{Platform}
    (url : string) (reason : option string) (w : World) :
  storage_ok w = false \/ parseURL url = None ->
  (snd (run (Chrome.onMessage (URL_BLOCKED url reason)) w) = Threw
   /\ storage (exec (Chrome.onMessage (URL_BLOCKED url reason)) w) = storage w
   /\ activeUrls (exec (Chrome.onMessage (URL_BLOCKED url reason)) w) = activeUrls w
   /\ List.filter is_message (trace (exec (Chrome.onMessage (URL_BLOCKED url reason)) w))
      = List.filter is_message (trace w))
  /\ (snd (run (Chrome.onMessage (URL_ALLOWED url reason)) w) = Threw
      /\ storage (exec (Chrome.onMessage (URL_ALLOWED url reason)) w) = storage w
      /\ activeUrls (exec (Chrome.onMessage (URL_ALLOWED url reason)) w) = activeUrls w
      /\ List.filter is_message (trace (exec (Chrome.onMessage (URL_ALLOWED url reason)) w))
         = List.filter is_message (trace w)).
Proof.
  intros Hcase.
  assert (Hthrow : forall (data : option Store) (k : Store -> URL -> Eff unit) (w0 : World),
             data = None \/ parseURL url = None ->
             run (match data, parseURL url with
                  | Some d, Some urlObj => k d urlObj
                  | _, _ => Throw
                  end) w0 = (w0, Threw)).
  { intros data k w0 [->|Hp]; [reflexivity|]. rewrite Hp. now destruct data. }
  assert (Hdata : (if storage_ok w then Some (restrict ["blockedUrls"] (storage w))
                   else None) = None \/ parseURL url = None)
    by (destruct Hcase as [->|Hp]; [now left|now right]).
  assert (Hdata' : (if storage_ok w then Some (restrict ["allowedUrls"] (storage w))
                    else None) = None \/ parseURL url = None)
    by (destruct Hcase as [->|Hp]; [now left|now right]).
  split; unfold exec, Chrome.onMessage; step.
  - rewrite (Hthrow _ _ _ Hdata). cbn [fst snd]. repeat split.
    rewrite messages_log. cbn [is_message]. now rewrite app_nil_r.
  - rewrite (Hthrow _ _ _ Hdata'). cbn [fst snd]. repeat split.
    rewrite messages_log. cbn [is_message]. now rewrite app_nil_r.
Qed.

Lemma Chrome_onMessage_failure_records_nothing_witness :
  let w := Simple.world emptyStore [] {[ "not a url" ]} 10 in
  activeUrls (exec (Chrome.onMessage (URL_ALLOWED "not a url" None)) w) = {[ "not a url" ]}.
Proof.
  intros w.
  assert (Hp : parseURL "not a url" = None) by (vm_compute; reflexivity).
  destruct (Chrome_onMessage_failure_records_nothing "not a url" None w (or_intror Hp))
    as (_ & _ & _ & Hact & _).
  exact Hact.
Defined.

(** X27.  In part_006 an error in a navigation handler blocks: when the
    store cannot be read, a main-frame http navigation, and a tab update to
    an http URL, is rewritten to the block page with reason=error unless
    the URL is exempt, in which case the tab is left alone. *)
Theorem Legacy_default_deny_on_error `{Platform}
    (details : NavDetails) (u : TabUpdate) (w : World) :
  storage_ok w = false ->
  (frameId details = 0 ->
   JsString.startsWith (nav_url details) "http" = true ->
   run (Legacy.onBeforeNavigate details) w
   = (let w1 := log (EvStorageGet ["sessionData"; "blockedUrls"; "allowedUrls"]) w in
      if Legacy.isExemptUrl (nav_url details) then w1
      else redirected (nav_tabId details) (Legacy.errorUrl (nav_url details)) w1,
      Returned tt))
  /\ (JsString.startsWith (changeInfo_url u) "http" = true ->
      run (LegacyHandlers.onUpdated u) w
      = (let w1 := log (EvStorageGet ["sessionData"]) w in
         if Legacy.isExemptUrl (changeInfo_url u) then w1
         else redirected (upd_tabId u) (Legacy.errorUrl (changeInfo_url u)) w1,
         Returned tt)).
Proof.
  intros Hfail. split.
  - intros Hframe Hhttp. unfold Legacy.onBeforeNavigate.
    rewrite Hframe, Hhttp. cbn [Z.eqb negb orb].
    rewrite run_try_catch. unfold Legacy.onBeforeNavigate_try. step. rewrite Hfail.
    cbn [run]. unfold Legacy.onError. cbv zeta.
    destruct (Legacy.isExemptUrl (nav_url details)); cbn [negb]; [|step]; reflexivity.
  - intros Hhttp. unfold LegacyHandlers.onUpdated.
    rewrite (startsWith_http_truthy _ Hhttp), Hhttp. cbn [negb orb].
    rewrite run_try_catch. unfold LegacyHandlers.onUpdated_try. step. rewrite Hfail.
    cbn [run]. unfold Legacy.onError. cbv zeta.
    destruct (Legacy.isExemptUrl (changeInfo_url u)); cbn [negb]; [|step]; reflexivity.
Qed.

Lemma Legacy_default_deny_on_error_witness :
  let w := Simple.failing (Simple.world emptyStore [mkTab 1 "http://old.test/"] ∅ 10) in
  url_of_tab (tabs (exec (Legacy.onBeforeNavigate (mkNav 0 "http://a.test/" 1)) w)) 1
  = Some (Legacy.errorUrl "http://a.test/").
Proof.
  intros w.
  destruct (Legacy_default_deny_on_error (mkNav 0 "http://a.test/" 1)
              (mkUpd 1 "" "" "") w eq_refl) as [Hnav _].
  unfold exec. rewrite (Hnav eq_refl eq_refl). vm_compute. reflexivity.
Defined.

(** X28.  In part_005 a verdict recorded for a page without a query also
    decides every URL with the same host (up to case) and path that carries
    a q parameter, through the look-up's fall-back to the normalised key.
    After URL_BLOCKED for the page, a completed update to such a URL under
    an active session is rewritten to the block page with reason blocked;
    after URL_ALLOWED for the page, and no blocked entry, such a URL is not
    sent to analysis: no tab is rewritten and nothing is marked in
    flight. *)
Theorem Chrome_verdict_for_page_covers_its_queries `{Platform}
    (page_url url : string) (reason : option string) (tabId : Z) (changed : string)
    (sd : Session) (p0 p : URL) (w : World) :
  storage_ok w = true ->
  sessionData (storage w) = Some sd ->
  state sd = "active" ->
  parseURL page_url = Some p0 ->
  Js.get_or_empty p0 "q" = "" ->
  parseURL url = Some p ->
  JsString.toLowerCase (hostname p) = JsString.toLowerCase (hostname p0) ->
  pathname p = pathname p0 ->
  url <> "" ->
  Chrome.isInternalUrl url = false ->
  Chrome.isBlockPage url = false ->
  Js.searchParams_get (searchParams p) "reason" <> Some "blocked" ->
  let u := mkUpd tabId changed "complete" url in
  let wb := exec (Chrome.onMessage (URL_BLOCKED page_url reason)) w in
  let wa := exec (Chrome.onMessage (URL_ALLOWED page_url reason)) w in
  (exists e : Entry,
     List.filter is_update (trace (exec (Chrome.onUpdated u) wb))
     = List.filter is_update (trace wb) ++ [EvTabsUpdate tabId (Chrome.blockedUrl url sd e)])
  /\ (Chrome.lookup_opt (blockedUrls (storage w))
        (Chrome.getUrlKey url) (Chrome.normalizeUrl url) = None ->
      tabs (exec (Chrome.onUpdated u) wa) = tabs wa
      /\ activeUrls (exec (Chrome.onUpdated u) wa) = activeUrls wa
      /\ List.filter is_update (trace (exec (Chrome.onUpdated u) wa))
         = List.filter is_update (trace wa)).
Proof.
  intros Hok Hsd Hactive Hp0 Hq0 Hp Hhost Hpath Hurl Hinternal Hblock Hreason u wb wa.
  subst u.
  assert (Hkey0 : Chrome.getUrlKey page_url = Chrome.normalizeUrl url).
  { unfold Chrome.getUrlKey, Chrome.normalizeUrl. rewrite Hp0, Hp, Hq0. cbn.
    now rewrite Hhost, Hpath. }
  split.
  - destruct (run_onMessage_blocked page_url reason p0 w Hok Hp0) as [Hst _].
    fold wb in Hst.
    assert (Hok1 : storage_ok wb = true) by (unfold wb; now rewrite onMessage_keeps_ok).
    assert (Hsd1 : sessionData (storage wb) = Some sd) by now rewrite Hst.
    assert (He : exists e, Chrome.lookup_opt (blockedUrls (storage wb))
                             (Chrome.getUrlKey url) (Chrome.normalizeUrl url) = Some e).
    { rewrite Hst. cbn [blockedUrls Chrome.lookup_opt]. unfold lookup_or.
      destruct (_ !! Chrome.getUrlKey url) as [e'|]; [now exists e'|].
      rewrite Hkey0, lookup_insert_eq. eauto. }
    destruct He as [e He]. exists e. unfold exec at 1.
    rewrite (Chrome_onUpdated_blocked (mkUpd tabId changed "complete" url) sd p e wb
               Hok1 Hsd1 Hactive eq_refl Hurl Hinternal Hblock Hp He).
    cbn [upd_tab_url upd_tabId]. unfold Chrome.getBlockPageReason. rewrite Hp.
    rewrite bool_decide_eq_false_2 by exact Hreason.
    cbn [fst]. unfold redirected.
    wsimpl. rewrite !List.filter_app. cbn [List.filter is_update].
    now rewrite !app_nil_r.
  - intros Hnot.
    destruct (run_onMessage_allowed page_url reason p0 w Hok Hp0) as [Hst _].
    fold wa in Hst.
    assert (Hok1 : storage_ok wa = true) by (unfold wa; now rewrite onMessage_keeps_ok).
    assert (Hsd1 : sessionData (storage wa) = Some sd) by now rewrite Hst.
    assert (Hnot1 : Chrome.lookup_opt (blockedUrls (storage wa))
                      (Chrome.getUrlKey url) (Chrome.normalizeUrl url) = None)
      by (rewrite Hst; exact Hnot).
    assert (Hsome : is_Some (Chrome.lookup_opt (allowedUrls (storage wa))
                               (Chrome.getUrlKey url) (Chrome.normalizeUrl url))).
    { rewrite Hst. cbn [allowedUrls Chrome.lookup_opt]. unfold lookup_or.
      destruct (_ !! Chrome.getUrlKey url) as [e'|]; [eauto|].
      rewrite Hkey0, lookup_insert_eq. eauto. }
    unfold exec.
    rewrite (Chrome_onUpdated_active (mkUpd tabId changed "complete" url) sd p wa
               Hok1 Hsd1 Hactive eq_refl Hurl Hinternal Hblock Hp).
    cbn [upd_tab_url upd_tabId].
    rewrite Hnot1, run_try_catch. step.
    rewrite (bool_decide_eq_true_2 _ Hsome), andb_false_r.
    destruct (Chrome.lookup_opt _ (Chrome.getUrlKey url) (Chrome.getUrlKey url));
      [step|cbn [run]]; cbn [fst]; wsimpl; repeat split;
      rewrite !List.filter_app; cbn [List.filter is_update]; now rewrite !app_nil_r.
Qed.

Lemma Chrome_verdict_for_page_covers_its_queries_witness :
  let sd := mkSession "active" 1 1000 "work" None in
  let st := {| sessionData := Some sd; blockedUrls := None; allowedUrls := None;
               stContext := None |} in
  let w := Simple.world st [mkTab 1 "http://find.test/s?q=cats"] ∅ 10 in
  let wa := exec (Chrome.onMessage (URL_ALLOWED "http://find.test/s" None)) w in
  tabs (exec (Chrome.onUpdated (mkUpd 1 "" "complete" "http://find.test/s?q=cats")) wa)
  = tabs wa.
Proof.
  intros sd st w wa.
  assert (Hp0 : parseURL "http://find.test/s"
                = Some (mkURL "http://find.test" "find.test" "/s" [] "http:" "" "" "" ""))
    by (vm_compute; reflexivity).
  assert (Hp : parseURL "http://find.test/s?q=cats"
               = Some (mkURL "http://find.test" "find.test" "/s" [("q", "cats")] "http:" "" "" "" ""))
    by (vm_compute; reflexivity).
  destruct (Chrome_verdict_for_page_covers_its_queries
              "http://find.test/s" "http://find.test/s?q=cats" None 1 "" sd _ _ w
              eq_refl eq_refl eq_refl Hp0 eq_refl Hp eq_refl eq_refl
              ltac:(discriminate) eq_refl eq_refl ltac:(discriminate))
    as [_ Hallow].
  destruct (Hallow eq_refl) as [Htabs _]. exact Htabs.
Defined.

(* END *)
